(* ========================================================================= *)
(*  Lata Dairy management backend (src/backend/server.py)                    *)
(*                                                                           *)
(*  A shallow embedding of the request handlers that touch the ledger:       *)
(*  daily sales and the customer balance, guest sales, monthly billing,      *)
(*  the dashboard chart and rankings, and the bill e-mail.                   *)
(*                                                                           *)
(*  Layout                                                                   *)
(*    1. Amounts: the arithmetic the handlers perform on money               *)
(*    2. Documents, the document store and the handlers, in the order of     *)
(*       the source file                                                     *)
(*    3. Vocabulary of the statements and concrete ledgers                   *)
(*    4. Theorems                                                            *)
(*                                                                           *)
(*  Scope of the model.  Collections are lists in insertion order and a      *)
(*  query acts on the first match, as the driver does.  Identifiers and      *)
(*  timestamps drawn by a handler, the clock, the two strftime renderings    *)
(*  and the outcome of the e-mail provider are inputs of the handler.        *)
(*  Integers are Python integers; the 64-bit limit of the store's integer    *)
(*  encoding is not modelled.                                                *)
(* ========================================================================= *)

From Stdlib Require Import ZArith List String Ascii Bool Lia.
From Stdlib Require Import Permutation Sorted DecimalString.
From Stdlib Require Import Floats.
Import ListNotations.

Set Implicit Arguments.
Set Maximal Implicit Insertion.
Open Scope string_scope.
Open Scope list_scope.
Open Scope Z_scope.

(* ========================================================================= *)
(** * 1. Amounts                                                             *)
(* ========================================================================= *)

(** Every monetary field of the source is a Python [float] (pydantic
    [float] fields, stored as BSON doubles).  The handlers use five operations
    on them: [+] (also the store's [$inc] and [$sum]), binary [-], unary [-],
    the comparison [>=], and the store's ordering in a [$sort] stage.  The
    handlers are written once over this interface; [float_Amount] below is the
    instance the program runs with, [Z_Amount] is exact arithmetic. *)
Class Amount (A : Type) : Type := {
  zero : A;
  add : A -> A -> A;
  sub : A -> A -> A;
  neg : A -> A;
  ge : A -> A -> bool;
  sort_le : A -> A -> bool
}.

Declare Scope amount_scope.
Delimit Scope amount_scope with amount.
Notation "x [+] y" := (add x y)
  (at level 50, left associativity) : amount_scope.
Notation "x [-] y" := (sub x y)
  (at level 50, left associativity) : amount_scope.
Notation "x [>=] y" := (ge x y)
  (at level 70, no associativity) : amount_scope.
Open Scope amount_scope.

(** Arithmetic without rounding: amounts form a commutative group under [+],
    and [-] is addition of the opposite. *)
Class ExactAmount (A : Type) {AM : Amount A} : Prop := {
  add_comm : forall x y : A, x [+] y = y [+] x;
  add_assoc : forall x y z : A, x [+] (y [+] z) = (x [+] y) [+] z;
  add_zero_l : forall x : A, zero [+] x = x;
  add_neg_r : forall x : A, x [+] neg x = zero;
  sub_add_neg : forall x y : A, x [-] y = x [+] neg y
}.
Arguments ExactAmount A {AM}.

(** The store orders numbers totally (BSON places NaN below every number). *)
Class OrderedAmount (A : Type) {AM : Amount A} : Prop := {
  sort_le_total : forall x y : A, sort_le x y = true \/ sort_le y x = true;
  sort_le_trans : forall x y z : A,
      sort_le x y = true -> sort_le y z = true -> sort_le x z = true
}.
Arguments OrderedAmount A {AM}.

(** IEEE 754 binary64, as Python and the store compute. *)
Definition float_is_nan (x : float) : bool := negb (PrimFloat.eqb x x).

#[export] Instance float_Amount : Amount float := {
  zero := 0%float;
  add := PrimFloat.add;
  sub := PrimFloat.sub;
  neg := PrimFloat.opp;
  ge := fun x y => PrimFloat.leb y x;
  sort_le := fun x y => float_is_nan x || PrimFloat.leb x y
}.

(** Neither a NaN nor an infinity. *)
Definition float_finite (x : float) : bool :=
  match Prim2SF x with
  | S754_zero _ | S754_finite _ _ _ => true
  | _ => false
  end.

(** Exact integer amounts (for instance an amount counted in paise). *)
#[export] Instance Z_Amount : Amount Z := {
  zero := 0;
  add := Z.add;
  sub := Z.sub;
  neg := Z.opp;
  ge := Z.geb;
  sort_le := Z.leb
}.

(** Python's builtin [sum]: starts from 0 and adds left to right.  (CPython
    3.12 and later compensate the rounding error of a sum of floats; the two
    agree on a single summand, on sums that are exact in binary64, and in
    exact arithmetic, which is all the statements below rely on.) *)
Definition py_sum {A} {AM : Amount A} (xs : list A) : A :=
  fold_left add xs zero.

(* ========================================================================= *)
(** * 2. Documents and the document store                                    *)
(* ========================================================================= *)

(** Exceptions a handler can raise.  [HTTPException 404 _] is the NotFound of
    the interface; the others are the Python and driver errors that escape the
    handler unhandled. *)
Inductive exn : Type :=
| HTTPException (status_code : Z) (detail : string)
| OverflowError
| IndexError
| ValueError
| OperationFailure.

Inductive result (R : Type) : Type :=
| Ok (r : R)
| Raise (e : exn).
Arguments Ok {R} r.
Arguments Raise {R} e.

Definition is_ok {R} (r : result R) : bool :=
  match r with Ok _ => true | Raise _ => false end.

(** ** Collections

    A collection is the list of its documents in natural (insertion) order.
    The primitives follow the driver: [find_one], [update_one] and
    [delete_one] act on the first document that matches, [insert_one] appends,
    and [to_list n] returns at most [n] documents of a cursor. *)
Section Collection.
Context {D : Type}.

Definition find_one (q : D -> bool) (coll : list D) : option D :=
  List.find q coll.

Definition find (q : D -> bool) (coll : list D) : list D :=
  List.filter q coll.

Definition to_list (n : nat) (cursor : list D) : list D :=
  firstn n cursor.

Definition insert_one (d : D) (coll : list D) : list D :=
  coll ++ [d].

Fixpoint update_one (q : D -> bool) (u : D -> D) (coll : list D) : list D :=
  match coll with
  | [] => []
  | d :: rest => if q d then u d :: rest else d :: update_one q u rest
  end.

Fixpoint delete_one (q : D -> bool) (coll : list D) : list D :=
  match coll with
  | [] => []
  | d :: rest => if q d then rest else d :: delete_one q rest
  end.

End Collection.

(** ** The [$group] stage of an aggregation pipeline

    One accumulator per distinct key, kept in order of first occurrence (the
    store leaves the order of the groups open).  [first] builds the
    accumulator from the first document of a group, [accumulate] folds one
    more document in. *)
Section Group.
Context {Doc G : Type}.
Variable doc_key : Doc -> string.
Variable group_key : G -> string.
Variable first : Doc -> G.
Variable accumulate : G -> Doc -> G.

Fixpoint group_add (d : Doc) (gs : list G) : list G :=
  match gs with
  | [] => [first d]
  | g :: rest =>
      if String.eqb (group_key g) (doc_key d) then accumulate g d :: rest
      else g :: group_add d rest
  end.

Definition stage_group (docs : list Doc) : list G :=
  fold_left (fun gs d => group_add d gs) docs [].

(** The documents that belong to the group [g]. *)
Definition in_group (g : G) (d : Doc) : bool :=
  String.eqb (doc_key d) (group_key g).
End Group.

(** ** Sorted cursors

    [cursor.sort(...)] as a stable insertion sort.  [before a b] says that
    [a] may stand before [b]; the store leaves the order of documents with
    equal keys open. *)
Section SortBy.
Context {D : Type}.
Variable before : D -> D -> bool.

Fixpoint insert_by (d : D) (l : list D) : list D :=
  match l with
  | [] => [d]
  | h :: t => if before d h then d :: h :: t else h :: insert_by d t
  end.

Definition sort_by (l : list D) : list D := fold_right insert_by [] l.
End SortBy.

(** [collection.distinct(field)]: each value once. *)
Definition distinct (values : list string) : list string :=
  nodup string_dec values.

(** Python's truth value of an [Optional[str]]: [None] and [""] are false. *)
Definition truthy (s : option string) : bool :=
  match s with
  | Some v => negb (String.eqb v "")
  | None => false
  end.

Section Ledger.
Variable A : Type.
Context {AM : Amount A}.

(** ** Models (pydantic classes of the source) *)

Record Product : Type := {
  prod_id : string;
  prod_name : string;
  prod_category : string;
  prod_unit : string;
  prod_price : A;
  prod_description : option string;
  prod_is_active : bool;
  prod_created_at : string
}.

Record Customer : Type := {
  cust_id : string;
  cust_name : string;
  cust_phone : string;
  cust_address : string;
  cust_email : option string;
  outstanding_balance : A;
  credit_limit : A;
  cust_is_active : bool;
  cust_created_at : string
}.

Record SaleItem : Type := {
  product_id : string;
  product_name : string;
  quantity : A;
  unit : string;
  price : A;
  total : A
}.

Record DailySale : Type := {
  sale_id : string;
  customer_id : string;
  customer_name : string;
  date : string;
  items : list SaleItem;
  total_amount : A;
  paid_amount : A;
  is_paid : bool;
  created_at : string
}.

Record DailySaleCreate : Type := {
  dsc_customer_id : string;
  dsc_date : string;
  dsc_items : list SaleItem;
  dsc_paid_amount : A
}.

Record GuestSale : Type := {
  gs_id : string;
  guest_name : option string;
  guest_phone : option string;
  gs_date : string;
  gs_items : list SaleItem;
  gs_total_amount : A;
  payment_method : string;
  gs_created_at : string
}.

Record GuestSaleCreate : Type := {
  gsc_guest_name : option string;
  gsc_guest_phone : option string;
  gsc_items : list SaleItem;
  gsc_payment_method : string
}.

Record MonthlyBill : Type := {
  bill_id : string;
  bill_customer_id : string;
  bill_customer_name : string;
  month : Z;
  year : Z;
  total_sales : A;
  total_paid : A;
  balance_due : A;
  sales_count : Z;
  generated_at : string;
  email_sent : bool
}.

(** The database [db]: one list per collection. *)
Record DB : Type := {
  products : list Product;
  customers : list Customer;
  daily_sales : list DailySale;
  guest_sales : list GuestSale;
  monthly_bills : list MonthlyBill
}.

Definition set_customers (db : DB) (cs : list Customer) : DB :=
  {| products := products db; customers := cs;
     daily_sales := daily_sales db; guest_sales := guest_sales db;
     monthly_bills := monthly_bills db |}.

Definition set_daily_sales (db : DB) (ss : list DailySale) : DB :=
  {| products := products db; customers := customers db;
     daily_sales := ss; guest_sales := guest_sales db;
     monthly_bills := monthly_bills db |}.

Definition set_guest_sales (db : DB) (gs : list GuestSale) : DB :=
  {| products := products db; customers := customers db;
     daily_sales := daily_sales db; guest_sales := gs;
     monthly_bills := monthly_bills db |}.

Definition set_monthly_bills (db : DB) (bs : list MonthlyBill) : DB :=
  {| products := products db; customers := customers db;
     daily_sales := daily_sales db; guest_sales := guest_sales db;
     monthly_bills := bs |}.

(** [{"$inc": {"outstanding_balance": delta}}] *)
Definition inc_outstanding_balance (delta : A) (c : Customer) : Customer :=
  {| cust_id := cust_id c; cust_name := cust_name c;
     cust_phone := cust_phone c; cust_address := cust_address c;
     cust_email := cust_email c;
     outstanding_balance := outstanding_balance c [+] delta;
     credit_limit := credit_limit c; cust_is_active := cust_is_active c;
     cust_created_at := cust_created_at c |}.

(** [{"$set": {"paid_amount": p, "is_paid": b}}] *)
Definition set_payment (p : A) (b : bool) (s : DailySale) : DailySale :=
  {| sale_id := sale_id s; customer_id := customer_id s;
     customer_name := customer_name s; date := date s; items := items s;
     total_amount := total_amount s; paid_amount := p; is_paid := b;
     created_at := created_at s |}.

Definition by_cust_id (cid : string) (c : Customer) : bool :=
  String.eqb (cust_id c) cid.

Definition by_sale_id (sid : string) (s : DailySale) : bool :=
  String.eqb (sale_id s) sid.

(** ** Daily sales routes *)

(** [POST /daily-sales].  [new_id] is the [uuid4] drawn for the sale and
    [now] the creation timestamp. *)
Definition create_daily_sale (data : DailySaleCreate) (new_id now : string)
           (db : DB) : DB * result DailySale :=
  match find_one (by_cust_id (dsc_customer_id data)) (customers db) with
  | None => (db, Raise (HTTPException 404 "Customer not found"))
  | Some customer =>
      let total_amount := py_sum (map total (dsc_items data)) in
      let sale :=
        {| sale_id := new_id;
           customer_id := dsc_customer_id data;
           customer_name := cust_name customer;
           date := dsc_date data;
           items := dsc_items data;
           total_amount := total_amount;
           paid_amount := dsc_paid_amount data;
           is_paid := dsc_paid_amount data [>=] total_amount;
           created_at := now |} in
      let balance_change := total_amount [-] dsc_paid_amount data in
      let db := set_customers db
                  (update_one (by_cust_id (dsc_customer_id data))
                              (inc_outstanding_balance balance_change)
                              (customers db)) in
      let db := set_daily_sales db (insert_one sale (daily_sales db)) in
      (db, Ok sale)
  end.

(** [PUT /daily-sales/{sale_id}/payment] *)
Definition update_sale_payment (sid : string) (paid : A) (db : DB)
  : DB * result string :=
  match find_one (by_sale_id sid) (daily_sales db) with
  | None => (db, Raise (HTTPException 404 "Sale not found"))
  | Some sale =>
      let old_paid := paid_amount sale in
      let new_paid := paid in
      let balance_change := old_paid [-] new_paid in
      let is_paid := new_paid [>=] total_amount sale in
      let db := set_daily_sales db
                  (update_one (by_sale_id sid) (set_payment new_paid is_paid)
                              (daily_sales db)) in
      let db := set_customers db
                  (update_one (by_cust_id (customer_id sale))
                              (inc_outstanding_balance balance_change)
                              (customers db)) in
      (db, Ok "Payment updated successfully")
  end.

(** [DELETE /daily-sales/{sale_id}] *)
Definition delete_daily_sale (sid : string) (db : DB) : DB * result string :=
  match find_one (by_sale_id sid) (daily_sales db) with
  | None => (db, Raise (HTTPException 404 "Sale not found"))
  | Some sale =>
      let balance_change := neg (total_amount sale [-] paid_amount sale) in
      let db := set_customers db
                  (update_one (by_cust_id (customer_id sale))
                              (inc_outstanding_balance balance_change)
                              (customers db)) in
      let db := set_daily_sales db
                  (delete_one (by_sale_id sid) (daily_sales db)) in
      (db, Ok "Sale deleted successfully")
  end.

(** ** Guest sales routes *)

(** [POST /guest-sales].  [today] is the UTC date of the clock, formatted
    [%Y-%m-%d]. *)
Definition create_guest_sale (data : GuestSaleCreate)
           (new_id today now : string) (db : DB) : DB * result GuestSale :=
  let total_amount := py_sum (map total (gsc_items data)) in
  let sale :=
    {| gs_id := new_id;
       guest_name := gsc_guest_name data;
       guest_phone := gsc_guest_phone data;
       gs_date := today;
       gs_items := gsc_items data;
       gs_total_amount := total_amount;
       payment_method := gsc_payment_method data;
       gs_created_at := now |} in
  let db := set_guest_sales db (insert_one sale (guest_sales db)) in
  (db, Ok sale).

(** ** Billing routes *)

(** [f"{n}"] for an [int]. *)
Definition py_str (n : Z) : string := NilZero.string_of_int (Z.to_int n).

(** [f"{n:02d}"]: zero-padded to width two (a sign counts for the width). *)
Definition py_02d (n : Z) : string :=
  if (0 <=? n) && (n <? 10) then String.append "0" (py_str n) else py_str n.

(** The date range of a month, as [generate_monthly_bills],
    [get_bill_details], [get_dashboard_stats], [get_top_customers] and
    [get_top_products] each compute it:
    [start_date = f"{year}-{month:02d}-01"] and the [if month == 12]
    branch for [end_date]. *)
Definition month_window (month year : Z) : string * string :=
  let start_date :=
    String.append (py_str year)
      (String.append "-" (String.append (py_02d month) "-01")) in
  let end_date :=
    if month =? 12 then String.append (py_str (year + 1)) "-01-01"
    else String.append (py_str year)
           (String.append "-" (String.append (py_02d (month + 1)) "-01")) in
  (start_date, end_date).

(** [{"date": {"$gte": start_date, "$lt": end_date}}]: the store compares
    strings lexicographically. *)
Definition date_in (w : string * string) (d : string) : bool :=
  String.leb (fst w) d && String.ltb d (snd w).

Definition by_bill_key (cid : string) (m y : Z) (b : MonthlyBill) : bool :=
  String.eqb (bill_customer_id b) cid && (month b =? m) && (year b =? y).

(** [{"$set": bill_data}]: every field of [bill_data] is written, the stored
    [id] is not part of it. *)
Definition set_bill_data (bill_data : MonthlyBill) (b : MonthlyBill)
  : MonthlyBill :=
  {| bill_id := bill_id b;
     bill_customer_id := bill_customer_id bill_data;
     bill_customer_name := bill_customer_name bill_data;
     month := month bill_data; year := year bill_data;
     total_sales := total_sales bill_data;
     total_paid := total_paid bill_data;
     balance_due := balance_due bill_data;
     sales_count := sales_count bill_data;
     generated_at := generated_at bill_data;
     email_sent := email_sent bill_data |}.

(** The sales of one customer inside the window, as the cursor returns
    them. *)
Definition customer_month_sales (db : DB) (cid : string)
           (w : string * string) : list DailySale :=
  to_list 1000
    (find (fun s => String.eqb (customer_id s) cid && date_in w (date s))
          (daily_sales db)).

(** One iteration of [for customer in customers].  [uuid4 k] and [now k]
    are the identifier and the timestamp drawn while the [k]-th bill of the
    run is built. *)
Definition bill_customer (month year : Z) (uuid4 now : nat -> string)
           (st : DB * list MonthlyBill) (customer : Customer)
  : DB * list MonthlyBill :=
  let (db, bills_generated) := st in
  let k := List.length bills_generated in
  let sales :=
    customer_month_sales db (cust_id customer) (month_window month year) in
  match sales with
  | [] => st
  | _ :: _ =>
      let total_sales := py_sum (map total_amount sales) in
      let total_paid := py_sum (map paid_amount sales) in
      let existing :=
        find_one (by_bill_key (cust_id customer) month year)
                 (monthly_bills db) in
      let bill_data (i : string) :=
        {| bill_id := i;
           bill_customer_id := cust_id customer;
           bill_customer_name := cust_name customer;
           month := month; year := year;
           total_sales := total_sales;
           total_paid := total_paid;
           balance_due := total_sales [-] total_paid;
           sales_count := Z.of_nat (List.length sales);
           generated_at := now k;
           email_sent := false |} in
      match existing with
      | Some e =>
          let db := set_monthly_bills db
                      (update_one (by_bill_key (cust_id customer) month year)
                                  (set_bill_data (bill_data (bill_id e)))
                                  (monthly_bills db)) in
          (db, bills_generated ++ [bill_data (bill_id e)])
      | None =>
          let db := set_monthly_bills db
                      (insert_one (bill_data (uuid4 k)) (monthly_bills db)) in
          (db, bills_generated ++ [bill_data (uuid4 k)])
      end
  end.

(** [POST /billing/generate] *)
Definition generate_monthly_bills (month year : Z)
           (uuid4 now : nat -> string) (db : DB)
  : DB * result (string * list MonthlyBill) :=
  let customers := to_list 1000 (find cust_is_active (customers db)) in
  let (db, bills_generated) :=
    fold_left (bill_customer month year uuid4 now) customers (db, []) in
  (db, Ok (String.append "Generated "
             (String.append
                (py_str (Z.of_nat (List.length bills_generated))) " bills"),
           bills_generated)).

(** ** Dashboard routes *)

(** *** [GET /dashboard/sales-chart]

    A [datetime] is represented by the proleptic Gregorian ordinal of its
    day (1 is 0001-01-01, 3652059 is 9999-12-31): the handler only moves in
    whole days, so the time of day is the same for every value it compares.
    [timedelta] and [datetime] arithmetic raise [OverflowError] outside of
    their ranges.  The two [strftime] renderings are those of the standard
    library and are taken as parameters. *)
Definition MAXORDINAL : Z := 3652059.

Definition timedelta (days : Z) : result Z :=
  if (-999999999 <=? days) && (days <=? 999999999) then Ok days
  else Raise OverflowError.

Definition datetime_add (t delta : Z) : result Z :=
  let r := t + delta in
  if (1 <=? r) && (r <=? MAXORDINAL) then Ok r else Raise OverflowError.

Record ChartPoint : Type := {
  cp_date : string;
  cp_day : string;
  revenue : A;
  transactions : Z
}.

Section Chart.
Variable strftime_Ymd : Z -> string.  (* "%Y-%m-%d" *)
Variable strftime_a : Z -> string.    (* "%a" *)

Definition chart_point (db : DB) (current : Z) : ChartPoint :=
  let date_str := strftime_Ymd current in
  let daily :=
    to_list 1000
      (find (fun s => String.eqb (date s) date_str) (daily_sales db)) in
  let guest :=
    to_list 1000
      (find (fun s => String.eqb (gs_date s) date_str) (guest_sales db)) in
  let revenue :=
    py_sum (map total_amount daily) [+] py_sum (map gs_total_amount guest) in
  {| cp_date := date_str;
     cp_day := strftime_a current;
     revenue := revenue;
     transactions :=
       Z.of_nat (List.length daily) + Z.of_nat (List.length guest) |}.

(** [while current <= end_date: ...; current += timedelta(days=1)].
    [None] only when [fuel] iterations did not reach the exit. *)
Fixpoint chart_loop (fuel : nat) (db : DB) (current end_date : Z)
         (chart_data : list ChartPoint)
  : option (result (list ChartPoint)) :=
  if current <=? end_date then
    match fuel with
    | O => None
    | S fuel' =>
        let chart_data := chart_data ++ [chart_point db current] in
        match datetime_add current 1 with
        | Raise e => Some (Raise e)
        | Ok next => chart_loop fuel' db next end_date chart_data
        end
    end
  else Some (Ok chart_data).

(** [today] is the ordinal of [datetime.now(timezone.utc)]. *)
Definition get_sales_chart (days : Z) (today : Z) (db : DB)
  : option (result (list ChartPoint)) :=
  let end_date := today in
  match timedelta days with
  | Raise e => Some (Raise e)
  | Ok delta =>
      match datetime_add end_date (- delta) with
      | Raise e => Some (Raise e)
      | Ok start_date =>
          chart_loop (Z.to_nat (end_date - start_date + 1)) db
                     start_date end_date []
      end
  end.
End Chart.

(** *** Aggregation pipelines of the two rankings *)

(** [{"$sort": {key: -1}}], as a stable insertion sort; the store leaves the
    order of equal keys open. *)
Section Sort.
Context {G : Type}.
Variable key : G -> A.

Fixpoint insert_desc (g : G) (l : list G) : list G :=
  match l with
  | [] => [g]
  | h :: t =>
      if sort_le (key h) (key g) then g :: h :: t
      else h :: insert_desc g t
  end.

Definition sort_desc (l : list G) : list G :=
  fold_right insert_desc [] l.
End Sort.

(** [{"$limit": n}]: the stage takes a positive number, the store rejects
    the pipeline otherwise. *)
Definition stage_limit {G : Type} (limit : Z) (docs : list G)
  : result (list G) :=
  if limit <=? 0 then Raise OperationFailure
  else Ok (firstn (Z.to_nat limit) docs).

(** [aggregate(pipeline).to_list(limit)]: the driver refuses a negative
    length before the command is sent. *)
Definition aggregate_to_list {G : Type} (limit : Z)
           (pipeline : result (list G)) : result (list G) :=
  if limit <? 0 then Raise ValueError
  else match pipeline with
       | Ok docs => Ok (to_list (Z.to_nat limit) docs)
       | Raise e => Raise e
       end.

Record TopCustomer : Type := {
  tc_customer_id : string;
  tc_customer_name : string;
  total_purchases : A;
  purchase_count : Z
}.

(** The [$group] stage by ["$customer_id"]: [$first] keeps the name of the
    first document of the group, [$sum] adds. *)
Definition first_purchase (s : DailySale) : TopCustomer :=
  {| tc_customer_id := customer_id s;
     tc_customer_name := customer_name s;
     total_purchases := zero [+] total_amount s;
     purchase_count := 1 |}.

Definition add_purchase (g : TopCustomer) (s : DailySale) : TopCustomer :=
  {| tc_customer_id := tc_customer_id g;
     tc_customer_name := tc_customer_name g;
     total_purchases := total_purchases g [+] total_amount s;
     purchase_count := purchase_count g + 1 |}.

Definition customer_groups (docs : list DailySale) : list TopCustomer :=
  stage_group customer_id tc_customer_id first_purchase add_purchase docs.

(** [GET /dashboard/top-customers]; [current_month] and [current_year] are
    read from the clock. *)
Definition get_top_customers (limit : Z) (current_month current_year : Z)
           (db : DB) : result (list TopCustomer) :=
  let w := month_window current_month current_year in
  let matched := find (fun s => date_in w (date s)) (daily_sales db) in
  let grouped := customer_groups matched in
  let sorted := sort_desc total_purchases grouped in
  aggregate_to_list limit (stage_limit limit sorted).

Record TopProduct : Type := {
  tp_product_id : string;
  tp_product_name : string;
  total_quantity : A;
  total_revenue : A
}.

(** The [$group] stage by ["$items.product_id"], after [$unwind]. *)
Definition first_item (i : SaleItem) : TopProduct :=
  {| tp_product_id := product_id i;
     tp_product_name := product_name i;
     total_quantity := zero [+] quantity i;
     total_revenue := zero [+] total i |}.

Definition add_item (g : TopProduct) (i : SaleItem) : TopProduct :=
  {| tp_product_id := tp_product_id g;
     tp_product_name := tp_product_name g;
     total_quantity := total_quantity g [+] quantity i;
     total_revenue := total_revenue g [+] total i |}.

Definition product_groups (docs : list SaleItem) : list TopProduct :=
  stage_group product_id tp_product_id first_item add_item docs.

(** [GET /dashboard/top-products] *)
Definition get_top_products (limit : Z) (current_month current_year : Z)
           (db : DB) : result (list TopProduct) :=
  let w := month_window current_month current_year in
  let matched := find (fun s => date_in w (date s)) (daily_sales db) in
  let unwound := flat_map items matched in
  let grouped := product_groups unwound in
  let sorted := sort_desc total_revenue grouped in
  aggregate_to_list limit (stage_limit limit sorted).

(** ** Email routes *)

Record BillEmailRequest : Type := {
  req_bill_id : string;
  recipient_email : string
}.

Record EmailResponse : Type := {
  status : string;
  message : string;
  email_id : option string
}.

(** What [resend.Emails.send] did with the message: it returned the
    provider's answer, or it raised. *)
Inductive delivery : Type :=
| Delivered (id : option string)
| Failed (error : string).

Definition month_names : list string :=
  [""; "January"; "February"; "March"; "April"; "May"; "June";
   "July"; "August"; "September"; "October"; "November"; "December"].

(** [l[i]] on a Python list: negative indices count from the end. *)
Definition py_index {T : Type} (l : list T) (i : Z) : option T :=
  let n := Z.of_nat (List.length l) in
  if (0 <=? i) && (i <? n) then nth_error l (Z.to_nat i)
  else if (- n <=? i) && (i <? 0) then nth_error l (Z.to_nat (i + n))
  else None.

Definition by_bill_id (bid : string) (b : MonthlyBill) : bool :=
  String.eqb (bill_id b) bid.

(** [{"$set": {"email_sent": True}}] *)
Definition set_email_sent (v : bool) (b : MonthlyBill) : MonthlyBill :=
  {| bill_id := bill_id b;
     bill_customer_id := bill_customer_id b;
     bill_customer_name := bill_customer_name b;
     month := month b; year := year b;
     total_sales := total_sales b; total_paid := total_paid b;
     balance_due := balance_due b; sales_count := sales_count b;
     generated_at := generated_at b; email_sent := v |}.

(** [POST /billing/send-email].  [api_key] is [resend.api_key]; [sent] is
    the outcome of the provider call, which is made only when the handler
    reaches it. *)
Definition send_bill_email (request : BillEmailRequest) (api_key : string)
           (sent : delivery) (db : DB) : DB * result EmailResponse :=
  match find_one (by_bill_id (req_bill_id request)) (monthly_bills db) with
  | None => (db, Raise (HTTPException 404 "Bill not found"))
  | Some bill =>
      match py_index month_names (month bill) with
      | None => (db, Raise IndexError)
      | Some month_name =>
          if String.eqb api_key "" then
            (db, Raise (HTTPException 500 "Email service not configured"))
          else
            match sent with
            | Delivered id =>
                let db := set_monthly_bills db
                            (update_one (by_bill_id (req_bill_id request))
                                        (set_email_sent true)
                                        (monthly_bills db)) in
                (db, Ok {| status := "success";
                           message := String.append "Bill sent to "
                                        (recipient_email request);
                           email_id := id |})
            | Failed error =>
                (db, Raise (HTTPException 500
                              (String.append "Failed to send email: " error)))
            end
      end
  end.

(** ** Product routes *)

Record ProductCreate : Type := {
  pc_name : string;
  pc_category : string;
  pc_unit : string;
  pc_price : A;
  pc_description : option string
}.


Definition set_products (db : DB) (ps : list Product) : DB :=
  {| products := ps; customers := customers db;
     daily_sales := daily_sales db; guest_sales := guest_sales db;
     monthly_bills := monthly_bills db |}.

Definition by_prod_id (pid : string) (p : Product) : bool :=
  String.eqb (prod_id p) pid.

(** [GET /products] *)
Definition get_products (active_only : bool) (db : DB) : list Product :=
  to_list 1000
    (find (fun p => if active_only then prod_is_active p else true)
          (products db)).

(** [GET /products/{product_id}] *)
Definition get_product (pid : string) (db : DB) : result Product :=
  match find_one (by_prod_id pid) (products db) with
  | None => Raise (HTTPException 404 "Product not found")
  | Some product => Ok product
  end.

(** [POST /products] *)
Definition create_product (data : ProductCreate) (new_id now : string)
           (db : DB) : DB * result Product :=
  let product :=
    {| prod_id := new_id; prod_name := pc_name data;
       prod_category := pc_category data; prod_unit := pc_unit data;
       prod_price := pc_price data;
       prod_description := pc_description data;
       prod_is_active := true; prod_created_at := now |} in
  (set_products db (insert_one product (products db)), Ok product).


Definition or_keep {T : Type} (v : option T) (old : T) : T :=
  match v with Some x => x | None => old end.



(** [DELETE /products/{product_id}] *)
Definition delete_product (pid : string) (db : DB) : DB * result string :=
  match find_one (by_prod_id pid) (products db) with
  | None => (db, Raise (HTTPException 404 "Product not found"))
  | Some _ =>
      (set_products db (delete_one (by_prod_id pid) (products db)),
       Ok "Product deleted successfully")
  end.

(** [GET /product-categories] *)
Definition get_product_categories (db : DB) : list string :=
  distinct (map prod_category (products db)).

(** ** Customer routes *)

Record CustomerCreate : Type := {
  cc_name : string;
  cc_phone : string;
  cc_address : string;
  cc_email : option string;
  cc_credit_limit : A
}.

Record CustomerUpdate : Type := {
  cu_name : option string;
  cu_phone : option string;
  cu_address : option string;
  cu_email : option string;
  cu_credit_limit : option A;
  cu_is_active : option bool
}.

(** [GET /customers] *)
Definition get_customers (active_only : bool) (db : DB) : list Customer :=
  to_list 1000
    (find (fun c => if active_only then cust_is_active c else true)
          (customers db)).

(** [GET /customers/{customer_id}] *)
Definition get_customer (cid : string) (db : DB) : result Customer :=
  match find_one (by_cust_id cid) (customers db) with
  | None => Raise (HTTPException 404 "Customer not found")
  | Some customer => Ok customer
  end.

(** [POST /customers]: the balance starts at [0.0], the customer is
    active. *)
Definition create_customer (data : CustomerCreate) (new_id now : string)
           (db : DB) : DB * result Customer :=
  let customer :=
    {| cust_id := new_id; cust_name := cc_name data;
       cust_phone := cc_phone data; cust_address := cc_address data;
       cust_email := cc_email data;
       outstanding_balance := zero;
       credit_limit := cc_credit_limit data;
       cust_is_active := true; cust_created_at := now |} in
  (set_customers db (insert_one customer (customers db)), Ok customer).

Definition customer_update_empty (u : CustomerUpdate) : bool :=
  match cu_name u, cu_phone u, cu_address u, cu_email u, cu_credit_limit u,
        cu_is_active u with
  | None, None, None, None, None, None => true
  | _, _, _, _, _, _ => false
  end.

(** [{"$set": update_data}] on a customer. *)
Definition set_customer (u : CustomerUpdate) (c : Customer) : Customer :=
  {| cust_id := cust_id c;
     cust_name := or_keep (cu_name u) (cust_name c);
     cust_phone := or_keep (cu_phone u) (cust_phone c);
     cust_address := or_keep (cu_address u) (cust_address c);
     cust_email :=
       match cu_email u with
       | Some e => Some e
       | None => cust_email c
       end;
     outstanding_balance := outstanding_balance c;
     credit_limit := or_keep (cu_credit_limit u) (credit_limit c);
     cust_is_active := or_keep (cu_is_active u) (cust_is_active c);
     cust_created_at := cust_created_at c |}.

(** [PUT /customers/{customer_id}] *)
Definition update_customer (cid : string) (data : CustomerUpdate) (db : DB)
  : DB * result (option Customer) :=
  if customer_update_empty data then
    (db, Raise (HTTPException 400 "No data to update"))
  else
    match find_one (by_cust_id cid) (customers db) with
    | None => (db, Raise (HTTPException 404 "Customer not found"))
    | Some _ =>
        let db := set_customers db
                    (update_one (by_cust_id cid) (set_customer data)
                                (customers db)) in
        (db, Ok (find_one (by_cust_id cid) (customers db)))
    end.

(** [DELETE /customers/{customer_id}] *)
Definition delete_customer (cid : string) (db : DB) : DB * result string :=
  match find_one (by_cust_id cid) (customers db) with
  | None => (db, Raise (HTTPException 404 "Customer not found"))
  | Some _ =>
      (set_customers db (delete_one (by_cust_id cid) (customers db)),
       Ok "Customer deleted successfully")
  end.

(** ** Daily and guest sales: the read routes *)

(** The [date] entry of the query of [get_daily_sales]. *)
Inductive date_query : Type :=
| DateIs (d : string)
| DateBetween (lo hi : string).

(** The query dictionary is built key by key; the range, when both ends are
    given, overwrites the exact date.  ([on_date] is the [date] parameter of
    the route.) *)
Definition daily_sales_date_query (on_date start_date end_date : option string)
  : option date_query :=
  let q := match on_date with
           | Some d => if truthy on_date then Some (DateIs d) else None
           | None => None
           end in
  match start_date, end_date with
  | Some lo, Some hi =>
      if truthy start_date && truthy end_date then Some (DateBetween lo hi)
      else q
  | _, _ => q
  end.

Definition date_query_matches (q : option date_query) (d : string) : bool :=
  match q with
  | None => true
  | Some (DateIs v) => String.eqb d v
  | Some (DateBetween lo hi) => String.leb lo d && String.leb d hi
  end.

Definition daily_sales_query (cid on_date start_date end_date : option string)
           (s : DailySale) : bool :=
  (match cid with
   | Some c => if truthy cid then String.eqb (customer_id s) c else true
   | None => true
   end)
  && date_query_matches (daily_sales_date_query on_date start_date end_date)
                        (date s).

(** [GET /daily-sales]: newest date first, at most 1000. *)
Definition get_daily_sales (cid on_date start_date end_date : option string)
           (db : DB) : list DailySale :=
  to_list 1000
    (sort_by (fun a b => String.leb (date b) (date a))
       (find (daily_sales_query cid on_date start_date end_date)
             (daily_sales db))).

(** [GET /daily-sales/{sale_id}] *)
Definition get_daily_sale (sid : string) (db : DB) : result DailySale :=
  match find_one (by_sale_id sid) (daily_sales db) with
  | None => Raise (HTTPException 404 "Sale not found")
  | Some sale => Ok sale
  end.

(** [GET /guest-sales]: latest creation first, at most 1000. *)
Definition get_guest_sales (on_date : option string) (db : DB)
  : list GuestSale :=
  to_list 1000
    (sort_by (fun a b => String.leb (gs_created_at b) (gs_created_at a))
       (find (fun s => match on_date with
                       | Some d =>
                           if truthy on_date then String.eqb (gs_date s) d
                           else true
                       | None => true
                       end)
             (guest_sales db))).

(** ** Billing: the read routes *)

(** [GET /billing/monthly] *)
Definition get_monthly_bills (m y : Z) (db : DB) : list MonthlyBill :=
  to_list 1000
    (find (fun b => (month b =? m) && (year b =? y)) (monthly_bills db)).

(** [sort([("year", -1), ("month", -1)])] *)
Definition later_bill (a b : MonthlyBill) : bool :=
  (year b <? year a) || ((year b =? year a) && (month b <=? month a)).

(** [GET /billing/customer/{customer_id}]: latest period first, at most
    100. *)
Definition get_customer_bills (cid : string) (db : DB) : list MonthlyBill :=
  to_list 100
    (sort_by later_bill
       (find (fun b => String.eqb (bill_customer_id b) cid)
             (monthly_bills db))).

(** [GET /billing/{bill_id}]: the bill and the sales of its customer in its
    month, oldest first, read from the daily sales as they are now. *)
Definition get_bill_details (bid : string) (db : DB)
  : result (MonthlyBill * list DailySale) :=
  match find_one (by_bill_id bid) (monthly_bills db) with
  | None => Raise (HTTPException 404 "Bill not found")
  | Some bill =>
      let w := month_window (month bill) (year bill) in
      let sales :=
        to_list 1000
          (sort_by (fun a b => String.leb (date a) (date b))
             (find (fun s => String.eqb (customer_id s) (bill_customer_id bill)
                             && date_in w (date s))
                   (daily_sales db))) in
      Ok (bill, sales)
  end.

(** ** Dashboard: the summary *)

Record DashboardStats : Type := {
  today_revenue : A;
  today_transactions : Z;
  month_revenue : A;
  total_outstanding : A;
  total_customers : Z;
  total_products : Z;
  month_sales_count : Z
}.

Definition count_documents {D : Type} (q : D -> bool) (coll : list D) : Z :=
  Z.of_nat (List.length (find q coll)).

(** [GET /dashboard/stats]; [today], [current_month] and [current_year] are
    read from the clock. *)
Definition get_dashboard_stats (today : string)
           (current_month current_year : Z) (db : DB) : DashboardStats :=
  let today_sales :=
    to_list 1000
      (find (fun s => String.eqb (date s) today) (daily_sales db)) in
  let today_guest_sales :=
    to_list 1000
      (find (fun s => String.eqb (gs_date s) today) (guest_sales db)) in
  let today_revenue :=
    py_sum (map total_amount today_sales)
    [+] py_sum (map gs_total_amount today_guest_sales) in
  let today_transactions :=
    Z.of_nat (List.length today_sales)
    + Z.of_nat (List.length today_guest_sales) in
  let w := month_window current_month current_year in
  let month_sales :=
    to_list (Z.to_nat 10000)
      (find (fun s => date_in w (date s)) (daily_sales db)) in
  let month_guest_sales :=
    to_list (Z.to_nat 10000)
      (find (fun s => date_in w (gs_date s)) (guest_sales db)) in
  let month_revenue :=
    py_sum (map total_amount month_sales)
    [+] py_sum (map gs_total_amount month_guest_sales) in
  let all_customers := to_list 1000 (find (fun _ => true) (customers db)) in
  let total_outstanding := py_sum (map outstanding_balance all_customers) in
  {| today_revenue := today_revenue;
     today_transactions := today_transactions;
     month_revenue := month_revenue;
     total_outstanding := total_outstanding;
     total_customers := count_documents cust_is_active (customers db);
     total_products := count_documents prod_is_active (products db);
     month_sales_count :=
       Z.of_nat (List.length month_sales)
       + Z.of_nat (List.length month_guest_sales) |}.

End Ledger.

(* ========================================================================= *)
(** * 3. Vocabulary of the statements                                        *)
(* ========================================================================= *)

Set Warnings "-inexact-float".

(** The request of the worked example: one item
    [{quantity: 2, price: 50, total: 100}] and [paid_amount = 60]. *)
Definition example_item (pid pname u : string) : SaleItem float :=
  {| product_id := pid; product_name := pname; quantity := 2%float;
     unit := u; price := 50%float; total := 100%float |}.


(** The calendar day [year]-[month]-[day] written as the handlers write
    dates. *)
Definition day_string (year month day : Z) : string :=
  String.append (py_str year)
    (String.append "-"
       (String.append (py_02d month) (String.append "-" (py_02d day)))).

(** A small ledger in binary64: customer [c1] owes 40 for the sale [s1]
    (total 100, paid 60). *)
Definition example_customer : Customer float :=
  {| cust_id := "c1"; cust_name := "Asha"; cust_phone := "98";
     cust_address := "Pune"; cust_email := None;
     outstanding_balance := 40%float; credit_limit := 5000%float;
     cust_is_active := true; cust_created_at := "t0" |}.

Definition example_sale : DailySale float :=
  {| sale_id := "s1"; customer_id := "c1"; customer_name := "Asha";
     date := "2024-01-05"; items := [example_item "p1" "Milk" "liter"];
     total_amount := 100%float; paid_amount := 60%float; is_paid := false;
     created_at := "t1" |}.

Definition example_db : DB float :=
  {| products := []; customers := [example_customer];
     daily_sales := [example_sale]; guest_sales := []; monthly_bills := [] |}.

(** Two bills that agree on every field but [email_sent]. *)
Definition same_but_email_sent {A} (b b' : MonthlyBill A) : Prop :=
  bill_id b' = bill_id b /\
  bill_customer_id b' = bill_customer_id b /\
  bill_customer_name b' = bill_customer_name b /\
  month b' = month b /\ year b' = year b /\
  total_sales b' = total_sales b /\ total_paid b' = total_paid b /\
  balance_due b' = balance_due b /\ sales_count b' = sales_count b /\
  generated_at b' = generated_at b.

(** The decimal digit [k] as a character, and the four digits of a year. *)
Definition digit (k : Z) : ascii := ascii_of_N (48 + Z.to_N k).

Definition four_digits (y : Z) : string :=
  String (digit (y / 1000))
    (String (digit (y / 100 mod 10))
       (String (digit (y / 10 mod 10)) (String (digit (y mod 10)) ""))).

(** A calendar day in the [YYYY-MM-DD] form of the stored dates, written
    digit by digit. *)
Definition two_digits (k : Z) : string :=
  String (digit (k / 10)) (String (digit (k mod 10)) "").

Definition iso_date (day : Z * Z * Z) : string :=
  let '(y, m, d) := day in
  String.append (four_digits y)
    (String.append "-"
       (String.append (two_digits m) (String.append "-" (two_digits d)))).

(** The calendar order on days (year, month, day). *)
Definition cal_compare (a b : Z * Z * Z) : comparison :=
  let '(y1, m1, d1) := a in
  let '(y2, m2, d2) := b in
  match y1 ?= y2 with
  | Eq => match m1 ?= m2 with
          | Eq => d1 ?= d2
          | c => c
          end
  | c => c
  end.

Definition cal_leb (a b : Z * Z * Z) : bool :=
  match cal_compare a b with
  | Gt => false
  | _ => true
  end.

Definition cal_ltb (a b : Z * Z * Z) : bool :=
  match cal_compare a b with
  | Lt => true
  | _ => false
  end.

(** ** The balance invariant *)

(** What one sale contributes to what its customer owes. *)
Definition sale_owed {A} {AM : Amount A} (s : DailySale A) : A :=
  total_amount s [-] paid_amount s.

Definition sale_of {A} (cid : string) (s : DailySale A) : bool :=
  String.eqb (customer_id s) cid.

(** The sum over the customer's recorded daily sales of
    [total_amount - paid_amount]. *)
Definition owed {A} {AM : Amount A} (db : DB A) (cid : string) : A :=
  py_sum (map sale_owed (find (sale_of cid) (daily_sales db))).

Definition owed_of {A} {AM : Amount A} (cid : string)
           (sales : list (DailySale A)) : A :=
  py_sum (map sale_owed (find (sale_of cid) sales)).

Definition balanced {A} {AM : Amount A} (db : DB A) : Prop :=
  forall c, In c (customers db) -> outstanding_balance c = owed db (cust_id c).

(** Customer identifiers are [uuid4] values: no two customers share one. *)
Definition unique_customer_ids {A} (db : DB A) : Prop :=
  NoDup (map cust_id (customers db)).

(** The three operations on daily sales, as requests. *)
Inductive sale_op (A : Type) : Type :=
| CreateSale (data : DailySaleCreate A) (new_id now : string)
| AmendPayment (sid : string) (paid : A)
| DeleteSale (sid : string).
Arguments CreateSale {A} data new_id now.
Arguments AmendPayment {A} sid paid.
Arguments DeleteSale {A} sid.

Definition apply_op {A} {AM : Amount A} (op : sale_op A) (db : DB A)
  : DB A * bool :=
  match op with
  | CreateSale data new_id now =>
      let (db', r) := create_daily_sale data new_id now db in (db', is_ok r)
  | AmendPayment sid paid =>
      let (db', r) := update_sale_payment sid paid db in (db', is_ok r)
  | DeleteSale sid =>
      let (db', r) := delete_daily_sale sid db in (db', is_ok r)
  end.

(** The state after a sequence of operations that all succeed. *)
Fixpoint run_ops {A} {AM : Amount A} (ops : list (sale_op A)) (db : DB A)
  : option (DB A) :=
  match ops with
  | [] => Some db
  | op :: rest =>
      let (db', ok) := apply_op op db in
      if ok then run_ops rest db' else None
  end.

(** Concrete ledgers for the statements below: one customer [c1] with a
    given balance and no sale, and a request for one item of a given total,
    nothing paid. *)
Definition one_customer {A} {AM : Amount A} (balance : A) : DB A :=
  {| products := [];
     customers := [ {| cust_id := "c1"; cust_name := "Asha";
                       cust_phone := "98"; cust_address := "Pune";
                       cust_email := None; outstanding_balance := balance;
                       credit_limit := zero; cust_is_active := true;
                       cust_created_at := "t0" |} ];
     daily_sales := []; guest_sales := []; monthly_bills := [] |}.

Definition request_for {A} {AM : Amount A} (d : string) (amount paid : A)
  : DailySaleCreate A :=
  {| dsc_customer_id := "c1"; dsc_date := d;
     dsc_items := [ {| product_id := "p1"; product_name := "Milk";
                       quantity := amount; unit := "liter"; price := amount;
                       total := amount |} ];
     dsc_paid_amount := paid |}.

(** Three requests in binary64: sell for 0.1, sell for 0.2, delete the first. *)
Definition drift_ops : list (sale_op float) :=
  [ CreateSale (request_for "2024-01-05" 0.1%float 0%float) "s1" "t1";
    CreateSale (request_for "2024-01-06" 0.2%float 0%float) "s2" "t2";
    DeleteSale "s1" ].

(** A run in exact arithmetic: sell for 100 with 60 paid, settle it, sell for
    30 more, delete the first sale. *)
Definition exact_ops : list (sale_op Z) :=
  [ CreateSale (request_for "2024-01-05" 100 60) "s1" "t1";
    AmendPayment "s1" 100;
    CreateSale (request_for "2024-01-06" 30 0) "s2" "t2";
    DeleteSale "s1" ].

(** A sale paid in full. *)
Definition settled_sale : DailySale Z :=
  {| sale_id := "s9"; customer_id := "c1"; customer_name := "Asha";
     date := "2024-01-05"; items := []; total_amount := 100;
     paid_amount := 100; is_paid := true; created_at := "t" |}.

(** ** Monthly billing, as the specification words it *)

(** The customer's sales of the month that the generator reads: the cursor
    stops after 1000 documents. *)
Definition billed_sales {A} (db : DB A) (month year : Z) (c : Customer A)
  : list (DailySale A) :=
  customer_month_sales db (cust_id c) (month_window month year).

Definition has_sales {A} (db : DB A) (month year : Z) (c : Customer A) : bool :=
  match billed_sales db month year c with [] => false | _ :: _ => true end.

(** The customers the generator visits: the first 1000 active ones. *)
Definition visited_customers {A} (db : DB A) : list (Customer A) :=
  to_list 1000 (find cust_is_active (customers db)).

(** The bill of customer [c] for the month: the sums over the sales read,
    their difference, their number, [email_sent = false]; the identifier of
    the bill already stored for (customer, month, year) when there is one,
    and the [k]-th fresh identifier otherwise. *)
Definition expected_bill {A} {AM : Amount A} (db : DB A) (month year : Z)
           (uuid4 now : nat -> string) (k : nat) (c : Customer A)
  : MonthlyBill A :=
  let sales := billed_sales db month year c in
  let total_sales := py_sum (map total_amount sales) in
  let total_paid := py_sum (map paid_amount sales) in
  {| bill_id :=
       match find_one (by_bill_key (cust_id c) month year) (monthly_bills db)
       with
       | Some e => bill_id e
       | None => uuid4 k
       end;
     bill_customer_id := cust_id c;
     bill_customer_name := cust_name c;
     month := month; year := year;
     total_sales := total_sales;
     total_paid := total_paid;
     balance_due := total_sales [-] total_paid;
     sales_count := Z.of_nat (List.length sales);
     generated_at := now k;
     email_sent := false |}.

(** One bill per customer with at least one sale read, in the order of the
    customers; customers without a sale are passed over. *)
Fixpoint expected_bills {A} {AM : Amount A} (db : DB A) (month year : Z)
         (uuid4 now : nat -> string) (k : nat) (cs : list (Customer A))
  : list (MonthlyBill A) :=
  match cs with
  | [] => []
  | c :: rest =>
      if has_sales db month year c then
        expected_bill db month year uuid4 now k c
        :: expected_bills db month year uuid4 now (S k) rest
      else expected_bills db month year uuid4 now k rest
  end.

Definition has_bill {A} (db : DB A) (month year : Z) (cid : string) : bool :=
  match find_one (by_bill_key cid month year) (monthly_bills db) with
  | Some _ => true
  | None => false
  end.

(** The customer's daily sales dated inside the month, all of them. *)
Definition month_sales {A} (db : DB A) (month year : Z) (c : Customer A)
  : list (DailySale A) :=
  find (fun s => String.eqb (customer_id s) (cust_id c)
                 && date_in (month_window month year) (date s))
       (daily_sales db).

(** January 2024 in exact arithmetic: Asha ([c1]) bought twice (100 with 60
    paid, 50 with 40 paid) and already has a bill [b7] for the month, sent;
    Binod ([c2]) bought nothing in January; Chitra ([c3]) is inactive. *)
Definition january_customer (i n : string) (active : bool) : Customer Z :=
  {| cust_id := i; cust_name := n; cust_phone := "98"; cust_address := "Pune";
     cust_email := None; outstanding_balance := 0; credit_limit := 5000;
     cust_is_active := active; cust_created_at := "t0" |}.

Definition january_sale (i cid d : string) (t p : Z) : DailySale Z :=
  {| sale_id := i; customer_id := cid; customer_name := "n"; date := d;
     items := []; total_amount := t; paid_amount := p; is_paid := Z.geb p t;
     created_at := "t1" |}.

Definition january_db : DB Z :=
  {| products := [];
     customers := [ january_customer "c1" "Asha" true;
                    january_customer "c2" "Binod" true;
                    january_customer "c3" "Chitra" false ];
     daily_sales := [ january_sale "s1" "c1" "2024-01-05" 100 60;
                      january_sale "s2" "c1" "2024-01-20" 50 40;
                      january_sale "s3" "c2" "2024-02-01" 10 0;
                      january_sale "s4" "c3" "2024-01-07" 10 0 ];
     guest_sales := [];
     monthly_bills :=
       [ {| bill_id := "b7"; bill_customer_id := "c1";
            bill_customer_name := "Asha"; month := 1; year := 2024;
            total_sales := 100; total_paid := 60; balance_due := 40;
            sales_count := 1; generated_at := "t2"; email_sent := true |} ] |}.

(** A customer with 1001 sales of 1.0 on one day of January 2024, in
    binary64. *)
Definition busy_sale (i : nat) : DailySale float :=
  {| sale_id := String.append "s" (py_str (Z.of_nat i)); customer_id := "c1";
     customer_name := "Asha"; date := "2024-01-15"; items := [];
     total_amount := 1%float; paid_amount := 0%float; is_paid := false;
     created_at := "t1" |}.

Definition busy_db : DB float :=
  {| products := []; customers := [example_customer];
     daily_sales := map busy_sale (seq 0 1001);
     guest_sales := []; monthly_bills := [] |}.

(** ** Rankings *)

(** The daily sales of the current month (the [$match] stage). *)
Definition month_matched {A} (db : DB A) (current_month current_year : Z)
  : list (DailySale A) :=
  find (fun s => date_in (month_window current_month current_year) (date s))
       (daily_sales db).

(** The groups of the two rankings: customers, respectively products, that
    occur in the daily sales of the current month. *)
Definition month_customer_groups {A} {AM : Amount A} (db : DB A)
           (current_month current_year : Z) : list (TopCustomer A) :=
  customer_groups (month_matched db current_month current_year).

Definition month_product_groups {A} {AM : Amount A} (db : DB A)
           (current_month current_year : Z) : list (TopProduct A) :=
  product_groups (flat_map items (month_matched db current_month current_year)).

(** [a] may stand before [b] in a list sorted descending by [key]. *)
Definition desc {A} {AM : Amount A} {G : Type} (key : G -> A) (a b : G)
  : Prop :=
  sort_le (key b) (key a) = true.

(** ** Sales chart *)

(** The [n] consecutive days from [start] on, oldest first. *)
Definition day_range (start : Z) (n : nat) : list Z :=
  map (fun i => start + Z.of_nat i) (seq 0 n).

(** The daily and guest sales recorded on a date, all of them. *)
Definition daily_on {A} (db : DB A) (d : string) : list (DailySale A) :=
  find (fun s => String.eqb (date s) d) (daily_sales db).

Definition guest_on {A} (db : DB A) (d : string) : list (GuestSale A) :=
  find (fun s => String.eqb (gs_date s) d) (guest_sales db).

(** The two [strftime] renderings on the days of January 2024 (ordinals
    738886 to 738916; ordinal 1 is a Monday). *)
Definition january_Ymd (d : Z) : string :=
  String.append "2024-01-" (py_02d (d - 738885)).

Definition weekday_a (d : Z) : string :=
  nth (Z.to_nat (d mod 7)) ["Sun"; "Mon"; "Tue"; "Wed"; "Thu"; "Fri"; "Sat"] "".

(* ========================================================================= *)
(** * 4. Theorems                                                            *)
(* ========================================================================= *)

Unset Implicit Arguments.

(** ** The store primitives *)
Section CollectionFacts.
Context {D : Type}.
Implicit Types (q : D -> bool) (u : D -> D) (coll : list D).

Lemma find_one_update_one_hit q u coll d :
  find_one q coll = Some d ->
  q (u d) = true ->
  find_one q (update_one q u coll) = Some (u d).
Proof.
  unfold find_one.
  induction coll as [|x rest IH]; simpl; [discriminate|].
  destruct (q x) eqn:Hq; simpl.
  - intros [= ->] Hu. now rewrite Hu.
  - intros Hf Hu. rewrite Hq. auto.
Qed.

Lemma update_one_absent q u coll :
  find_one q coll = None -> update_one q u coll = coll.
Proof.
  unfold find_one.
  induction coll as [|x rest IH]; simpl; [reflexivity|].
  destruct (q x); [discriminate|]. intros H. now rewrite IH.
Qed.

Lemma find_one_some q coll d :
  find_one q coll = Some d -> In d coll /\ q d = true.
Proof. apply find_some. Qed.

(** [update_one] rewrites the first match and nothing else. *)
Lemma update_one_split q u coll d :
  find_one q coll = Some d ->
  exists pre post,
    coll = pre ++ d :: post /\
    update_one q u coll = pre ++ u d :: post /\
    forallb (fun x => negb (q x)) pre = true.
Proof.
  unfold find_one.
  induction coll as [|x rest IH]; simpl; [discriminate|].
  destruct (q x) eqn:Hq.
  - intros [= ->]. now exists [], rest.
  - intros Hf. destruct (IH Hf) as (pre & post & -> & -> & Hpre).
    exists (x :: pre), post. simpl. now rewrite Hq, Hpre.
Qed.

Lemma delete_one_split q coll d :
  find_one q coll = Some d ->
  exists pre post,
    coll = pre ++ d :: post /\
    delete_one q coll = pre ++ post /\
    forallb (fun x => negb (q x)) pre = true.
Proof.
  unfold find_one.
  induction coll as [|x rest IH]; simpl; [discriminate|].
  destruct (q x) eqn:Hq.
  - intros [= ->]. now exists [], rest.
  - intros Hf. destruct (IH Hf) as (pre & post & -> & -> & Hpre).
    exists (x :: pre), post. simpl. now rewrite Hq, Hpre.
Qed.
End CollectionFacts.

(** ** Balance reconciliation: one operation *)
Section SaleFacts.
Context {A : Type} {AM : Amount A}.
Implicit Types (db : DB A) (c : Customer A) (s : DailySale A).

Lemma by_cust_id_inc cid delta c :
  by_cust_id cid (inc_outstanding_balance delta c) = by_cust_id cid c.
Proof. reflexivity. Qed.

Lemma by_sale_id_set_payment sid p b s :
  by_sale_id sid (set_payment p b s) = by_sale_id sid s.
Proof. reflexivity. Qed.

Lemma find_customer_after_inc cid delta (cs : list (Customer A)) c :
  find_one (by_cust_id cid) cs = Some c ->
  find_one (by_cust_id cid)
           (update_one (by_cust_id cid) (inc_outstanding_balance delta) cs)
  = Some (inc_outstanding_balance delta c).
Proof.
  intros H. apply find_one_update_one_hit; [exact H|].
  rewrite by_cust_id_inc. now apply find_one_some in H.
Qed.

End SaleFacts.


(** C3. [update_sale_payment] on a known sale id, for any new amount [p]
    (no range is checked): the call succeeds, the stored sale keeps every
    field but [paid_amount], which becomes [p], and [is_paid], which becomes
    [p >= total_amount] for the stored total; the owning customer's
    [outstanding_balance] is incremented by exactly [old_paid - p] (nothing
    changes in the customers when the owner no longer exists).  On an unknown
    sale id the call raises the 404 "Sale not found" and the state is the one
    before.  Second part, in binary64 on [example_db]: a negative amount and
    an amount above the total are both accepted. *)
Theorem update_sale_payment_spec :
  (forall (A : Type) (AM : Amount A) (sid : string) (p : A) (db : DB A),
      match find_one (by_sale_id sid) (daily_sales db) with
      | Some sale =>
          exists db',
            update_sale_payment sid p db
            = (db', Ok "Payment updated successfully") /\
            find_one (by_sale_id sid) (daily_sales db')
            = Some (set_payment p (p [>=] total_amount sale) sale) /\
            products db' = products db /\
            guest_sales db' = guest_sales db /\
            monthly_bills db' = monthly_bills db /\
            match find_one (by_cust_id (customer_id sale)) (customers db) with
            | Some c =>
                exists c',
                  find_one (by_cust_id (customer_id sale)) (customers db')
                  = Some c' /\
                  outstanding_balance c'
                  = outstanding_balance c [+] (paid_amount sale [-] p)
            | None => customers db' = customers db
            end
      | None =>
          update_sale_payment sid p db
          = (db, Raise (HTTPException 404 "Sale not found"))
      end)
  /\
  (let db1 := fst (update_sale_payment "s1" (-5)%float example_db) in
   let db2 := fst (update_sale_payment "s1" 1000%float example_db) in
   is_ok (snd (update_sale_payment "s1" (-5)%float example_db)) = true /\
   map paid_amount (daily_sales db1) = [(-5)%float] /\
   map is_paid (daily_sales db1) = [false] /\
   map outstanding_balance (customers db1) = [105%float] /\
   is_ok (snd (update_sale_payment "s1" 1000%float example_db)) = true /\
   map paid_amount (daily_sales db2) = [1000%float] /\
   map is_paid (daily_sales db2) = [true] /\
   map outstanding_balance (customers db2) = [(-900)%float]).
Proof.
  split.
  - intros A AM sid p db. unfold update_sale_payment.
    destruct (find_one _ (daily_sales db)) as [sale|] eqn:Hs; [|reflexivity].
    eexists. split; [reflexivity|]. simpl.
    split.
    { apply find_one_update_one_hit; [exact Hs|].
      rewrite by_sale_id_set_payment. now apply find_one_some in Hs. }
    repeat (split; [reflexivity|]).
    destruct (find_one _ (customers db)) as [c|] eqn:Hc.
    + eexists. split; [apply find_customer_after_inc; exact Hc|]. reflexivity.
    + now apply update_one_absent.
  - vm_compute. repeat split.
Qed.

(** C9. [create_guest_sale] always succeeds, appends exactly one record to
    the guest sales, and leaves the customers (hence every customer's
    [outstanding_balance] and every other customer field), the products, the
    daily sales and the bills as they were. *)
Theorem create_guest_sale_frame :
  forall (A : Type) (AM : Amount A) (data : GuestSaleCreate A)
         (new_id today now : string) (db : DB A),
    exists sale db',
      create_guest_sale data new_id today now db = (db', Ok sale) /\
      customers db' = customers db /\
      (forall cid, find_one (by_cust_id cid) (customers db')
                   = find_one (by_cust_id cid) (customers db)) /\
      products db' = products db /\
      daily_sales db' = daily_sales db /\
      monthly_bills db' = monthly_bills db /\
      guest_sales db' = guest_sales db ++ [sale] /\
      gs_total_amount sale = py_sum (map total (gsc_items data)).
Proof.
  intros. unfold create_guest_sale. eexists _, _.
  split; [reflexivity|]. simpl. repeat split; reflexivity.
Qed.

(** C10. [send_bill_email] for an existing bill.  The handler reaches the
    provider only when the bill's month indexes [month_names] and the API key
    is set; otherwise it raises and the database is the one before.  When the
    provider delivers, the call succeeds, the first bill with that id is
    replaced in place by a bill that differs only in [email_sent = true], and
    nothing else in the database changes.  When the provider fails, the call
    raises the 500 "Failed to send email: ..." and the database is the one
    before.  On an unknown bill id it raises the 404 and changes nothing. *)
Theorem send_bill_email_spec :
  forall (A : Type) (AM : Amount A) (request : BillEmailRequest)
         (api_key : string) (sent : delivery) (db : DB A),
    match find_one (by_bill_id (req_bill_id request)) (monthly_bills db) with
    | None =>
        send_bill_email request api_key sent db
        = (db, Raise (HTTPException 404 "Bill not found"))
    | Some bill =>
        match py_index month_names (month bill), String.eqb api_key "", sent
        with
        | Some _, false, Delivered id =>
            exists db' resp pre post b',
              send_bill_email request api_key sent db = (db', Ok resp) /\
              email_id resp = id /\
              monthly_bills db = pre ++ bill :: post /\
              monthly_bills db' = pre ++ b' :: post /\
              email_sent b' = true /\ same_but_email_sent bill b' /\
              products db' = products db /\ customers db' = customers db /\
              daily_sales db' = daily_sales db /\
              guest_sales db' = guest_sales db
        | Some _, false, Failed error =>
            send_bill_email request api_key sent db
            = (db, Raise (HTTPException 500
                            (String.append "Failed to send email: " error)))
        | _, _, _ =>
            exists e, send_bill_email request api_key sent db = (db, Raise e)
        end
    end.
Proof.
  intros A AM request api_key sent db. unfold send_bill_email.
  destruct (find_one _ (monthly_bills db)) as [bill|] eqn:Hb; [|reflexivity].
  destruct (py_index month_names (month bill)) as [mn|].
  2:{ destruct (String.eqb api_key ""); destruct sent; eexists; reflexivity. }
  destruct (String.eqb api_key "").
  { destruct sent; eexists; reflexivity. }
  destruct sent as [id|error]; [|reflexivity].
  destruct (update_one_split (by_bill_id (req_bill_id request))
              (set_email_sent true) _ _ Hb) as (pre & post & Hpre & Hupd & _).
  eexists _, _, pre, post, _. split; [reflexivity|]. simpl.
  split; [reflexivity|]. split; [exact Hpre|]. split; [exact Hupd|].
  unfold same_but_email_sent. simpl. repeat split; reflexivity.
Qed.

(** ** Exact arithmetic *)

Lemma Z_ExactAmount : ExactAmount Z.
Proof. split; simpl; intros; lia. Qed.

Lemma Z_OrderedAmount : OrderedAmount Z.
Proof. split; simpl; intros; lia. Qed.

Section ExactFacts.
Context {A : Type} {AM : Amount A} {EX : ExactAmount A}.
Implicit Types (x y z : A) (l : list A).

Lemma add_zero_r x : x [+] zero = x.
Proof. now rewrite add_comm, add_zero_l. Qed.

Lemma add_neg_cancel x y : (x [+] y) [+] neg y = x.
Proof. now rewrite <- add_assoc, add_neg_r, add_zero_r. Qed.

Lemma sub_self x : x [-] x = zero.
Proof. now rewrite sub_add_neg, add_neg_r. Qed.

Lemma neg_zero : neg zero = zero :> A.
Proof. rewrite <- (add_zero_l (neg zero)). apply add_neg_r. Qed.

(** [(X + (t - old)) + (old - p) = X + (t - p)] *)
Lemma amend_algebra x t old p :
  (x [+] (t [-] old)) [+] (old [-] p) = x [+] (t [-] p).
Proof.
  rewrite !sub_add_neg.
  rewrite <- !add_assoc. f_equal. f_equal.
  now rewrite add_assoc, (add_comm (neg old)), add_neg_r, add_zero_l.
Qed.

Lemma fold_left_add l : forall a, fold_left add l a = a [+] py_sum l.
Proof.
  unfold py_sum. induction l as [|x l IH]; intros a; simpl.
  - now rewrite add_zero_r.
  - rewrite IH, (IH (zero [+] x)), add_zero_l. now rewrite add_assoc.
Qed.

Lemma py_sum_cons x l : py_sum (x :: l) = x [+] py_sum l.
Proof. unfold py_sum at 1. simpl. now rewrite fold_left_add, add_zero_l. Qed.

Lemma py_sum_app l1 l2 : py_sum (l1 ++ l2) = py_sum l1 [+] py_sum l2.
Proof.
  unfold py_sum at 1. rewrite fold_left_app, fold_left_add. reflexivity.
Qed.

Lemma py_sum_middle l1 x l2 :
  py_sum (l1 ++ x :: l2) = py_sum (l1 ++ l2) [+] x.
Proof.
  rewrite !py_sum_app, py_sum_cons.
  rewrite <- !add_assoc. f_equal. apply add_comm.
Qed.
End ExactFacts.

(** ** The balance invariant is preserved (exact arithmetic) *)
Section BalanceInvariant.
Context {A : Type} {AM : Amount A} {EX : ExactAmount A}.
Implicit Types (db : DB A) (c : Customer A) (s : DailySale A).

Lemma owed_of_middle cid pre s post :
  owed_of cid (pre ++ s :: post)
  = if sale_of cid s then owed_of cid (pre ++ post) [+] sale_owed s
    else owed_of cid (pre ++ post).
Proof.
  unfold owed_of, find. rewrite !filter_app. simpl.
  destruct (sale_of cid s); [|reflexivity].
  rewrite !map_app. simpl. apply py_sum_middle.
Qed.

Lemma owed_of_snoc cid l s :
  owed_of cid (l ++ [s])
  = if sale_of cid s then owed_of cid l [+] sale_owed s else owed_of cid l.
Proof. rewrite owed_of_middle. now rewrite app_nil_r. Qed.

Lemma map_cust_id_update_one q delta (cs : list (Customer A)) :
  map cust_id (update_one q (inc_outstanding_balance delta) cs)
  = map cust_id cs.
Proof.
  induction cs as [|x rest IH]; simpl; [reflexivity|].
  destruct (q x); simpl; [reflexivity|]. now rewrite IH.
Qed.

(** With unique identifiers, [update_one] touches the one customer that
    carries the identifier. *)
Lemma in_update_one_unique cid delta (cs : list (Customer A)) c' :
  NoDup (map cust_id cs) ->
  In c' (update_one (by_cust_id cid) (inc_outstanding_balance delta) cs) ->
  (exists c0, In c0 cs /\ cust_id c0 = cid /\
              c' = inc_outstanding_balance delta c0)
  \/ (In c' cs /\ cust_id c' <> cid).
Proof.
  induction cs as [|x rest IH]; simpl; [tauto|].
  intros Hnd Hin. inversion Hnd as [|? ? Hx Hrest]; subst.
  unfold by_cust_id at 1 in Hin.
  destruct (String.eqb (cust_id x) cid) eqn:Hq.
  - apply String.eqb_eq in Hq. destruct Hin as [<-|Hin].
    + left. exists x. auto.
    + right. split; [auto|]. intros Heq. apply Hx.
      rewrite Hq, <- Heq. now apply in_map.
  - apply String.eqb_neq in Hq. destruct Hin as [<-|Hin].
    + right. auto.
    + destruct (IH Hrest Hin) as [(c0 & H0 & H1 & H2)|[H0 H1]].
      * left. exists c0. auto.
      * right. auto.
Qed.

(** The shape shared by the three operations: the balance of [cid] moves
    by [delta], and so does what the sales say [cid] owes. *)
Lemma balanced_step db db' cid delta :
  unique_customer_ids db -> balanced db ->
  customers db'
  = update_one (by_cust_id cid) (inc_outstanding_balance delta)
               (customers db) ->
  (forall i, owed db' i
             = if String.eqb i cid then owed db i [+] delta else owed db i) ->
  unique_customer_ids db' /\ balanced db'.
Proof.
  unfold unique_customer_ids, balanced. intros Hnd Hbal Hcs Howed. split.
  - now rewrite Hcs, map_cust_id_update_one.
  - intros c' Hin. rewrite Hcs in Hin. rewrite Howed.
    destruct (in_update_one_unique cid delta _ c' Hnd Hin)
      as [(c0 & H0 & H1 & ->)|[H0 H1]]; simpl.
    + rewrite H1, String.eqb_refl. now rewrite (Hbal c0 H0), H1.
    + apply String.eqb_neq in H1. rewrite H1. now apply Hbal.
Qed.

Lemma sale_of_eqb i s : sale_of i s = String.eqb i (customer_id s).
Proof. unfold sale_of. apply String.eqb_sym. Qed.

Lemma create_preserves data new_id now db db' sale :
  create_daily_sale data new_id now db = (db', Ok sale) ->
  unique_customer_ids db -> balanced db ->
  unique_customer_ids db' /\ balanced db'.
Proof.
  unfold create_daily_sale.
  destruct (find_one _ (customers db)) as [c|]; [|discriminate].
  intros [= <- <-] Hnd Hbal.
  eapply balanced_step; [exact Hnd|exact Hbal|reflexivity|].
  intros i. unfold owed. simpl. unfold insert_one.
  fold (owed_of i (daily_sales db ++
    [{| sale_id := new_id; customer_id := dsc_customer_id data;
        customer_name := cust_name c; date := dsc_date data;
        items := dsc_items data;
        total_amount := py_sum (map total (dsc_items data));
        paid_amount := dsc_paid_amount data;
        is_paid := dsc_paid_amount data
                     [>=] py_sum (map total (dsc_items data));
        created_at := now |}])).
  rewrite owed_of_snoc, sale_of_eqb. reflexivity.
Qed.

Lemma amend_preserves sid p db db' msg :
  update_sale_payment sid p db = (db', Ok msg) ->
  unique_customer_ids db -> balanced db ->
  unique_customer_ids db' /\ balanced db'.
Proof.
  unfold update_sale_payment.
  destruct (find_one _ (daily_sales db)) as [s|] eqn:Hs; [|discriminate].
  intros [= <- <-] Hnd Hbal.
  eapply balanced_step; [exact Hnd|exact Hbal|reflexivity|].
  intros i. unfold owed. simpl.
  destruct (update_one_split (by_sale_id sid)
              (set_payment p (p [>=] total_amount s)) _ _ Hs)
    as (pre & post & Hpre & -> & _).
  rewrite Hpre.
  change (owed_of i (pre ++ set_payment p (p [>=] total_amount s) s :: post)
          = if String.eqb i (customer_id s)
            then owed_of i (pre ++ s :: post)
                   [+] (paid_amount s [-] p)
            else owed_of i (pre ++ s :: post)).
  rewrite !owed_of_middle, !sale_of_eqb. simpl.
  destruct (String.eqb i (customer_id s)); [|reflexivity].
  unfold sale_owed. simpl. symmetry. apply amend_algebra.
Qed.

Lemma delete_preserves sid db db' msg :
  delete_daily_sale sid db = (db', Ok msg) ->
  unique_customer_ids db -> balanced db ->
  unique_customer_ids db' /\ balanced db'.
Proof.
  unfold delete_daily_sale.
  destruct (find_one _ (daily_sales db)) as [s|] eqn:Hs; [|discriminate].
  intros [= <- <-] Hnd Hbal.
  eapply balanced_step; [exact Hnd|exact Hbal|reflexivity|].
  intros i. unfold owed. simpl.
  destruct (delete_one_split (by_sale_id sid) _ _ Hs)
    as (pre & post & Hpre & -> & _).
  rewrite Hpre.
  change (owed_of i (pre ++ post)
          = if String.eqb i (customer_id s)
            then owed_of i (pre ++ s :: post) [+] neg (sale_owed s)
            else owed_of i (pre ++ s :: post)).
  rewrite owed_of_middle, sale_of_eqb.
  destruct (String.eqb i (customer_id s)); [|reflexivity].
  now rewrite add_neg_cancel.
Qed.

Lemma apply_op_preserves op db db' :
  apply_op op db = (db', true) ->
  unique_customer_ids db -> balanced db ->
  unique_customer_ids db' /\ balanced db'.
Proof.
  destruct op as [data new_id now|sid p|sid]; simpl.
  - destruct (create_daily_sale data new_id now db) as [d [sale|e]] eqn:E;
      simpl; intros [= <-]. eapply create_preserves; eauto.
  - destruct (update_sale_payment sid p db) as [d [m|e]] eqn:E;
      simpl; intros [= <-]. eapply amend_preserves; eauto.
  - destruct (delete_daily_sale sid db) as [d [m|e]] eqn:E;
      simpl; intros [= <-]. eapply delete_preserves; eauto.
Qed.

Lemma run_ops_preserves ops : forall db db',
  run_ops ops db = Some db' ->
  unique_customer_ids db -> balanced db ->
  unique_customer_ids db' /\ balanced db'.
Proof.
  induction ops as [|op rest IH]; simpl; intros db db'.
  - intros [= <-]. auto.
  - destruct (apply_op op db) as [d ok] eqn:E. destruct ok; [|discriminate].
    intros Hrun Hnd Hbal.
    destruct (apply_op_preserves _ _ _ E Hnd Hbal) as [Hnd' Hbal'].
    eapply IH; eauto.
Qed.
End BalanceInvariant.

(** C1 (amended). In exact arithmetic and with unique customer identifiers:
    if every customer's [outstanding_balance] equals the sum over that
    customer's daily sales of [total_amount - paid_amount], then the same
    holds after any finite sequence of successful create-sale, amend-payment
    and delete-sale operations. *)
Theorem balance_invariant :
  forall (A : Type) (AM : Amount A),
    ExactAmount A ->
    forall (ops : list (sale_op A)) (db db' : DB A),
      unique_customer_ids db ->
      balanced db ->
      run_ops ops db = Some db' ->
      balanced db'.
Proof.
  intros A AM EX ops db db' Hnd Hbal Hrun.
  exact (proj2 (run_ops_preserves ops db db' Hrun Hnd Hbal)).
Qed.

(** The run [exact_ops] from a fresh customer, in integer amounts. *)
Lemma balance_invariant_witness :
  exists db',
    run_ops exact_ops (one_customer 0) = Some db' /\
    map outstanding_balance (customers db') = [30] /\
    map sale_id (daily_sales db') = ["s2"] /\
    balanced db'.
Proof.
  eexists. split; [vm_compute; reflexivity|].
  split; [reflexivity|]. split; [reflexivity|].
  apply (balance_invariant Z Z_Amount Z_ExactAmount exact_ops
           (one_customer 0)).
  - unfold unique_customer_ids. simpl. repeat constructor. simpl. tauto.
  - intros c [<-|[]]. reflexivity.
  - vm_compute. reflexivity.
Defined.

(** C1 fails in binary64: starting from a customer with balance 0 and no
    sale (the invariant holds), the three requests of [drift_ops] succeed and
    leave the balance at 0.20000000000000004 while the one remaining sale
    contributes 0.2. *)
Lemma balance_invariant_binary64_counterexample :
  unique_customer_ids (one_customer 0%float) /\
  balanced (one_customer 0%float) /\
  exists db',
    run_ops drift_ops (one_customer 0%float) = Some db' /\
    map outstanding_balance (customers db') = [0.20000000000000004%float] /\
    map (fun c => owed db' (cust_id c)) (customers db') = [0.2%float] /\
    exists c, In c (customers db') /\
              outstanding_balance c <> owed db' (cust_id c).
Proof.
  split; [|split].
  - unfold unique_customer_ids. simpl. repeat constructor. simpl. tauto.
  - intros c [<-|[]]. reflexivity.
  - eexists. split; [vm_compute; reflexivity|].
    split; [reflexivity|]. split; [reflexivity|].
    eexists. split; [left; reflexivity|].
    intros H. apply (f_equal (fun x => PrimFloat.eqb x 0.2%float)) in H.
    vm_compute in H. discriminate H.
Qed.

(** ** Deleting a sale *)
Section DeleteFacts.
Context {A : Type} {AM : Amount A}.
Implicit Types (db : DB A) (c : Customer A) (s : DailySale A).

Lemma find_one_snoc_fresh {D} (q : D -> bool) (l : list D) (d : D) :
  find_one q l = None -> q d = true ->
  find_one q (l ++ [d]) = Some d /\ delete_one q (l ++ [d]) = l.
Proof.
  unfold find_one. induction l as [|x rest IH]; simpl; intros Hn Hq.
  - now rewrite Hq.
  - destruct (q x); [discriminate|].
    destruct (IH Hn Hq) as [-> ->]. auto.
Qed.

Lemma update_one_ext {D} (q : D -> bool) (u v : D -> D) (l : list D) :
  (forall d, u d = v d) -> update_one q u l = update_one q v l.
Proof.
  intros H. induction l as [|x rest IH]; simpl; [reflexivity|].
  destruct (q x); [now rewrite H|now rewrite IH].
Qed.

Lemma update_one_id {D} (q : D -> bool) (l : list D) :
  update_one q (fun d => d) l = l.
Proof.
  induction l as [|x rest IH]; simpl; [reflexivity|].
  destruct (q x); [reflexivity|now rewrite IH].
Qed.

Lemma update_one_twice {D} (q : D -> bool) (u v : D -> D) (l : list D) :
  (forall d, q (u d) = q d) ->
  update_one q v (update_one q u l) = update_one q (fun d => v (u d)) l.
Proof.
  intros H. induction l as [|x rest IH]; simpl; [reflexivity|].
  destruct (q x) eqn:Hq; simpl.
  - now rewrite H, Hq.
  - now rewrite Hq, IH.
Qed.

(** C4, for any arithmetic: what [delete_daily_sale] returns and writes. *)
Lemma delete_daily_sale_general sid db :
  match find_one (by_sale_id sid) (daily_sales db) with
  | Some sale =>
      exists db' pre post,
        delete_daily_sale sid db = (db', Ok "Sale deleted successfully") /\
        daily_sales db = pre ++ sale :: post /\
        daily_sales db' = pre ++ post /\
        customers db'
        = update_one (by_cust_id (customer_id sale))
            (inc_outstanding_balance
               (neg (total_amount sale [-] paid_amount sale)))
            (customers db) /\
        products db' = products db /\
        guest_sales db' = guest_sales db /\
        monthly_bills db' = monthly_bills db
  | None =>
      delete_daily_sale sid db
      = (db, Raise (HTTPException 404 "Sale not found"))
  end.
Proof.
  unfold delete_daily_sale.
  destruct (find_one _ (daily_sales db)) as [sale|] eqn:Hs; [|reflexivity].
  destruct (delete_one_split (by_sale_id sid) _ _ Hs)
    as (pre & post & Hpre & Hdel & _).
  eexists _, pre, post. split; [reflexivity|]. simpl.
  repeat split; auto.
Qed.

Context {EX : ExactAmount A}.

Lemma inc_zero c : inc_outstanding_balance zero c = c.
Proof. destruct c. unfold inc_outstanding_balance. simpl.
       now rewrite add_zero_r. Qed.

Lemma inc_then_undo delta c :
  inc_outstanding_balance (neg delta) (inc_outstanding_balance delta c) = c.
Proof. destruct c. unfold inc_outstanding_balance. simpl.
       now rewrite add_neg_cancel. Qed.

Lemma db_eta db :
  {| products := products db; customers := customers db;
     daily_sales := daily_sales db; guest_sales := guest_sales db;
     monthly_bills := monthly_bills db |} = db.
Proof. now destruct db. Qed.

(** Creating a sale under a fresh identifier and deleting it gives back the
    database one started from. *)
Lemma create_then_delete (data : DailySaleCreate A) new_id now db c :
  find_one (by_sale_id new_id) (daily_sales db) = None ->
  find_one (by_cust_id (dsc_customer_id data)) (customers db) = Some c ->
  exists db1 sale,
    create_daily_sale data new_id now db = (db1, Ok sale) /\
    delete_daily_sale new_id db1 = (db, Ok "Sale deleted successfully").
Proof.
  intros Hfresh Hc. unfold create_daily_sale. rewrite Hc.
  eexists _, _. split; [reflexivity|].
  unfold delete_daily_sale. simpl. unfold insert_one.
  match goal with
  | |- context [find_one (by_sale_id new_id) (daily_sales db ++ [?s])] =>
      destruct (@find_one_snoc_fresh _ (by_sale_id new_id) (daily_sales db) s
                  Hfresh) as [Hf Hd];
        [unfold by_sale_id; simpl; apply String.eqb_refl|]
  end.
  rewrite Hf. simpl. rewrite Hd.
  rewrite update_one_twice by (intros; apply by_cust_id_inc).
  rewrite (update_one_ext _
             (fun d => inc_outstanding_balance (neg _)
                         (inc_outstanding_balance _ d))
             (fun d => d)) by (intros; apply inc_then_undo).
  rewrite update_one_id.
  unfold set_daily_sales, set_customers. simpl. now rewrite db_eta.
Qed.

(** Deleting a sale that is paid in full leaves the customers as they are. *)
Lemma delete_settled sid db sale :
  find_one (by_sale_id sid) (daily_sales db) = Some sale ->
  total_amount sale = paid_amount sale ->
  customers (fst (delete_daily_sale sid db)) = customers db.
Proof.
  intros Hs Heq. unfold delete_daily_sale. rewrite Hs. simpl.
  rewrite Heq, sub_self, neg_zero.
  rewrite (update_one_ext _ _ (fun d => d)) by (intros; apply inc_zero).
  apply update_one_id.
Qed.
End DeleteFacts.

(** ** Two facts of binary64 *)

Lemma float_add_neg_zero (b : float) : PrimFloat.add b (-0)%float = b.
Proof.
  apply Prim2SF_inj. rewrite add_spec.
  change (Prim2SF (-0)%float) with (S754_zero true).
  destruct (Prim2SF b) as [[|]|[|]| |[|] m e]; reflexivity.
Qed.

Lemma float_sub_self (t : float) :
  float_finite t = true -> PrimFloat.sub t t = 0%float.
Proof.
  unfold float_finite. intros H.
  apply Prim2SF_inj. rewrite sub_spec.
  change (Prim2SF 0%float) with (S754_zero false).
  destruct (Prim2SF t) as [[|]|[|]| |s m e]; try discriminate; try reflexivity.
  unfold SF64sub, SFsub. rewrite Z.min_id, Z.sub_diag. reflexivity.
Qed.

(** In binary64, deleting a sale paid in full for a finite amount leaves the
    customers as they are: the increment is [-0.0]. *)
Lemma delete_settled_binary64 sid (db : DB float) sale :
  find_one (by_sale_id sid) (daily_sales db) = Some sale ->
  total_amount sale = paid_amount sale ->
  float_finite (total_amount sale) = true ->
  customers (fst (delete_daily_sale sid db)) = customers db.
Proof.
  intros Hs Heq Hfin. unfold delete_daily_sale. rewrite Hs.
  cbn [fst customers set_customers set_daily_sales].
  rewrite <- Heq. cbn [sub neg float_Amount].
  rewrite (float_sub_self _ Hfin).
  change (PrimFloat.opp 0%float) with (-0)%float.
  rewrite (update_one_ext _ _ (fun d => d)); [apply update_one_id|].
  intros [i n p a e b l act cr]. unfold inc_outstanding_balance.
  cbn [outstanding_balance add float_Amount cust_id cust_name cust_phone
       cust_address cust_email credit_limit cust_is_active cust_created_at].
  now rewrite float_add_neg_zero.
Qed.

(** C4 (amended). For any arithmetic: [delete_daily_sale] on a known sale id
    succeeds, removes that sale record and nothing else from the daily sales,
    and increments the owning customer's [outstanding_balance] by exactly
    [-(total_amount - paid_amount)]; on an unknown id it raises the 404
    "Sale not found" and writes nothing.  In exact arithmetic: creating a
    sale (under a fresh identifier, for an existing customer) and then
    deleting it gives back the database as it was, hence every balance; and
    deleting a sale with [total_amount = paid_amount] leaves the customers,
    hence every balance, unchanged.  The latter also holds in binary64 when
    the amount is finite. *)
Theorem delete_daily_sale_spec :
  (forall (A : Type) (AM : Amount A) (sid : string) (db : DB A),
      match find_one (by_sale_id sid) (daily_sales db) with
      | Some sale =>
          exists db' pre post,
            delete_daily_sale sid db = (db', Ok "Sale deleted successfully") /\
            daily_sales db = pre ++ sale :: post /\
            daily_sales db' = pre ++ post /\
            match find_one (by_cust_id (customer_id sale)) (customers db) with
            | Some c =>
                exists c',
                  find_one (by_cust_id (customer_id sale)) (customers db')
                  = Some c' /\
                  outstanding_balance c'
                  = outstanding_balance c
                      [+] neg (total_amount sale [-] paid_amount sale)
            | None => customers db' = customers db
            end
      | None =>
          delete_daily_sale sid db
          = (db, Raise (HTTPException 404 "Sale not found"))
      end)
  /\
  (forall (A : Type) (AM : Amount A),
      ExactAmount A ->
      (forall (data : DailySaleCreate A) (new_id now : string) (db : DB A)
              (c : Customer A),
          find_one (by_sale_id new_id) (daily_sales db) = None ->
          find_one (by_cust_id (dsc_customer_id data)) (customers db)
          = Some c ->
          exists db1 sale,
            create_daily_sale data new_id now db = (db1, Ok sale) /\
            delete_daily_sale new_id db1
            = (db, Ok "Sale deleted successfully"))
      /\
      (forall (sid : string) (db : DB A) (sale : DailySale A),
          find_one (by_sale_id sid) (daily_sales db) = Some sale ->
          total_amount sale = paid_amount sale ->
          customers (fst (delete_daily_sale sid db)) = customers db))
  /\
  (forall (sid : string) (db : DB float) (sale : DailySale float),
      find_one (by_sale_id sid) (daily_sales db) = Some sale ->
      total_amount sale = paid_amount sale ->
      float_finite (total_amount sale) = true ->
      customers (fst (delete_daily_sale sid db)) = customers db).
Proof.
  split; [|split; [|exact delete_settled_binary64]].
  - intros A AM sid db.
    pose proof (delete_daily_sale_general sid db) as H.
    destruct (find_one _ (daily_sales db)) as [sale|]; [|exact H].
    destruct H as (db' & pre & post & He & Hpre & Hpost & Hcs & _).
    exists db', pre, post. repeat (split; [assumption|]).
    destruct (find_one _ (customers db)) as [c|] eqn:Hc; rewrite Hcs.
    + eexists. split; [apply find_customer_after_inc; exact Hc|]. reflexivity.
    + now apply update_one_absent.
  - intros A AM EX. split.
    + intros data new_id now db c Hfresh Hc.
      exact (create_then_delete data new_id now db c Hfresh Hc).
    + intros sid db sale Hs Heq.
      exact (delete_settled sid db sale Hs Heq).
Qed.

(** In integer amounts: a sale of 100 with 60 paid is created and deleted;
    a settled sale is deleted. *)
Lemma delete_daily_sale_spec_witness :
  (exists db1 sale,
      create_daily_sale (request_for "2024-01-05" 100 60) "s1" "t1"
                        (one_customer 7)
      = (db1, Ok sale) /\
      delete_daily_sale "s1" db1
      = (one_customer 7, Ok "Sale deleted successfully"))
  /\
  customers (fst (delete_daily_sale "s9"
               (set_daily_sales (one_customer 7) [settled_sale])))
  = customers (one_customer 7).
Proof.
  split.
  - eapply (proj1 (proj1 (proj2 delete_daily_sale_spec) Z Z_Amount
                          Z_ExactAmount));
      reflexivity.
  - exact (proj2 (proj1 (proj2 delete_daily_sale_spec) Z Z_Amount
                       Z_ExactAmount)
             "s9" (set_daily_sales (one_customer 7) [settled_sale])
             settled_sale eq_refl eq_refl).
Defined.

(** C4 fails in binary64: a customer with balance 0.1 buys for 0.2 and the
    sale is deleted at once; both calls succeed and the balance is
    0.10000000000000003, not the 0.1 it was. *)
Lemma create_then_delete_binary64_counterexample :
  exists db1 sale db2,
    create_daily_sale (request_for "2024-01-05" 0.2%float 0%float) "s1" "t1"
                      (one_customer 0.1%float)
    = (db1, Ok sale) /\
    delete_daily_sale "s1" db1 = (db2, Ok "Sale deleted successfully") /\
    daily_sales db2 = [] /\
    map outstanding_balance (customers (one_customer 0.1%float))
    = [0.1%float] /\
    map outstanding_balance (customers db2) = [0.10000000000000003%float] /\
    PrimFloat.eqb 0.10000000000000003%float 0.1%float = false.
Proof.
  eexists _, _, _. split; [vm_compute; reflexivity|].
  split; [vm_compute; reflexivity|].
  repeat split.
Qed.


(** ** Monthly billing *)
Section BillingFacts.
Context {A : Type} {AM : Amount A}.
Variables (m y : Z) (uuid4 now : nat -> string).
Implicit Types (db : DB A) (c : Customer A) (b : MonthlyBill A).

Lemma find_one_update_one_disjoint {D} (q q' : D -> bool) (u : D -> D) l :
  (forall d, q d = true -> q' d = false) ->
  (forall d, q d = true -> q' (u d) = false) ->
  find_one q' (update_one q u l) = find_one q' l.
Proof.
  intros H1 H2. unfold find_one.
  induction l as [|x rest IH]; simpl; [reflexivity|].
  destruct (q x) eqn:Hq; simpl.
  - now rewrite (H1 x Hq), (H2 x Hq).
  - now rewrite IH.
Qed.

Lemma find_one_insert_one_miss {D} (q : D -> bool) l d :
  q d = false -> find_one q (insert_one d l) = find_one q l.
Proof.
  intros Hq. unfold find_one, insert_one.
  induction l as [|x rest IH]; simpl; [now rewrite Hq|].
  destruct (q x); auto.
Qed.

Lemma find_one_insert_one_hit {D} (q : D -> bool) l d :
  find_one q l = None -> q d = true -> find_one q (insert_one d l) = Some d.
Proof.
  intros Hn Hq. unfold find_one, insert_one in *.
  induction l as [|x rest IH]; simpl in *; [now rewrite Hq|].
  destruct (q x); [discriminate|auto].
Qed.

Lemma map_bill_id_update_one q (bd : MonthlyBill A) l :
  map bill_id (update_one q (set_bill_data bd) l) = map bill_id l.
Proof.
  induction l as [|x rest IH]; simpl; [reflexivity|].
  destruct (q x); simpl; [reflexivity|now rewrite IH].
Qed.

(** Two keys that differ select different bills. *)
Lemma by_bill_key_disjoint cid m0 y0 cid' m' y' b :
  ~ (cid' = cid /\ m' = m0 /\ y' = y0) ->
  by_bill_key cid m0 y0 b = true -> by_bill_key cid' m' y' b = false.
Proof.
  unfold by_bill_key. intros Hne H.
  apply andb_prop in H. destruct H as [H Hy].
  apply andb_prop in H. destruct H as [Hc Hm].
  apply String.eqb_eq in Hc. apply Z.eqb_eq in Hm, Hy.
  destruct (String.eqb (bill_customer_id b) cid') eqn:E1; [|reflexivity].
  destruct (month b =? m') eqn:E2; [|reflexivity].
  destruct (year b =? y') eqn:E3; [|reflexivity].
  apply String.eqb_eq in E1. apply Z.eqb_eq in E2, E3.
  exfalso. apply Hne. repeat split; congruence.
Qed.

Lemma by_bill_key_expected db k c :
  by_bill_key (cust_id c) m y
              (expected_bill db m y uuid4 now k c) = true.
Proof.
  unfold by_bill_key. simpl.
  now rewrite String.eqb_refl, !Z.eqb_refl.
Qed.

(** One iteration of the loop, in the vocabulary of the specification. *)
Lemma bill_customer_step db acc c :
  exists db1,
    bill_customer m y uuid4 now (db, acc) c
    = (db1, if has_sales db m y c
            then acc ++ [expected_bill db m y uuid4 now
                                       (List.length acc) c]
            else acc) /\
    products db1 = products db /\ customers db1 = customers db /\
    daily_sales db1 = daily_sales db /\ guest_sales db1 = guest_sales db /\
    monthly_bills db1
    = (if has_sales db m y c then
         if has_bill db m y (cust_id c) then
           update_one (by_bill_key (cust_id c) m y)
             (set_bill_data
                (expected_bill db m y uuid4 now (List.length acc) c))
             (monthly_bills db)
         else
           insert_one (expected_bill db m y uuid4 now
                                     (List.length acc) c)
                      (monthly_bills db)
       else monthly_bills db).
Proof.
  unfold bill_customer, has_sales, has_bill, expected_bill, billed_sales.
  destruct (customer_month_sales db (cust_id c) (month_window m y))
    as [|s0 sales] eqn:Hs.
  - exists db. repeat split; reflexivity.
  - destruct (find_one _ (monthly_bills db)) as [e|] eqn:He.
    + eexists. split; [reflexivity|]. now repeat split.
    + eexists. split; [reflexivity|]. now repeat split.
Qed.

Lemma billed_sales_ext db db1 c :
  daily_sales db1 = daily_sales db ->
  billed_sales db1 m y c = billed_sales db m y c.
Proof.
  intros H. unfold billed_sales, customer_month_sales. now rewrite H.
Qed.

Lemma has_sales_ext db db1 c :
  daily_sales db1 = daily_sales db ->
  has_sales db1 m y c = has_sales db m y c.
Proof.
  intros H. unfold has_sales. now rewrite (billed_sales_ext db db1 c H).
Qed.

Lemma expected_bill_ext db db1 k c :
  daily_sales db1 = daily_sales db ->
  find_one (by_bill_key (cust_id c) m y) (monthly_bills db1)
  = find_one (by_bill_key (cust_id c) m y) (monthly_bills db) ->
  expected_bill db1 m y uuid4 now k c = expected_bill db m y uuid4 now k c.
Proof.
  intros Hd Hb. unfold expected_bill.
  now rewrite (billed_sales_ext db db1 c Hd), Hb.
Qed.

Lemma expected_bills_ext db db1 cs :
  daily_sales db1 = daily_sales db ->
  (forall c, In c cs ->
     find_one (by_bill_key (cust_id c) m y) (monthly_bills db1)
     = find_one (by_bill_key (cust_id c) m y) (monthly_bills db)) ->
  forall k, expected_bills db1 m y uuid4 now k cs
            = expected_bills db m y uuid4 now k cs.
Proof.
  intros Hd. induction cs as [|c rest IH]; intros Hb k; simpl; [reflexivity|].
  rewrite (has_sales_ext db db1 c Hd).
  rewrite (expected_bill_ext db db1 k c Hd) by (apply Hb; now left).
  rewrite !IH by (intros; apply Hb; now right). reflexivity.
Qed.

(** Every expected bill is the bill of one of the customers. *)
Lemma in_expected_bills db cs : forall k r,
  In r (expected_bills db m y uuid4 now k cs) ->
  exists c k', In c cs /\ has_sales db m y c = true /\
               r = expected_bill db m y uuid4 now k' c.
Proof.
  induction cs as [|c rest IH]; simpl; intros k r Hin; [tauto|].
  destruct (has_sales db m y c) eqn:Hs.
  - destruct Hin as [<-|Hin].
    + exists c, k. auto.
    + destruct (IH _ _ Hin) as (c' & k' & H1 & H2 & H3).
      exists c', k'. auto.
  - destruct (IH _ _ Hin) as (c' & k' & H1 & H2 & H3). exists c', k'. auto.
Qed.

Lemma set_bill_data_expected db k c e :
  find_one (by_bill_key (cust_id c) m y) (monthly_bills db) = Some e ->
  set_bill_data (expected_bill db m y uuid4 now k c) e
  = expected_bill db m y uuid4 now k c.
Proof.
  intros He. unfold set_bill_data, expected_bill. simpl. now rewrite He.
Qed.

(** What one iteration does to the lookups by key. *)
Lemma bill_customer_lookup_other db acc c db1 acc1 cid' m' y' :
  bill_customer m y uuid4 now (db, acc) c = (db1, acc1) ->
  ~ (cid' = cust_id c /\ m' = m /\ y' = y) ->
  find_one (by_bill_key cid' m' y') (monthly_bills db1)
  = find_one (by_bill_key cid' m' y') (monthly_bills db).
Proof.
  intros Hstep Hne.
  destruct (bill_customer_step db acc c) as (d & Hd & _ & _ & _ & _ & Hb).
  rewrite Hstep in Hd. injection Hd as <- _. rewrite Hb.
  destruct (has_sales db m y c); [|reflexivity].
  destruct (has_bill db m y (cust_id c)).
  - apply find_one_update_one_disjoint.
    + intros b Hq. eapply by_bill_key_disjoint; eauto.
    + intros b _. eapply by_bill_key_disjoint; [exact Hne|].
      unfold by_bill_key, set_bill_data. simpl.
      now rewrite String.eqb_refl, !Z.eqb_refl.
  - apply find_one_insert_one_miss.
    eapply by_bill_key_disjoint; [exact Hne|]. apply by_bill_key_expected.
Qed.

Lemma bill_customer_lookup_same db acc c db1 acc1 :
  bill_customer m y uuid4 now (db, acc) c = (db1, acc1) ->
  has_sales db m y c = true ->
  find_one (by_bill_key (cust_id c) m y) (monthly_bills db1)
  = Some (expected_bill db m y uuid4 now (List.length acc) c).
Proof.
  intros Hstep Hs.
  destruct (bill_customer_step db acc c) as (d & Hd & _ & _ & _ & _ & Hb).
  rewrite Hstep in Hd. injection Hd as <- _. rewrite Hb, Hs.
  unfold has_bill.
  destruct (find_one (by_bill_key (cust_id c) m y) (monthly_bills db))
    as [e|] eqn:He.
  - rewrite <- (set_bill_data_expected db (List.length acc) c e He) at 2.
    apply find_one_update_one_hit; [exact He|].
    rewrite (set_bill_data_expected db _ c e He). apply by_bill_key_expected.
  - apply find_one_insert_one_hit; [exact He|apply by_bill_key_expected].
Qed.

Lemma bill_customer_ids db acc c db1 acc1 :
  bill_customer m y uuid4 now (db, acc) c = (db1, acc1) ->
  map bill_id (monthly_bills db1)
  = map bill_id (monthly_bills db)
    ++ (if has_sales db m y c && negb (has_bill db m y (cust_id c))
        then [bill_id (expected_bill db m y uuid4 now (List.length acc) c)]
        else []).
Proof.
  intros Hstep.
  destruct (bill_customer_step db acc c) as (d & Hd & _ & _ & _ & _ & Hb).
  rewrite Hstep in Hd. injection Hd as <- _. rewrite Hb.
  destruct (has_sales db m y c); simpl; [|now rewrite app_nil_r].
  destruct (has_bill db m y (cust_id c)); simpl.
  - now rewrite map_bill_id_update_one, app_nil_r.
  - unfold insert_one. now rewrite map_app.
Qed.

(** The loop over customers with pairwise distinct identifiers. *)
Lemma bill_loop cs : forall db acc,
  NoDup (map cust_id cs) ->
  exists db',
    fold_left (bill_customer m y uuid4 now) cs (db, acc)
    = (db', acc ++ expected_bills db m y uuid4 now (List.length acc) cs) /\
    (products db' = products db /\ customers db' = customers db /\
     daily_sales db' = daily_sales db /\ guest_sales db' = guest_sales db) /\
    (forall r, In r (expected_bills db m y uuid4 now (List.length acc) cs) ->
       find_one (by_bill_key (bill_customer_id r) m y) (monthly_bills db')
       = Some r) /\
    (forall cid m' y',
       ~ (In cid (map cust_id (List.filter (has_sales db m y) cs))
          /\ m' = m /\ y' = y) ->
       find_one (by_bill_key cid m' y') (monthly_bills db')
       = find_one (by_bill_key cid m' y') (monthly_bills db)) /\
    map bill_id (monthly_bills db')
    = map bill_id (monthly_bills db)
      ++ map bill_id
           (List.filter
              (fun r => negb (has_bill db m y (bill_customer_id r)))
              (expected_bills db m y uuid4 now (List.length acc) cs)).
Proof.
  induction cs as [|c rest IH]; intros db acc Hnd.
  - exists db. simpl. rewrite !app_nil_r. repeat split; tauto.
  - simpl in Hnd. inversion Hnd as [|? ? Hc Hrest]; subst.
    destruct (bill_customer_step db acc c)
      as (db1 & Hstep & Hp & Hcu & Hd & Hg & Hb).
    set (acc1 := if has_sales db m y c
                 then acc ++ [expected_bill db m y uuid4 now
                                            (List.length acc) c]
                 else acc) in *.
    destruct (IH db1 acc1 Hrest)
      as (db' & Hfold & (Hp' & Hcu' & Hd' & Hg') & Hin & Hout & Hids).
    assert (Hrest_keys : forall c', In c' rest ->
              find_one (by_bill_key (cust_id c') m y) (monthly_bills db1)
              = find_one (by_bill_key (cust_id c') m y) (monthly_bills db)).
    { intros c' Hc'.
      apply (bill_customer_lookup_other db acc c db1 acc1); [exact Hstep|].
      intros (Heq & _ & _). apply Hc. rewrite <- Heq. now apply in_map. }
    assert (Hbills : forall k,
              expected_bills db1 m y uuid4 now k rest
              = expected_bills db m y uuid4 now k rest)
      by (apply expected_bills_ext; assumption).
    assert (Hfilter : List.filter (has_sales db1 m y) rest
                      = List.filter (has_sales db m y) rest).
    { apply filter_ext. intros c'. now apply has_sales_ext. }
    assert (Hnotin : ~ In (cust_id c)
                       (map cust_id (List.filter (has_sales db1 m y) rest))).
    { intros H. apply Hc. apply in_map_iff in H.
      destruct H as (c' & Heq & H). apply filter_In in H.
      rewrite <- Heq. apply in_map. tauto. }
    assert (Hlen : has_sales db m y c = true ->
                   List.length acc1 = S (List.length acc)).
    { intros Hs. subst acc1. rewrite Hs, length_app. simpl.
      apply Nat.add_1_r. }
    exists db'. split; [|split; [|split; [|split]]].
    + cbn [fold_left expected_bills]. rewrite Hstep, Hfold, Hbills.
      destruct (has_sales db m y c) eqn:Hs; [|reflexivity].
      rewrite (Hlen eq_refl). subst acc1. now rewrite <- app_assoc.
    + repeat split; congruence.
    + intros r Hr. simpl in Hr.
      destruct (has_sales db m y c) eqn:Hs.
      * destruct Hr as [<-|Hr].
        -- simpl bill_customer_id.
           rewrite Hout by (intros (H & _); exact (Hnotin H)).
           apply (bill_customer_lookup_same db acc c db1 acc1); assumption.
        -- apply Hin. now rewrite Hbills, (Hlen eq_refl).
      * apply Hin. rewrite Hbills. exact Hr.
    + intros cid m' y' Hne.
      rewrite Hout.
      * destruct (has_sales db m y c) eqn:Hs.
        -- apply (bill_customer_lookup_other db acc c db1 acc1);
             [exact Hstep|].
           intros (Heq & Hm & Hy). apply Hne. simpl. rewrite Hs. simpl. auto.
        -- now rewrite Hb.
      * rewrite Hfilter. intros (H & Hm & Hy). apply Hne. simpl.
        destruct (has_sales db m y c); simpl; auto.
    + rewrite Hids, (bill_customer_ids db acc c db1 acc1 Hstep), Hbills.
      rewrite <- app_assoc. f_equal.
      assert (Hf : forall k,
                List.filter
                  (fun r => negb (has_bill db1 m y (bill_customer_id r)))
                  (expected_bills db m y uuid4 now k rest)
                = List.filter
                    (fun r => negb (has_bill db m y (bill_customer_id r)))
                    (expected_bills db m y uuid4 now k rest)).
      { intros k. apply filter_ext_in. intros r Hr.
        destruct (in_expected_bills db rest k r Hr) as (c' & k' & Hc' & _ & ->).
        simpl. unfold has_bill. now rewrite (Hrest_keys c' Hc'). }
      rewrite Hf. simpl.
      destruct (has_sales db m y c) eqn:Hs; simpl.
      * rewrite (Hlen eq_refl).
        destruct (has_bill db m y (cust_id c)); reflexivity.
      * reflexivity.
Qed.
End BillingFacts.

Lemma NoDup_map_filter {X Y} (f : X -> Y) (p : X -> bool) (l : list X) :
  NoDup (map f l) -> NoDup (map f (List.filter p l)).
Proof.
  induction l as [|x l IH]; simpl; intros H; [constructor|].
  inversion H as [|? ? Hx Hl]; subst.
  destruct (p x); simpl; [|auto].
  constructor; [|auto].
  intros Hin. apply Hx. apply in_map_iff in Hin.
  destruct Hin as (x' & Heq & Hin). apply filter_In in Hin.
  rewrite <- Heq. apply in_map. tauto.
Qed.

Lemma NoDup_map_firstn {X Y} (f : X -> Y) (n : nat) (l : list X) :
  NoDup (map f l) -> NoDup (map f (firstn n l)).
Proof.
  revert n. induction l as [|x l IH]; intros [|n]; simpl; intros H;
    try constructor.
  - inversion H as [|? ? Hx Hl]; subst.
    intros Hin. apply Hx. apply in_map_iff in Hin.
    destruct Hin as (x' & Heq & Hin). rewrite <- Heq. apply in_map.
    eapply (In_nth_error) in Hin. destruct Hin as [i Hi].
    destruct (Nat.lt_ge_cases i n) as [Hlt|Hge].
    + rewrite nth_error_firstn in Hi.
      destruct (Nat.ltb i n); [|discriminate].
      eapply nth_error_In; eauto.
    + rewrite nth_error_firstn in Hi.
      destruct (Nat.ltb_spec i n); [lia|discriminate].
  - inversion H; subst. auto.
Qed.

Lemma to_list_all {D} (n : nat) (l : list D) :
  (List.length l <= n)%nat -> to_list n l = l.
Proof. intros H. unfold to_list. now apply firstn_all2. Qed.

Lemma map_bill_customer_id_expected {A} {AM : Amount A} (db : DB A) m y
      uuid4 now cs :
  forall k,
    map bill_customer_id (expected_bills db m y uuid4 now k cs)
    = map cust_id (List.filter (has_sales db m y) cs).
Proof.
  induction cs as [|c rest IH]; intros k; simpl; [reflexivity|].
  destruct (has_sales db m y c); simpl; now rewrite IH.
Qed.

(** C5 (amended). [generate_monthly_bills] with unique customer identifiers.
    The generator visits the first 1000 active customers and reads the first
    1000 matching sales of each (all of them when there are no more than
    1000).  It succeeds and returns, in the order of the customers, exactly
    one bill for each visited customer with at least one sale read:
    [total_sales] and [total_paid] are the sums over the sales read,
    [balance_due] their difference, [sales_count] their number,
    [email_sent = false]; the identifier is the one of the bill already stored
    for (customer, month, year) if there is one, a fresh one otherwise.  After
    the run each returned bill is the bill stored under its key; the lookup
    of any other key (a customer without a sale read, an inactive customer,
    another month) gives what it gave before; stored identifiers stay in place
    and the new bills are appended; no other collection changes. *)
Theorem generate_monthly_bills_spec :
  forall (A : Type) (AM : Amount A) (m y : Z) (uuid4 now : nat -> string)
         (db : DB A),
    unique_customer_ids db ->
    exists db' msg bills,
      generate_monthly_bills m y uuid4 now db = (db', Ok (msg, bills)) /\
      bills = expected_bills db m y uuid4 now 0 (visited_customers db) /\
      map bill_customer_id bills
      = map cust_id (List.filter (has_sales db m y) (visited_customers db)) /\
      (forall r, In r bills ->
         exists c,
           In c (visited_customers db) /\
           billed_sales db m y c <> [] /\
           bill_customer_id r = cust_id c /\
           bill_customer_name r = cust_name c /\
           month r = m /\ year r = y /\
           total_sales r = py_sum (map total_amount (billed_sales db m y c)) /\
           total_paid r = py_sum (map paid_amount (billed_sales db m y c)) /\
           balance_due r = total_sales r [-] total_paid r /\
           sales_count r = Z.of_nat (List.length (billed_sales db m y c)) /\
           email_sent r = false /\
           match find_one (by_bill_key (cust_id c) m y) (monthly_bills db) with
           | Some e => bill_id r = bill_id e
           | None => exists k, bill_id r = uuid4 k
           end) /\
      (forall r, In r bills ->
         find_one (by_bill_key (bill_customer_id r) m y) (monthly_bills db')
         = Some r) /\
      (forall cid m' y',
         ~ (In cid (map cust_id (List.filter (has_sales db m y)
                                             (visited_customers db)))
            /\ m' = m /\ y' = y) ->
         find_one (by_bill_key cid m' y') (monthly_bills db')
         = find_one (by_bill_key cid m' y') (monthly_bills db)) /\
      map bill_id (monthly_bills db')
      = map bill_id (monthly_bills db)
        ++ map bill_id
             (List.filter
                (fun r => negb (has_bill db m y (bill_customer_id r))) bills) /\
      (products db' = products db /\ customers db' = customers db /\
       daily_sales db' = daily_sales db /\ guest_sales db' = guest_sales db) /\
      ((List.length (find cust_is_active (customers db)) <= 1000)%nat ->
       visited_customers db = find cust_is_active (customers db)) /\
      (forall c, (List.length (month_sales db m y c) <= 1000)%nat ->
                 billed_sales db m y c = month_sales db m y c).
Proof.
  intros A AM m y uuid4 now db Hnd.
  assert (Hv : NoDup (map cust_id (visited_customers db))).
  { unfold visited_customers, to_list, find.
    apply NoDup_map_firstn, NoDup_map_filter. exact Hnd. }
  destruct (bill_loop m y uuid4 now (visited_customers db) db [] Hv)
    as (db' & Hfold & Hframe & Hin & Hout & Hids).
  simpl in Hfold, Hin, Hids.
  eexists db', _, _. split.
  { unfold generate_monthly_bills. fold (visited_customers db).
    rewrite Hfold. reflexivity. }
  split; [reflexivity|].
  split; [apply map_bill_customer_id_expected|].
  split.
  { intros r Hr.
    destruct (in_expected_bills m y uuid4 now db _ _ _ Hr)
      as (c & k & Hc & Hs & ->).
    exists c. split; [exact Hc|]. split.
    { unfold has_sales in Hs. intros E. rewrite E in Hs. discriminate. }
    simpl. repeat (split; [reflexivity|]).
    destruct (find_one _ (monthly_bills db)); [reflexivity|].
    now exists k. }
  split; [exact Hin|]. split; [exact Hout|]. split; [exact Hids|].
  split; [exact Hframe|]. split.
  - intros H. unfold visited_customers. now apply to_list_all.
  - intros c H. unfold billed_sales, customer_month_sales.
    now apply to_list_all.
Qed.

(** January 2024 on [january_db]: one bill, for Asha, under the identifier
    of her stored bill, with the sent flag cleared. *)
Lemma generate_monthly_bills_spec_witness :
  exists db' msg bills,
    generate_monthly_bills 1 2024 (fun k => "new") (fun k => "t9") january_db
    = (db', Ok (msg, bills)) /\
    map bill_customer_id bills = ["c1"] /\
    map bill_id bills = ["b7"] /\
    map total_sales bills = [150] /\ map total_paid bills = [100] /\
    map balance_due bills = [50] /\ map sales_count bills = [2] /\
    map email_sent bills = [false] /\
    monthly_bills db' = bills.
Proof.
  assert (Hnd : unique_customer_ids january_db).
  { unfold unique_customer_ids. simpl. repeat constructor; simpl.
    - intros [H|[H|[]]]; discriminate H.
    - intros [H|[]]; discriminate H.
    - tauto. }
  destruct (generate_monthly_bills_spec Z Z_Amount 1 2024
              (fun k => "new") (fun k => "t9") january_db Hnd)
    as (db' & msg & bills & Hgen & Hbills & _).
  exists db', msg, bills. split; [exact Hgen|].
  assert (Hdb : monthly_bills db' = bills).
  { rewrite Hbills.
    change db' with (fst (db', Ok (msg, bills))). rewrite <- Hgen.
    vm_compute. reflexivity. }
  rewrite Hdb, Hbills. vm_compute. repeat split.
Defined.

(** C5 fails beyond the cursor limit: a customer with 1001 sales of 1.0 in
    January 2024 gets a bill that counts 1000 sales and totals 1000.0, while
    the matching sales are 1001 and sum to 1001.0. *)
Lemma generate_monthly_bills_cap_counterexample :
  unique_customer_ids busy_db /\
  List.length (month_sales busy_db 1 2024 example_customer) = 1001%nat /\
  py_sum (map total_amount (month_sales busy_db 1 2024 example_customer))
  = 1001%float /\
  exists db' msg b,
    generate_monthly_bills 1 2024 (fun k => "new") (fun k => "t9") busy_db
    = (db', Ok (msg, [b])) /\
    bill_customer_id b = "c1" /\
    sales_count b = 1000 /\
    total_sales b = 1000%float.
Proof.
  split; [|split; [|split]].
  - unfold unique_customer_ids. simpl. repeat constructor. simpl. tauto.
  - vm_compute. reflexivity.
  - vm_compute. reflexivity.
  - eexists _, _, _. split; [vm_compute; reflexivity|].
    repeat split.
Qed.


Lemma filter_none {X} (p : X -> bool) (l : list X) :
  (forall x, In x l -> p x = false) -> List.filter p l = [].
Proof.
  induction l as [|x l IH]; simpl; intros H; [reflexivity|].
  rewrite (H x) by now left. apply IH. intros. apply H. now right.
Qed.

(** ** The [$group] stage *)
Section GroupFacts.
Context {Doc G : Type}.
Variables (doc_key : Doc -> string) (group_key : G -> string).
Variables (first : Doc -> G) (accumulate : G -> Doc -> G).
Hypothesis key_first : forall d, group_key (first d) = doc_key d.
Hypothesis key_accumulate :
  forall g d, group_key (accumulate g d) = group_key g.

Let add_doc := group_add doc_key group_key first accumulate.
Let groups := stage_group doc_key group_key first accumulate.

(** [group_add] either folds the document into the first group with its key,
    or appends a new group. *)
Lemma group_add_cases d gs :
  (exists pre g post,
      gs = pre ++ g :: post /\ group_key g = doc_key d /\
      add_doc d gs = pre ++ accumulate g d :: post /\
      Forall (fun x => group_key x <> doc_key d) pre)
  \/ (Forall (fun x => group_key x <> doc_key d) gs /\
      add_doc d gs = gs ++ [first d]).
Proof.
  subst add_doc. induction gs as [|x rest IH]; simpl.
  - right. split; [constructor|reflexivity].
  - destruct (String.eqb (group_key x) (doc_key d)) eqn:E.
    + apply String.eqb_eq in E. left. exists [], x, rest.
      repeat split; auto.
    + apply String.eqb_neq in E.
      destruct IH as [(pre & g & post & -> & Hk & -> & Hpre)| [Hall ->] ].
      * left. exists (x :: pre), g, post. repeat split; auto.
      * right. split; [constructor; auto|reflexivity].
Qed.

Lemma group_add_keys d gs :
  map group_key (add_doc d gs)
  = if existsb (String.eqb (doc_key d)) (map group_key gs)
    then map group_key gs else map group_key gs ++ [doc_key d].
Proof.
  subst add_doc. induction gs as [|x rest IH]; simpl.
  - now rewrite key_first.
  - rewrite (String.eqb_sym (doc_key d)).
    destruct (String.eqb (group_key x) (doc_key d)); simpl.
    + now rewrite key_accumulate.
    + rewrite IH. now destruct (existsb _ _).
Qed.

Lemma group_add_NoDup d gs :
  NoDup (map group_key gs) -> NoDup (map group_key (add_doc d gs)).
Proof.
  intros H. rewrite group_add_keys.
  destruct (existsb _ _) eqn:E; [exact H|].
  apply NoDup_app; [exact H|repeat constructor; simpl; tauto|].
  intros k Hk [<-|[]].
  assert (existsb (String.eqb (doc_key d)) (map group_key gs) = true);
    [|congruence].
  apply existsb_exists. exists (doc_key d). split; [exact Hk|].
  apply String.eqb_refl.
Qed.

Lemma group_add_In_key d gs k :
  In k (map group_key (add_doc d gs))
  <-> In k (map group_key gs) \/ k = doc_key d.
Proof.
  rewrite group_add_keys. destruct (existsb _ _) eqn:E.
  - split; [auto|]. intros [H | ->]; [exact H|].
    apply existsb_exists in E. destruct E as (k' & Hk' & E).
    apply String.eqb_eq in E. now subst.
  - rewrite in_app_iff. simpl. intuition.
Qed.

Lemma groups_snoc docs d : groups (docs ++ [d]) = add_doc d (groups docs).
Proof. subst groups add_doc. unfold stage_group. now rewrite fold_left_app. Qed.

(** The groups are the distinct keys of the documents. *)
Lemma groups_keys docs :
  NoDup (map group_key (groups docs)) /\
  forall k, In k (map group_key (groups docs)) <-> In k (map doc_key docs).
Proof.
  induction docs as [|d docs IH] using rev_ind.
  - split; [constructor|]. intros k. simpl. tauto.
  - destruct IH as [Hnd Hin]. rewrite groups_snoc. split.
    + now apply group_add_NoDup.
    + intros k. rewrite group_add_In_key, Hin, map_app, in_app_iff. simpl.
      intuition.
Qed.

Lemma groups_length docs :
  (List.length (groups docs) <= List.length docs)%nat.
Proof.
  induction docs as [|d docs IH] using rev_ind; [simpl; lia|].
  rewrite groups_snoc, length_app. simpl.
  rewrite <- (length_map group_key), group_add_keys.
  destruct (existsb _ _); rewrite ?length_app, !length_map; simpl; lia.
Qed.

(** A [$sum] accumulator holds the sum over the documents of its group. *)
Section Sum.
Context {A : Type} {AM : Amount A}.
Variables (val : Doc -> A) (tot : G -> A).
Hypothesis tot_first : forall d, tot (first d) = zero [+] val d.
Hypothesis tot_accumulate : forall g d, tot (accumulate g d) = tot g [+] val d.

Lemma py_sum_snoc (xs : list A) (x : A) : py_sum (xs ++ [x]) = py_sum xs [+] x.
Proof. unfold py_sum. now rewrite fold_left_app. Qed.

Lemma groups_sum docs :
  forall g, In g (groups docs) ->
            tot g = py_sum (map val (List.filter (in_group doc_key group_key g) docs)).
Proof.
  induction docs as [|d docs IH] using rev_ind; [simpl; tauto|].
  intros g' Hg'. rewrite groups_snoc in Hg'.
  destruct (groups_keys docs) as [Hnd Hkeys].
  rewrite filter_app, map_app. simpl. unfold in_group at 2.
  destruct (group_add_cases d (groups docs))
    as [(pre & g & post & Hgs & Hk & Hadd & Hpre)|[Hall Hadd]];
    rewrite Hadd in Hg'.
  - (* an existing group takes the document *)
    assert (Hother : forall x, In x (pre ++ post) ->
                               group_key x <> doc_key d).
    { intros x Hx. apply in_app_iff in Hx. destruct Hx as [Hx|Hx].
      - rewrite Forall_forall in Hpre. now apply Hpre.
      - rewrite Hgs, map_app in Hnd. simpl in Hnd.
        apply NoDup_remove_2 in Hnd. intros E. apply Hnd.
        apply in_app_iff. right. rewrite Hk, <- E. now apply in_map. }
    apply in_app_iff in Hg'. simpl in Hg'.
    destruct Hg' as [Hin|[<-|Hin]].
    + assert (E : String.eqb (doc_key d) (group_key g') = false).
      { apply String.eqb_neq. intros E. apply (Hother g'); [|now symmetry].
        apply in_app_iff. now left. }
      rewrite E. simpl. rewrite app_nil_r. apply IH.
      rewrite Hgs. apply in_app_iff. now left.
    + rewrite key_accumulate, Hk, String.eqb_refl. simpl.
      rewrite py_sum_snoc, tot_accumulate. f_equal.
      rewrite (IH g) by (rewrite Hgs; apply in_app_iff; right; now left).
      f_equal. f_equal. apply filter_ext. intros x. unfold in_group.
      now rewrite key_accumulate.
    + assert (E : String.eqb (doc_key d) (group_key g') = false).
      { apply String.eqb_neq. intros E. apply (Hother g'); [|now symmetry].
        apply in_app_iff. now right. }
      rewrite E. simpl. rewrite app_nil_r. apply IH.
      rewrite Hgs. apply in_app_iff. right. now right.
  - (* a new group *)
    apply in_app_iff in Hg'. simpl in Hg'. destruct Hg' as [Hin|[<-|[]]].
    + assert (E : String.eqb (doc_key d) (group_key g') = false).
      { apply String.eqb_neq. intros E. rewrite Forall_forall in Hall.
        now apply (Hall g' Hin). }
      rewrite E. simpl. rewrite app_nil_r. now apply IH.
    + rewrite key_first, String.eqb_refl. simpl.
      rewrite py_sum_snoc, tot_first. f_equal.
      assert (E : List.filter (in_group doc_key group_key (first d)) docs = []).
      { apply filter_none. intros x Hx. unfold in_group.
        rewrite key_first. apply String.eqb_neq.
        intros E. rewrite Forall_forall in Hall.
        assert (Hin : In (doc_key x) (map group_key (groups docs)))
          by (apply Hkeys; now apply in_map).
        apply in_map_iff in Hin. destruct Hin as (g0 & Hg0 & Hin).
        apply (Hall g0 Hin). congruence. }
      now rewrite E.
Qed.
End Sum.
End GroupFacts.

(** ** The [$sort] and [$limit] stages *)
Section SortFacts.
Context {A : Type} {AM : Amount A} {G : Type}.
Variable key : G -> A.

Lemma insert_desc_perm g l : Permutation (insert_desc key g l) (g :: l).
Proof.
  induction l as [|h t IH]; simpl; [apply Permutation_refl|].
  destruct (sort_le (key h) (key g)); [apply Permutation_refl|].
  eapply perm_trans; [apply perm_skip, IH|apply perm_swap].
Qed.

Lemma sort_desc_perm l : Permutation (sort_desc key l) l.
Proof.
  induction l as [|h t IH]; simpl; [constructor|].
  eapply perm_trans; [apply insert_desc_perm|now apply perm_skip].
Qed.

Lemma sort_desc_length l : List.length (sort_desc key l) = List.length l.
Proof. apply Permutation_length, sort_desc_perm. Qed.

Context {OA : OrderedAmount A}.

Lemma insert_desc_HdRel a g l :
  desc key a g -> HdRel (desc key) a l ->
  HdRel (desc key) a (insert_desc key g l).
Proof.
  intros Hag Hl. destruct l as [|h t]; simpl; [now constructor|].
  destruct (sort_le (key h) (key g)); constructor; auto.
  now inversion Hl.
Qed.

Lemma insert_desc_sorted g l :
  Sorted (desc key) l -> Sorted (desc key) (insert_desc key g l).
Proof.
  induction l as [|h t IH]; simpl; intros Hs.
  - repeat constructor.
  - destruct (sort_le (key h) (key g)) eqn:E.
    + constructor; [exact Hs|]. constructor. exact E.
    + inversion Hs as [|? ? Ht Hh]; subst.
      constructor; [now apply IH|].
      apply insert_desc_HdRel; [|exact Hh]. unfold desc.
      destruct (sort_le_total (key g) (key h)) as [H|H]; congruence.
Qed.

Lemma sort_desc_sorted l : Sorted (desc key) (sort_desc key l).
Proof.
  induction l as [|h t IH]; simpl; [constructor|].
  now apply insert_desc_sorted.
Qed.

Lemma sort_desc_strongly_sorted l : StronglySorted (desc key) (sort_desc key l).
Proof.
  apply Sorted_StronglySorted; [|apply sort_desc_sorted].
  intros a b c Hab Hbc. unfold desc in *.
  exact (sort_le_trans _ _ _ Hbc Hab).
Qed.
End SortFacts.

Lemma limit_zero {G} (docs : list G) :
  aggregate_to_list 0 (stage_limit 0 docs) = Raise OperationFailure.
Proof. reflexivity. Qed.

Lemma limit_above {G} (limit : Z) (docs : list G) :
  Z.of_nat (List.length docs) < limit ->
  aggregate_to_list limit (stage_limit limit docs) = Ok docs.
Proof.
  intros H. unfold aggregate_to_list, stage_limit, to_list.
  destruct (Z.ltb_spec limit 0); [lia|].
  destruct (Z.leb_spec limit 0); [lia|].
  assert (E : firstn (Z.to_nat limit) docs = docs)
    by (apply firstn_all2; lia).
  now rewrite !E.
Qed.

(** ** The two rankings *)
Section RankingFacts.
Context {A : Type} {AM : Amount A}.

Lemma customer_groups_keys (docs : list (DailySale A)) :
  NoDup (map tc_customer_id (customer_groups docs)) /\
  forall k, In k (map tc_customer_id (customer_groups docs))
            <-> In k (map customer_id docs).
Proof.
  apply (groups_keys customer_id tc_customer_id first_purchase add_purchase);
    reflexivity.
Qed.

Lemma customer_groups_sum (docs : list (DailySale A)) g :
  In g (customer_groups docs) ->
  total_purchases g
  = py_sum (map total_amount
              (List.filter
                 (fun s => String.eqb (customer_id s) (tc_customer_id g))
                 docs)).
Proof.
  apply (groups_sum customer_id tc_customer_id first_purchase add_purchase
                    (fun _ => eq_refl) (fun _ _ => eq_refl)
                    total_amount total_purchases);
    reflexivity.
Qed.

Lemma product_groups_keys (docs : list (SaleItem A)) :
  NoDup (map tp_product_id (product_groups docs)) /\
  forall k, In k (map tp_product_id (product_groups docs))
            <-> In k (map product_id docs).
Proof.
  apply (groups_keys product_id tp_product_id first_item add_item);
    reflexivity.
Qed.

Lemma product_groups_sum (docs : list (SaleItem A)) g :
  In g (product_groups docs) ->
  total_revenue g
  = py_sum (map total
              (List.filter
                 (fun i => String.eqb (product_id i) (tp_product_id g)) docs)).
Proof.
  apply (groups_sum product_id tp_product_id first_item add_item
                    (fun _ => eq_refl) (fun _ _ => eq_refl)
                    total total_revenue);
    reflexivity.
Qed.
End RankingFacts.

(** C7 (amended). [get_top_customers] and [get_top_products].  With
    [limit = 0] the store rejects the pipeline (the [$limit] stage takes a
    positive number) and the call raises.  With [limit] greater than the
    number of groups the call returns every group exactly once (a permutation
    of the groups, hence of the same length: no padding).  The groups are the
    distinct customers (products) of the current month's daily sales, each
    with the sum of its sales (items).  Second part, for a store order that
    is total and transitive: that output is sorted descending by revenue. *)
Theorem top_queries_limit :
  (forall (A : Type) (AM : Amount A) (limit cm cy : Z) (db : DB A),
      get_top_customers 0 cm cy db = Raise OperationFailure /\
      get_top_products 0 cm cy db = Raise OperationFailure /\
      (Z.of_nat (List.length (month_customer_groups db cm cy)) < limit ->
       exists out,
         get_top_customers limit cm cy db = Ok out /\
         Permutation out (month_customer_groups db cm cy) /\
         List.length out = List.length (month_customer_groups db cm cy)) /\
      (Z.of_nat (List.length (month_product_groups db cm cy)) < limit ->
       exists out,
         get_top_products limit cm cy db = Ok out /\
         Permutation out (month_product_groups db cm cy) /\
         List.length out = List.length (month_product_groups db cm cy)) /\
      NoDup (map tc_customer_id (month_customer_groups db cm cy)) /\
      (forall cid,
          In cid (map tc_customer_id (month_customer_groups db cm cy))
          <-> In cid (map customer_id (month_matched db cm cy))) /\
      (forall g,
          In g (month_customer_groups db cm cy) ->
          total_purchases g
          = py_sum (map total_amount
                      (List.filter
                         (fun s => String.eqb (customer_id s)
                                              (tc_customer_id g))
                         (month_matched db cm cy)))) /\
      NoDup (map tp_product_id (month_product_groups db cm cy)) /\
      (forall pid,
          In pid (map tp_product_id (month_product_groups db cm cy))
          <-> In pid (map product_id
                          (flat_map items (month_matched db cm cy)))) /\
      (forall g,
          In g (month_product_groups db cm cy) ->
          total_revenue g
          = py_sum (map total
                      (List.filter
                         (fun i => String.eqb (product_id i) (tp_product_id g))
                         (flat_map items (month_matched db cm cy))))))
  /\
  (forall (A : Type) (AM : Amount A),
      OrderedAmount A ->
      forall (limit cm cy : Z) (db : DB A),
        (Z.of_nat (List.length (month_customer_groups db cm cy)) < limit ->
         exists out,
           get_top_customers limit cm cy db = Ok out /\
           StronglySorted (desc total_purchases) out) /\
        (Z.of_nat (List.length (month_product_groups db cm cy)) < limit ->
         exists out,
           get_top_products limit cm cy db = Ok out /\
           StronglySorted (desc total_revenue) out)).
Proof.
  split.
  - intros A AM limit cm cy db.
    split; [reflexivity|]. split; [reflexivity|].
    split; [|split].
    + intros H. eexists. split.
      * unfold get_top_customers. apply limit_above.
        rewrite sort_desc_length. exact H.
      * split; [apply sort_desc_perm|apply sort_desc_length].
    + intros H. eexists. split.
      * unfold get_top_products. apply limit_above.
        rewrite sort_desc_length. exact H.
      * split; [apply sort_desc_perm|apply sort_desc_length].
    + unfold month_customer_groups, month_product_groups.
      destruct (customer_groups_keys (month_matched db cm cy)) as [H1 H2].
      destruct (product_groups_keys (flat_map items (month_matched db cm cy)))
        as [H3 H4].
      repeat split; auto; try apply H2; try apply H4;
        try apply customer_groups_sum; try apply product_groups_sum.
  - intros A AM OA limit cm cy db. split; intros H.
    + exists (sort_desc total_purchases (month_customer_groups db cm cy)).
      split.
      * unfold get_top_customers. apply limit_above.
        rewrite sort_desc_length. exact H.
      * exact (@sort_desc_strongly_sorted A AM _ total_purchases OA _).
    + exists (sort_desc total_revenue (month_product_groups db cm cy)).
      split.
      * unfold get_top_products. apply limit_above.
        rewrite sort_desc_length. exact H.
      * exact (@sort_desc_strongly_sorted A AM _ total_revenue OA _).
Qed.

(** The customer ranking of January 2024 on [january_db] with limit 5. *)
Lemma top_queries_limit_witness :
  exists out,
    get_top_customers 5 1 2024 january_db = Ok out /\
    map tc_customer_id out = ["c1"; "c3"] /\
    map total_purchases out = [150; 10] /\
    StronglySorted (desc total_purchases) out.
Proof.
  destruct (proj1 (proj2 top_queries_limit Z Z_Amount Z_OrderedAmount
                         5 1 2024 january_db))
    as (out & Hout & Hsorted); [vm_compute; reflexivity|].
  exists out. split; [exact Hout|].
  assert (E : Ok out = Ok (sort_desc total_purchases
                             (month_customer_groups january_db 1 2024))).
  { rewrite <- Hout. vm_compute. reflexivity. }
  injection E as E. split; [|split].
  - rewrite E. vm_compute. reflexivity.
  - rewrite E. vm_compute. reflexivity.
  - exact Hsorted.
Defined.

(** C7 fails at [limit = 0]: on [example_db] (binary64) both rankings raise
    instead of returning an empty sequence. *)
Lemma top_queries_limit_zero_counterexample :
  get_top_customers 0 1 2024 example_db = Raise OperationFailure /\
  get_top_products 0 1 2024 example_db = Raise OperationFailure /\
  is_ok (get_top_customers 0 1 2024 example_db) = false /\
  is_ok (get_top_products 0 1 2024 example_db) = false.
Proof. repeat split. Qed.


(** ** The sales chart *)
Section ChartFacts.
Context {A : Type} {AM : Amount A}.
Variables (strftime_Ymd strftime_a : Z -> string).
Variable db : DB A.

Let loop := chart_loop strftime_Ymd strftime_a.
Let point := chart_point strftime_Ymd strftime_a db.

Lemma day_range_S start n :
  day_range start (S n) = start :: day_range (start + 1) n.
Proof.
  unfold day_range. simpl. rewrite Z.add_0_r. f_equal.
  rewrite <- seq_shift, map_map. apply map_ext. intros i. lia.
Qed.

Lemma day_range_length start n : List.length (day_range start n) = n.
Proof. unfold day_range. now rewrite length_map, length_seq. Qed.

(** The loop always leaves with a result when it is given one unit of fuel
    per day left. *)
Lemma chart_loop_total fuel : forall current end_date acc,
  (Z.to_nat (end_date - current + 1) <= fuel)%nat ->
  exists r, loop fuel db current end_date acc = Some r.
Proof.
  subst loop. induction fuel as [|fuel IH]; intros current end_date acc Hf;
    simpl; destruct (Z.leb_spec current end_date) as [Hle|Hgt];
    try (eexists; reflexivity); try lia.
  destruct (datetime_add current 1) as [next|e] eqn:E;
    [|eexists; reflexivity].
  unfold datetime_add in E.
  destruct ((1 <=? current + 1) && (current + 1 <=? MAXORDINAL));
    [|discriminate].
  injection E as <-. apply IH. lia.
Qed.

(** Inside the range of [datetime] the loop yields one point per day. *)
Lemma chart_loop_ok fuel : forall current end_date acc,
  1 <= current -> end_date < MAXORDINAL ->
  (Z.to_nat (end_date - current + 1) <= fuel)%nat ->
  loop fuel db current end_date acc
  = Some (Ok (acc ++ map point
                         (day_range current
                                    (Z.to_nat (end_date - current + 1))))).
Proof.
  subst loop point.
  induction fuel as [|fuel IH]; intros current end_date acc H1 Hmax Hf;
    simpl; destruct (Z.leb_spec current end_date) as [Hle|Hgt]; try lia.
  - replace (Z.to_nat (end_date - current + 1)) with 0%nat by lia.
    simpl. now rewrite app_nil_r.
  - unfold datetime_add.
    destruct (Z.leb_spec 1 (current + 1)); [|lia].
    destruct (Z.leb_spec (current + 1) MAXORDINAL); [|lia]. simpl.
    rewrite IH by lia.
    replace (Z.to_nat (end_date - current + 1))
      with (S (Z.to_nat (end_date - (current + 1) + 1))) by lia.
    rewrite day_range_S. simpl. now rewrite <- app_assoc.
  - replace (Z.to_nat (end_date - current + 1)) with 0%nat by lia.
    simpl. now rewrite app_nil_r.
Qed.

Lemma get_sales_chart_total days today :
  exists r, get_sales_chart strftime_Ymd strftime_a days today db = Some r.
Proof.
  unfold get_sales_chart.
  destruct (timedelta days) as [delta|e]; [|eexists; reflexivity].
  destruct (datetime_add today (- delta)) as [start|e];
    [|eexists; reflexivity].
  apply chart_loop_total. lia.
Qed.

Lemma get_sales_chart_ok days today :
  0 <= days -> days < today -> today < MAXORDINAL ->
  get_sales_chart strftime_Ymd strftime_a days today db
  = Some (Ok (map point (day_range (today - days) (Z.to_nat days + 1)))).
Proof.
  intros H0 H1 H2. unfold get_sales_chart, timedelta, datetime_add.
  unfold MAXORDINAL in *.
  destruct (Z.leb_spec (-999999999) days); [|lia].
  destruct (Z.leb_spec days 999999999); [|lia]. simpl.
  destruct (Z.leb_spec 1 (today + - days)); [|lia].
  destruct (Z.leb_spec (today + - days) 3652059); [|lia]. simpl.
  fold loop. rewrite chart_loop_ok by (unfold MAXORDINAL; lia).
  replace (Z.to_nat (today - (today + - days) + 1))
    with (Z.to_nat days + 1)%nat by lia.
  replace (today + - days) with (today - days) by lia.
  reflexivity.
Qed.
End ChartFacts.

Lemma nth_error_day_range start n k :
  (k < n)%nat -> nth_error (day_range start n) k = Some (start + Z.of_nat k).
Proof.
  intros H. unfold day_range.
  rewrite nth_error_map, nth_error_seq.
  destruct (Nat.ltb_spec k n); [reflexivity|lia].
Qed.

(** C8 (amended). [get_sales_chart] always comes back (the loop terminates).
    For a day count [days >= 0] that stays inside the range of [datetime]
    (the start day [today - days] is not before 0001-01-01, and [today] is
    not the last representable day), it returns exactly [days + 1] points,
    the [k]-th being the one of day [today - days + k] (oldest first, today
    last): its date, its weekday label, as revenue the sum of the totals of
    the first 1000 daily sales and the first 1000 guest sales of that date,
    and as transactions their combined number.  With [days = 0] the result is
    the single point of today. *)
Theorem get_sales_chart_spec :
  (forall (A : Type) (AM : Amount A) (strftime_Ymd strftime_a : Z -> string)
          (days today : Z) (db : DB A),
      exists r,
        get_sales_chart strftime_Ymd strftime_a days today db = Some r)
  /\
  (forall (A : Type) (AM : Amount A) (strftime_Ymd strftime_a : Z -> string)
          (days today : Z) (db : DB A),
      0 <= days -> days < today -> today < MAXORDINAL ->
      exists out,
        get_sales_chart strftime_Ymd strftime_a days today db = Some (Ok out) /\
        Z.of_nat (List.length out) = days + 1 /\
        (forall k, (k <= Z.to_nat days)%nat ->
           exists p,
             nth_error out k = Some p /\
             cp_date p = strftime_Ymd (today - days + Z.of_nat k) /\
             cp_day p = strftime_a (today - days + Z.of_nat k) /\
             revenue p
             = py_sum (map total_amount
                         (to_list 1000 (daily_on db (cp_date p))))
               [+] py_sum (map gs_total_amount
                             (to_list 1000 (guest_on db (cp_date p)))) /\
             transactions p
             = Z.of_nat (List.length (to_list 1000 (daily_on db (cp_date p))))
               + Z.of_nat (List.length
                             (to_list 1000 (guest_on db (cp_date p))))) /\
        (days = 0 -> out = [chart_point strftime_Ymd strftime_a db today])).
Proof.
  split.
  - intros. apply get_sales_chart_total.
  - intros A AM strftime_Ymd strftime_a days today db H0 H1 H2.
    eexists. split; [now apply get_sales_chart_ok|].
    split; [|split].
    + rewrite length_map, day_range_length. lia.
    + intros k Hk. eexists. split.
      * rewrite nth_error_map, nth_error_day_range by lia. reflexivity.
      * repeat split.
    + intros ->. simpl. unfold day_range. simpl.
      now rewrite Z.sub_0_r, Z.add_0_r.
Qed.

(** The chart of the eleven days up to 2024-01-15 on [january_db]. *)
Lemma get_sales_chart_spec_witness :
  exists out,
    get_sales_chart january_Ymd weekday_a 10 738900 january_db
    = Some (Ok out) /\
    map cp_date out
    = ["2024-01-05"; "2024-01-06"; "2024-01-07"; "2024-01-08"; "2024-01-09";
       "2024-01-10"; "2024-01-11"; "2024-01-12"; "2024-01-13"; "2024-01-14";
       "2024-01-15"] /\
    map cp_day out
    = ["Fri"; "Sat"; "Sun"; "Mon"; "Tue"; "Wed"; "Thu"; "Fri"; "Sat"; "Sun";
       "Mon"] /\
    map revenue out = [100; 0; 10; 0; 0; 0; 0; 0; 0; 0; 0] /\
    map transactions out = [1; 0; 1; 0; 0; 0; 0; 0; 0; 0; 0].
Proof.
  destruct (proj2 get_sales_chart_spec Z Z_Amount january_Ymd weekday_a
                  10 738900 january_db)
    as (out & Hout & _); [lia|lia|unfold MAXORDINAL; lia|].
  exists out. split; [exact Hout|].
  assert (E : Some (Ok out)
              = get_sales_chart january_Ymd weekday_a 10 738900 january_db)
    by (now rewrite Hout).
  vm_compute in E. injection E as ->. repeat split.
Defined.

(** C8 fails outside of these bounds.  A day count of 800000 reaches before
    year 1 and the call raises [OverflowError]; and on a day with 1001 daily
    sales of 1.0 the point counts 1000 transactions and 1000.0 of revenue. *)
Lemma get_sales_chart_counterexample :
  get_sales_chart january_Ymd weekday_a 800000 738900 busy_db
  = Some (Raise OverflowError) /\
  (exists p,
      get_sales_chart january_Ymd weekday_a 0 738900 busy_db = Some (Ok [p]) /\
      cp_date p = "2024-01-15" /\
      transactions p = 1000 /\
      revenue p = 1000%float) /\
  List.length (daily_on busy_db "2024-01-15") = 1001%nat /\
  py_sum (map total_amount (daily_on busy_db "2024-01-15")) = 1001%float /\
  guest_on busy_db "2024-01-15" = [].
Proof.
  split; [vm_compute; reflexivity|]. split.
  - eexists. split; [vm_compute; reflexivity|]. repeat split.
  - split; [vm_compute; reflexivity|]. split; vm_compute; reflexivity.
Qed.


(** ** Dates as strings: the lexicographic order is the calendar order *)
Lemma compare_append p1 : forall p2 s1 s2,
  String.length p1 = String.length p2 ->
  String.compare (String.append p1 s1) (String.append p2 s2)
  = match String.compare p1 p2 with
    | Eq => String.compare s1 s2
    | c => c
    end.
Proof.
  induction p1 as [|c1 p1 IH]; intros [|c2 p2] s1 s2 H; simpl in *;
    try discriminate; [reflexivity|].
  destruct (Ascii.compare c1 c2); auto.
Qed.

Lemma in_day_range lo n x : lo <= x < lo + Z.of_nat n -> In x (day_range lo n).
Proof.
  intros H. unfold day_range. apply in_map_iff.
  exists (Z.to_nat (x - lo)). split; [lia|]. apply in_seq. lia.
Qed.

Lemma py_str_four_digits y : 1000 <= y <= 9999 -> py_str y = four_digits y.
Proof.
  intros H.
  assert (E : forallb (fun y => String.eqb (py_str y) (four_digits y))
                      (day_range 1000 (Z.to_nat 9000)) = true)
    by (vm_compute; reflexivity).
  rewrite forallb_forall in E. apply String.eqb_eq, E, in_day_range. lia.
Qed.

Lemma digit_compare i j :
  0 <= i <= 9 -> 0 <= j <= 9 -> Ascii.compare (digit i) (digit j) = (i ?= j).
Proof.
  intros Hi Hj. unfold Ascii.compare, digit.
  rewrite !N_ascii_embedding by lia.
  rewrite <- N2Z.inj_compare, !N2Z.inj_add, !Z2N.id by lia.
  apply Z.add_compare_mono_l.
Qed.

Lemma four_digits_compare a b :
  1000 <= a <= 9999 -> 1000 <= b <= 9999 ->
  String.compare (four_digits a) (four_digits b) = (a ?= b).
Proof.
  intros Ha Hb. unfold four_digits. simpl.
  assert (Da : a = 1000 * (a / 1000) + 100 * (a / 100 mod 10)
                   + 10 * (a / 10 mod 10) + a mod 10)
    by (Z.div_mod_to_equations; lia).
  assert (Db : b = 1000 * (b / 1000) + 100 * (b / 100 mod 10)
                   + 10 * (b / 10 mod 10) + b mod 10)
    by (Z.div_mod_to_equations; lia).
  assert (R3a : 0 <= a / 1000 <= 9) by (Z.div_mod_to_equations; lia).
  assert (R3b : 0 <= b / 1000 <= 9) by (Z.div_mod_to_equations; lia).
  assert (R2a : 0 <= a / 100 mod 10 <= 9) by (Z.div_mod_to_equations; lia).
  assert (R2b : 0 <= b / 100 mod 10 <= 9) by (Z.div_mod_to_equations; lia).
  assert (R1a : 0 <= a / 10 mod 10 <= 9) by (Z.div_mod_to_equations; lia).
  assert (R1b : 0 <= b / 10 mod 10 <= 9) by (Z.div_mod_to_equations; lia).
  assert (R0a : 0 <= a mod 10 <= 9) by (Z.div_mod_to_equations; lia).
  assert (R0b : 0 <= b mod 10 <= 9) by (Z.div_mod_to_equations; lia).
  rewrite !digit_compare by assumption.
  generalize dependent (a / 1000). generalize dependent (a / 100 mod 10).
  generalize dependent (a / 10 mod 10). generalize dependent (a mod 10).
  generalize dependent (b / 1000). generalize dependent (b / 100 mod 10).
  generalize dependent (b / 10 mod 10). generalize dependent (b mod 10).
  intros b0 R0b b1 R1b b2 R2b b3 Db R3b a0 R0a a1 R1a a2 R2a a3 Da R3a.
  symmetry.
  destruct (Z.compare_spec a3 b3);
    [|apply Z.compare_lt_iff; lia|apply Z.compare_gt_iff; lia].
  destruct (Z.compare_spec a2 b2);
    [|apply Z.compare_lt_iff; lia|apply Z.compare_gt_iff; lia].
  destruct (Z.compare_spec a1 b1);
    [|apply Z.compare_lt_iff; lia|apply Z.compare_gt_iff; lia].
  destruct (Z.compare_spec a0 b0);
    [apply Z.compare_eq_iff; lia|apply Z.compare_lt_iff; lia
    |apply Z.compare_gt_iff; lia].
Qed.

Lemma py_str_compare a b :
  1000 <= a <= 9999 -> 1000 <= b <= 9999 ->
  String.length (py_str a) = String.length (py_str b) /\
  String.compare (py_str a) (py_str b) = (a ?= b).
Proof.
  intros Ha Hb. rewrite !py_str_four_digits by assumption.
  split; [reflexivity|now apply four_digits_compare].
Qed.

Lemma py_02d_compare a b :
  1 <= a <= 32 -> 1 <= b <= 32 ->
  String.length (py_02d a) = String.length (py_02d b) /\
  String.compare (py_02d a) (py_02d b) = (a ?= b).
Proof.
  intros Ha Hb.
  assert (E : forallb
                (fun a => forallb
                   (fun b =>
                      Nat.eqb (String.length (py_02d a))
                              (String.length (py_02d b))
                      && match String.compare (py_02d a) (py_02d b), a ?= b with
                         | Eq, Eq | Lt, Lt | Gt, Gt => true
                         | _, _ => false
                         end)
                   (day_range 1 32))
                (day_range 1 32) = true) by (vm_compute; reflexivity).
  rewrite forallb_forall in E.
  specialize (E a (in_day_range 1 32 a ltac:(lia))).
  rewrite forallb_forall in E.
  specialize (E b (in_day_range 1 32 b ltac:(lia))).
  apply andb_prop in E. destruct E as [E1 E2].
  apply Nat.eqb_eq in E1. split; [exact E1|].
  destruct (String.compare (py_02d a) (py_02d b)), (a ?= b);
    auto; discriminate.
Qed.

Lemma day_string_compare y1 m1 d1 y2 m2 d2 :
  1000 <= y1 <= 9999 -> 1000 <= y2 <= 9999 ->
  1 <= m1 <= 32 -> 1 <= m2 <= 32 -> 1 <= d1 <= 32 -> 1 <= d2 <= 32 ->
  String.compare (day_string y1 m1 d1) (day_string y2 m2 d2)
  = match y1 ?= y2 with
    | Eq => match m1 ?= m2 with Eq => d1 ?= d2 | c => c end
    | c => c
    end.
Proof.
  intros Hy1 Hy2 Hm1 Hm2 Hd1 Hd2. unfold day_string.
  destruct (py_str_compare y1 y2 Hy1 Hy2) as [Ly Cy].
  destruct (py_02d_compare m1 m2 Hm1 Hm2) as [Lm Cm].
  destruct (py_02d_compare d1 d2 Hd1 Hd2) as [_ Cd].
  rewrite (compare_append _ _ _ _ Ly), Cy.
  destruct (y1 ?= y2); try reflexivity.
  cbn [String.append String.compare].
  change (Ascii.compare "-" "-") with Eq. cbv iota.
  rewrite (compare_append _ _ _ _ Lm), Cm.
  destruct (m1 ?= m2); try reflexivity.
  cbn [String.append String.compare].
  change (Ascii.compare "-" "-") with Eq. cbv iota.
  exact Cd.
Qed.

Lemma month_window_day_string month year :
  month_window month year
  = (day_string year month 1,
     if month =? 12 then day_string (year + 1) 1 1
     else day_string year (month + 1) 1).
Proof.
  unfold month_window, day_string. destruct (month =? 12); reflexivity.
Qed.

(** X1. For four-digit years, a date [y]-[mo]-[d] lies in the window of
    ([month], [year]) exactly when it is a day of that month of that year:
    the window is the half-open interval from the first day of the month to
    the first day of the next one. *)
Theorem month_window_membership :
  forall month year y mo d : Z,
    1000 <= year <= 9998 -> 1 <= month <= 12 ->
    1000 <= y <= 9999 -> 1 <= mo <= 12 -> 1 <= d <= 31 ->
    date_in (month_window month year) (day_string y mo d)
    = (y =? year) && (mo =? month).
Proof.
  intros month year y mo d Hyear Hmonth Hy Hmo Hd.
  rewrite month_window_day_string. unfold date_in, String.leb, String.ltb.
  cbn [fst snd].
  destruct (Z.eqb_spec month 12) as [E12|N12];
    rewrite !day_string_compare by lia;
    destruct (Z.eqb_spec y year), (Z.eqb_spec mo month); cbn [andb];
    repeat match goal with
           | |- context [?a ?= ?b] =>
               destruct (Z.compare_spec a b); cbn [andb]
           end; try reflexivity; lia.
Qed.

(** 2024-02-29 belongs to February 2024. *)
Lemma month_window_membership_witness :
  date_in (month_window 2 2024) "2024-02-29" = true.
Proof.
  exact (month_window_membership 2 2024 2024 2 29
           ltac:(lia) ltac:(lia) ltac:(lia) ltac:(lia) ltac:(lia)).
Defined.

(** ** The window of a month *)

Lemma py_02d_two_digits m : 1 <= m <= 32 -> py_02d m = two_digits m.
Proof.
  intros H.
  assert (E : forallb (fun m => String.eqb (py_02d m) (two_digits m))
                      (day_range 1 32) = true)
    by (vm_compute; reflexivity).
  rewrite forallb_forall in E. apply String.eqb_eq, E, in_day_range. lia.
Qed.

Lemma day_string_iso y m d :
  1000 <= y <= 9999 -> 1 <= m <= 32 -> 1 <= d <= 32 ->
  day_string y m d = iso_date (y, m, d).
Proof.
  intros Hy Hm Hd. unfold day_string, iso_date.
  now rewrite py_str_four_digits, !py_02d_two_digits by assumption.
Qed.

(** C6. The window of a month, for [month] in 1..12 and a four-digit [year]
    other than December 9999.  Its two bounds are, in the [YYYY-MM-DD] form of
    the stored dates, the first day of the month and the first day of the
    next month: January 1 of [year + 1] when [month = 12], the first day of
    [month + 1] of the same year otherwise.  The store's filter
    [{"$gte": start_date, "$lt": end_date}] is the half-open interval between
    them in the calendar order: a date [y]-[mo]-[d] passes it exactly when it
    is not before the first bound and strictly before the second, that is,
    exactly when it is a day of that month of that year. *)
Theorem month_window_bounds :
  forall month year : Z,
    1 <= month <= 12 -> 1000 <= year <= 9999 ->
    (month = 12 -> year <= 9998) ->
    month_window month year
    = (iso_date (year, month, 1),
       iso_date (if month =? 12 then (year + 1, 1, 1)
                 else (year, month + 1, 1))) /\
    forall y mo d : Z,
      1000 <= y <= 9999 -> 1 <= mo <= 12 -> 1 <= d <= 31 ->
      date_in (month_window month year) (iso_date (y, mo, d))
      = cal_leb (year, month, 1) (y, mo, d)
        && cal_ltb (y, mo, d)
                   (if month =? 12 then (year + 1, 1, 1)
                    else (year, month + 1, 1)) /\
      (date_in (month_window month year) (iso_date (y, mo, d)) = true
       <-> y = year /\ mo = month).
Proof.
  intros month year Hm Hy Hdec. split.
  - rewrite month_window_day_string, day_string_iso by lia.
    destruct (Z.eqb_spec month 12) as [E12|N12];
      rewrite day_string_iso by lia; reflexivity.
  - intros y mo d Hy' Hmo Hd.
    rewrite <- (day_string_iso y mo d) by lia.
    rewrite month_window_day_string.
    unfold date_in, String.leb, String.ltb, cal_leb, cal_ltb, cal_compare.
    cbn [fst snd].
    destruct (Z.eqb_spec month 12) as [E12|N12];
      rewrite !day_string_compare by lia;
      (split; [reflexivity|]);
      repeat match goal with
             | |- context [?a ?= ?b] =>
                 destruct (Z.compare_spec a b); cbn [andb]
             end;
      split; intros Hx; try discriminate Hx; try reflexivity; lia.
Qed.

(** December 2024: from 2024-12-01 up to, and not including, 2025-01-01. *)
Lemma month_window_bounds_witness :
  month_window 12 2024 = ("2024-12-01", "2025-01-01") /\
  date_in (month_window 12 2024) "2024-12-31"
  = cal_leb (2024, 12, 1) (2024, 12, 31)
    && cal_ltb (2024, 12, 31) (2025, 1, 1).
Proof.
  destruct (month_window_bounds 12 2024 ltac:(lia) ltac:(lia) ltac:(lia))
    as [Hbounds Hin].
  split; [exact Hbounds|].
  exact (proj1 (Hin 2024 12 31 ltac:(lia) ltac:(lia) ltac:(lia))).
Defined.

(** Outside these years the two bounds do not delimit the month.  For
    December 9999 the second bound is written with five digits and sorts
    before the first, so that no date passes the filter, the first and the
    last day of the month included; for March 999 the bounds are written with
    three digits and a date of that month in the [YYYY-MM-DD] form sorts
    before both. *)
Lemma month_window_bounds_counterexample :
  month_window 12 9999 = ("9999-12-01", "10000-01-01") /\
  date_in (month_window 12 9999) "9999-12-01" = false /\
  date_in (month_window 12 9999) "9999-12-31" = false /\
  month_window 3 999 = ("999-03-01", "999-04-01") /\
  date_in (month_window 3 999) "0999-03-15" = false.
Proof. vm_compute. repeat split. Qed.

(* ========================================================================= *)
(** * 5. The other routes                                                    *)
(* ========================================================================= *)

(** ** More on the store primitives *)
Section MoreCollectionFacts.
Context {D : Type}.
Implicit Types (q : D -> bool) (l : list D).

Lemma find_one_none_forall q l :
  find_one q l = None <-> forall d, In d l -> q d = false.
Proof.
  unfold find_one. split.
  - intros H d Hin. now apply (find_none q l H).
  - induction l as [|x l IH]; simpl; intros H; [reflexivity|].
    rewrite (H x) by now left. apply IH. intros. apply H. now right.
Qed.

Lemma delete_one_absent q l : find_one q l = None -> delete_one q l = l.
Proof.
  unfold find_one. induction l as [|x l IH]; simpl; [reflexivity|].
  destruct (q x); [discriminate|]. intros H. now rewrite IH.
Qed.

Lemma in_delete_one q l d : In d (delete_one q l) -> In d l.
Proof.
  induction l as [|x l IH]; simpl; [tauto|].
  destruct (q x); simpl; intuition.
Qed.

(** Deleting by [q] does not disturb a lookup by a predicate that [q]
    excludes. *)
Lemma find_one_delete_one_other q q' l :
  (forall d, q d = true -> q' d = false) ->
  find_one q' (delete_one q l) = find_one q' l.
Proof.
  intros H. unfold find_one. induction l as [|x l IH]; simpl; [reflexivity|].
  destruct (q x) eqn:Hq; simpl.
  - now rewrite (H x Hq).
  - now rewrite IH.
Qed.

Lemma find_one_app_l q l1 l2 d :
  find_one q l1 = Some d -> find_one q (l1 ++ l2) = Some d.
Proof.
  unfold find_one. induction l1 as [|x l IH]; simpl; [discriminate|].
  destruct (q x); auto.
Qed.
End MoreCollectionFacts.

(** With unique keys, deleting the document of a key leaves none. *)
Lemma find_one_delete_one_unique {D} (key : D -> string) (k : string)
      (l : list D) :
  NoDup (map key l) ->
  find_one (fun d => String.eqb (key d) k)
           (delete_one (fun d => String.eqb (key d) k) l) = None.
Proof.
  unfold find_one. induction l as [|x l IH]; simpl; intros H;
    [reflexivity|].
  inversion H as [|? ? Hx Hl]; subst.
  destruct (String.eqb (key x) k) eqn:E; simpl.
  - apply String.eqb_eq in E. apply find_one_none_forall. intros d Hd.
    apply String.eqb_neq. intros Hk. apply Hx. rewrite E, <- Hk.
    now apply in_map.
  - rewrite E. now apply IH.
Qed.

Lemma NoDup_map_delete_one {D} (key : D -> string) (q : D -> bool)
      (l : list D) :
  NoDup (map key l) -> NoDup (map key (delete_one q l)).
Proof.
  induction l as [|x l IH]; simpl; intros H; [constructor|].
  inversion H as [|? ? Hx Hl]; subst.
  destruct (q x); [exact Hl|]. simpl. constructor; [|auto].
  intros Hin. apply Hx. apply in_map_iff in Hin.
  destruct Hin as (d & Hk & Hd). rewrite <- Hk. apply in_map.
  now apply in_delete_one in Hd.
Qed.

(** ** Customers *)
Section CustomerFacts.
Context {A : Type} {AM : Amount A}.
Implicit Types (db : DB A) (c : Customer A).


Lemma by_cust_id_disjoint cid cid' c :
  cid' <> cid -> by_cust_id cid c = true -> by_cust_id cid' c = false.
Proof.
  unfold by_cust_id. intros Hne H. apply String.eqb_eq in H.
  apply String.eqb_neq. congruence.
Qed.

Lemma map_cust_id_set_customer q u (cs : list (Customer A)) :
  map cust_id (update_one q (set_customer u) cs) = map cust_id cs.
Proof.
  induction cs as [|x rest IH]; simpl; [reflexivity|].
  destruct (q x); simpl; [reflexivity|]. now rewrite IH.
Qed.

(** [update_one] with a function that keeps identifier and balance: every
    customer of the result is such an image of a customer before. *)
Lemma in_update_one_set_customer q u (cs : list (Customer A)) c' :
  In c' (update_one q (set_customer u) cs) ->
  exists c0, In c0 cs /\ cust_id c' = cust_id c0 /\
             outstanding_balance c' = outstanding_balance c0.
Proof.
  induction cs as [|x rest IH]; simpl; [tauto|].
  destruct (q x); simpl; intros [<-|Hin].
  - exists x. auto.
  - exists c'. auto.
  - exists x. auto.
  - destruct (IH Hin) as (c0 & H0 & H1). exists c0. auto.
Qed.
End CustomerFacts.

(** X2. [create_customer] always succeeds and appends a customer with the
    identifier drawn, balance zero and the active flag set.  [get_customer]
    on that identifier then returns the new customer when the identifier was
    free, and the older customer that already carried it otherwise; lookups
    of other identifiers and the other collections are as before. *)
Theorem create_customer_lookup :
  forall (A : Type) (AM : Amount A) (data : CustomerCreate A)
         (new_id now : string) (db : DB A),
    exists c db',
      create_customer data new_id now db = (db', Ok c) /\
      cust_id c = new_id /\ outstanding_balance c = zero /\
      cust_is_active c = true /\
      customers db' = customers db ++ [c] /\
      get_customer new_id db'
      = match find_one (by_cust_id new_id) (customers db) with
        | Some old => Ok old
        | None => Ok c
        end /\
      (forall cid, cid <> new_id -> get_customer cid db' = get_customer cid db) /\
      products db' = products db /\ daily_sales db' = daily_sales db /\
      guest_sales db' = guest_sales db /\ monthly_bills db' = monthly_bills db.
Proof.
  intros A AM data new_id now db. unfold create_customer.
  eexists _, _. split; [reflexivity|]. simpl.
  repeat (split; [reflexivity|]). split; [|split].
  - unfold get_customer. simpl.
    destruct (find_one (by_cust_id new_id) (customers db)) as [old|] eqn:E.
    + unfold insert_one. now rewrite (find_one_app_l _ _ _ _ E).
    + rewrite find_one_insert_one_hit; [reflexivity|exact E|].
      unfold by_cust_id. simpl. apply String.eqb_refl.
  - intros cid Hne. unfold get_customer. simpl.
    rewrite find_one_insert_one_miss; [reflexivity|].
    unfold by_cust_id. simpl. apply String.eqb_neq. congruence.
  - repeat split.
Qed.


(** X4. [delete_customer] with unique customer identifiers.  On an unknown
    identifier: the 404, nothing written.  Otherwise the customer is removed:
    [get_customer] on the identifier now gives the 404 and a sale can no
    longer be created for it, other customers are found as before, and
    nothing cascades: the daily sales (those of the deleted customer
    included) and the bills stay, and amending the payment of such an
    orphaned sale still succeeds and changes no customer. *)
Theorem delete_customer_spec :
  forall (A : Type) (AM : Amount A) (cid : string) (db : DB A),
    unique_customer_ids db ->
    match find_one (by_cust_id cid) (customers db) with
    | None =>
        delete_customer cid db
        = (db, Raise (HTTPException 404 "Customer not found"))
    | Some c =>
        exists db',
          delete_customer cid db = (db', Ok "Customer deleted successfully") /\
          get_customer cid db'
          = Raise (HTTPException 404 "Customer not found") /\
          (forall cid', cid' <> cid ->
                        get_customer cid' db' = get_customer cid' db) /\
          unique_customer_ids db' /\
          daily_sales db' = daily_sales db /\
          monthly_bills db' = monthly_bills db /\
          products db' = products db /\ guest_sales db' = guest_sales db /\
          (forall data new_id now,
              dsc_customer_id data = cid ->
              create_daily_sale data new_id now db'
              = (db', Raise (HTTPException 404 "Customer not found"))) /\
          (forall sid p s,
              find_one (by_sale_id sid) (daily_sales db') = Some s ->
              customer_id s = cid ->
              is_ok (snd (update_sale_payment sid p db')) = true /\
              customers (fst (update_sale_payment sid p db')) = customers db')
    end.
Proof.
  intros A AM cid db Hnd. unfold delete_customer.
  destruct (find_one (by_cust_id cid) (customers db)) as [c|] eqn:E;
    [|reflexivity].
  eexists. split; [reflexivity|].
  assert (Hgone : find_one (by_cust_id cid)
                    (delete_one (by_cust_id cid) (customers db)) = None)
    by (apply (find_one_delete_one_unique cust_id cid); exact Hnd).
  split; [|split; [|split]].
  - unfold get_customer. simpl. now rewrite Hgone.
  - intros cid' Hne. unfold get_customer. simpl.
    rewrite find_one_delete_one_other; [reflexivity|].
    intros d. now apply by_cust_id_disjoint.
  - unfold unique_customer_ids. simpl. now apply NoDup_map_delete_one.
  - repeat (split; [reflexivity|]). split.
    + intros data new_id now <-. unfold create_daily_sale. simpl.
      now rewrite Hgone.
    + intros sid p s Hs <-. unfold update_sale_payment.
      simpl in Hs. simpl. rewrite Hs. simpl. split; [reflexivity|].
      now apply update_one_absent.
Qed.

(** On [january_db], deleting Asha ([c1]). *)
Lemma delete_customer_spec_witness :
  exists db',
    delete_customer "c1" january_db
    = (db', Ok "Customer deleted successfully") /\
    get_customer "c1" db' = Raise (HTTPException 404 "Customer not found") /\
    map sale_id (daily_sales db') = ["s1"; "s2"; "s3"; "s4"] /\
    map cust_id (customers db') = ["c2"; "c3"].
Proof.
  assert (Hnd : unique_customer_ids january_db).
  { unfold unique_customer_ids. simpl. repeat constructor; simpl.
    - intros [H|[H|[]]]; discriminate H.
    - intros [H|[]]; discriminate H.
    - tauto. }
  pose proof (delete_customer_spec Z Z_Amount "c1" january_db Hnd) as H.
  change (find_one (by_cust_id "c1") (customers january_db))
    with (Some (january_customer "c1" "Asha" true)) in H.
  destruct H as (db' & Hdel & Hget & _ & _ & Hsales & _).
  exists db'. split; [exact Hdel|]. split; [exact Hget|]. split.
  - rewrite Hsales. reflexivity.
  - change db' with (fst (db', @Ok string "Customer deleted successfully")).
    rewrite <- Hdel. reflexivity.
Defined.

(** X5. The customer routes keep the balance invariant, in any arithmetic:
    from a state with unique customer identifiers in which every balance
    equals what the customer's sales say is owed, [update_customer] and
    [delete_customer] lead to such a state whatever their arguments, and so
    does [create_customer] when the identifier drawn is carried by no
    customer and named by no sale. *)
Theorem customer_routes_keep_balanced :
  forall (A : Type) (AM : Amount A) (db : DB A),
    unique_customer_ids db ->
    balanced db ->
    (forall (data : CustomerCreate A) (new_id now : string),
        ~ In new_id (map cust_id (customers db)) ->
        ~ In new_id (map customer_id (daily_sales db)) ->
        unique_customer_ids (fst (create_customer data new_id now db)) /\
        balanced (fst (create_customer data new_id now db))) /\
    (forall (cid : string) (data : CustomerUpdate A),
        unique_customer_ids (fst (update_customer cid data db)) /\
        balanced (fst (update_customer cid data db))) /\
    (forall cid : string,
        unique_customer_ids (fst (delete_customer cid db)) /\
        balanced (fst (delete_customer cid db))).
Proof.
  intros A AM db Hnd Hbal. split; [|split].
  - intros data new_id now Hfresh Hunused. unfold create_customer. simpl.
    split.
    + unfold unique_customer_ids, insert_one. simpl. rewrite map_app. simpl.
      apply NoDup_app; [exact Hnd|repeat constructor; simpl; tauto|].
      intros k Hk [<-|[]]. now apply Hfresh.
    + intros c' Hin. unfold insert_one in Hin. simpl in Hin.
      apply in_app_iff in Hin. destruct Hin as [Hin|[<-|[]]].
      * now apply Hbal.
      * simpl. unfold owed. simpl.
        rewrite filter_none; [reflexivity|].
        intros s Hs. unfold sale_of. apply String.eqb_neq. intros E.
        apply Hunused. rewrite <- E. now apply in_map.
  - intros cid data. unfold update_customer.
    destruct (customer_update_empty data); [now split|].
    destruct (find_one (by_cust_id cid) (customers db)); [|now split].
    simpl. split.
    + unfold unique_customer_ids. simpl. now rewrite map_cust_id_set_customer.
    + intros c' Hin. simpl in Hin.
      destruct (in_update_one_set_customer _ _ _ _ Hin) as (c0 & H0 & H1 & H2).
      rewrite H1, H2. now apply Hbal.
  - intros cid. unfold delete_customer.
    destruct (find_one (by_cust_id cid) (customers db)); [|now split].
    simpl. split.
    + unfold unique_customer_ids. simpl. now apply NoDup_map_delete_one.
    + intros c' Hin. simpl in Hin. apply in_delete_one in Hin.
      now apply Hbal.
Qed.

(** In binary64, on the ledger of [example_db] (Asha owes 40 for one sale). *)
Lemma customer_routes_keep_balanced_witness :
  balanced (fst (create_customer
                   {| cc_name := "Binod"; cc_phone := "97";
                      cc_address := "Pune"; cc_email := None;
                      cc_credit_limit := 5000%float |}
                   "c2" "t5" example_db)) /\
  balanced (fst (delete_customer "c1" example_db)).
Proof.
  assert (Hnd : unique_customer_ids example_db).
  { unfold unique_customer_ids. simpl. repeat constructor. simpl. tauto. }
  assert (Hbal : balanced example_db).
  { intros c [<-|[]]. reflexivity. }
  destruct (customer_routes_keep_balanced float float_Amount example_db
              Hnd Hbal) as (Hc & _ & Hd).
  split.
  - apply Hc; simpl; intros [H|[]]; discriminate H.
  - apply Hd.
Defined.

(** ** Daily sales: composition and lookup *)
Section AmendFacts.
Context {A : Type} {AM : Amount A} {EX : ExactAmount A}.

Lemma inc_inc delta1 delta2 (c : Customer A) :
  inc_outstanding_balance delta2 (inc_outstanding_balance delta1 c)
  = inc_outstanding_balance (delta1 [+] delta2) c.
Proof.
  unfold inc_outstanding_balance. simpl. now rewrite add_assoc.
Qed.

Lemma sub_chain (old p q : A) : (old [-] p) [+] (p [-] q) = old [-] q.
Proof.
  rewrite <- (add_zero_l ((old [-] p) [+] (p [-] q))).
  rewrite add_assoc, <- (sub_self old) at 1.
  rewrite amend_algebra. rewrite !sub_add_neg.
  rewrite <- add_assoc, (add_assoc (neg old)), (add_comm (neg old)).
  now rewrite add_neg_r, add_zero_l.
Qed.

(** Amending a payment twice is amending it once, with the last amount. *)
Lemma amend_twice sid (p q : A) (db : DB A) :
  update_sale_payment sid q (fst (update_sale_payment sid p db))
  = update_sale_payment sid q db.
Proof.
  unfold update_sale_payment at 2.
  destruct (find_one (by_sale_id sid) (daily_sales db)) as [s|] eqn:Hs;
    [|reflexivity].
  cbn [fst]. unfold update_sale_payment.
  cbn [daily_sales customers set_daily_sales set_customers].
  rewrite (find_one_update_one_hit _ _ _ _ Hs)
    by (rewrite by_sale_id_set_payment; now apply find_one_some in Hs).
  rewrite Hs. cbn [paid_amount total_amount customer_id set_payment].
  rewrite !update_one_twice
    by first [intros; apply by_sale_id_set_payment
             |intros; apply by_cust_id_inc].
  rewrite (update_one_ext (by_cust_id (customer_id s))
             (fun d => inc_outstanding_balance (p [-] q)
                         (inc_outstanding_balance (paid_amount s [-] p) d))
             (inc_outstanding_balance (paid_amount s [-] q)))
    by (intros d; now rewrite inc_inc, sub_chain).
  reflexivity.
Qed.
End AmendFacts.

(** X6. Payment amendments compose, in exact arithmetic: amending the payment
    of a sale to [p] and then to [q] gives the same answer and the same
    database as amending it to [q] directly; in particular amending to the
    same amount again changes nothing more. *)
Theorem update_sale_payment_last_wins :
  forall (A : Type) (AM : Amount A),
    ExactAmount A ->
    forall (sid : string) (p q : A) (db : DB A),
      update_sale_payment sid q (fst (update_sale_payment sid p db))
      = update_sale_payment sid q db /\
      update_sale_payment sid p (fst (update_sale_payment sid p db))
      = update_sale_payment sid p db.
Proof.
  intros A AM EX sid p q db. split; apply amend_twice.
Qed.

(** On [january_db]: the sale [s1] (100, 60 paid) is amended to 80, then to
    100. *)
Lemma update_sale_payment_last_wins_witness :
  update_sale_payment "s1" 100 (fst (update_sale_payment "s1" 80 january_db))
  = update_sale_payment "s1" 100 january_db.
Proof.
  exact (proj1 (update_sale_payment_last_wins Z Z_Amount Z_ExactAmount
                  "s1" 80 100 january_db)).
Defined.

Lemma update_one_snoc_fresh {D} (q : D -> bool) (u : D -> D) (l : list D)
      (d : D) :
  find_one q l = None -> q d = true ->
  update_one q u (l ++ [d]) = l ++ [u d].
Proof.
  unfold find_one. induction l as [|x l IH]; simpl; intros Hn Hq.
  - now rewrite Hq.
  - destruct (q x); [discriminate|]. now rewrite IH.
Qed.

(** X7. A sale is found under its identifier from creation to deletion.  For
    an existing customer and an identifier no sale carries yet:
    [create_daily_sale] succeeds, [get_daily_sale] then returns the sale
    created and, after any amendment to [p], the same sale with
    [paid_amount = p]; [delete_daily_sale] then succeeds, leaves the daily
    sales as they were before the creation, and [get_daily_sale] gives the
    404. *)
Theorem daily_sale_lifecycle :
  forall (A : Type) (AM : Amount A) (data : DailySaleCreate A)
         (new_id now : string) (p : A) (db : DB A) (c : Customer A),
    find_one (by_cust_id (dsc_customer_id data)) (customers db) = Some c ->
    find_one (by_sale_id new_id) (daily_sales db) = None ->
    exists sale db1 db2 db3,
      create_daily_sale data new_id now db = (db1, Ok sale) /\
      get_daily_sale new_id db1 = Ok sale /\
      update_sale_payment new_id p db1
      = (db2, Ok "Payment updated successfully") /\
      get_daily_sale new_id db2
      = Ok (set_payment p (p [>=] total_amount sale) sale) /\
      delete_daily_sale new_id db2 = (db3, Ok "Sale deleted successfully") /\
      get_daily_sale new_id db3 = Raise (HTTPException 404 "Sale not found") /\
      daily_sales db3 = daily_sales db.
Proof.
  intros A AM data new_id now p db c Hc Hfresh.
  assert (Hcreate : exists sale db1,
             create_daily_sale data new_id now db = (db1, Ok sale) /\
             sale_id sale = new_id /\
             daily_sales db1 = daily_sales db ++ [sale]).
  { unfold create_daily_sale. rewrite Hc. eexists _, _. repeat split. }
  destruct Hcreate as (sale & db1 & Hcreate & Hid & Hsales).
  assert (Hq : forall s' : DailySale A,
             sale_id s' = new_id -> by_sale_id new_id s' = true)
    by (intros s' E; unfold by_sale_id; rewrite E; apply String.eqb_refl).
  destruct (find_one_snoc_fresh (by_sale_id new_id) (daily_sales db) sale
              Hfresh (Hq _ Hid)) as [Hf Hd].
  set (sale' := set_payment p (p [>=] total_amount sale) sale).
  destruct (find_one_snoc_fresh (by_sale_id new_id) (daily_sales db) sale'
              Hfresh (Hq sale' Hid)) as [Hf' Hd'].
  assert (Hupd : update_one (by_sale_id new_id)
                   (set_payment p (p [>=] total_amount sale))
                   (daily_sales db ++ [sale])
                 = daily_sales db ++ [sale'])
    by (apply update_one_snoc_fresh; [exact Hfresh|exact (Hq _ Hid)]).
  exists sale, db1. eexists _, _.
  split; [exact Hcreate|]. split.
  { unfold get_daily_sale. now rewrite Hsales, Hf. }
  split.
  { unfold update_sale_payment. rewrite Hsales, Hf, Hupd. reflexivity. }
  split.
  { unfold get_daily_sale.
    cbn [daily_sales customers set_daily_sales set_customers].
    now rewrite Hf'. }
  split.
  { unfold delete_daily_sale.
    cbn [daily_sales customers set_daily_sales set_customers].
    rewrite Hf', Hd'. reflexivity. }
  unfold get_daily_sale.
  cbn [daily_sales customers set_daily_sales set_customers].
  rewrite Hfresh. split; reflexivity.
Qed.

(** On [january_db]: a sale [s9] of 30 for Asha, paid in full later. *)
Lemma daily_sale_lifecycle_witness :
  exists sale db1,
    create_daily_sale (request_for "2024-01-21" 30 0) "s9" "t" january_db
    = (db1, Ok sale) /\
    get_daily_sale "s9" db1 = Ok sale.
Proof.
  destruct (daily_sale_lifecycle Z Z_Amount
              (request_for "2024-01-21" 30 0) "s9" "t" 30 january_db
              (january_customer "c1" "Asha" true) eq_refl eq_refl)
    as (sale & db1 & _ & _ & Hc & Hg & _).
  now exists sale, db1.
Defined.

(** ** Sorted cursors *)
Section SortByFacts.
Context {D : Type}.
Variable before : D -> D -> bool.

Lemma insert_by_perm d l : Permutation (insert_by before d l) (d :: l).
Proof.
  induction l as [|h t IH]; simpl; [apply Permutation_refl|].
  destruct (before d h); [apply Permutation_refl|].
  eapply perm_trans; [apply perm_skip, IH|apply perm_swap].
Qed.

Lemma sort_by_perm l : Permutation (sort_by before l) l.
Proof.
  induction l as [|h t IH]; simpl; [constructor|].
  eapply perm_trans; [apply insert_by_perm|now apply perm_skip].
Qed.

Lemma sort_by_In l x : In x (sort_by before l) <-> In x l.
Proof.
  split; apply Permutation_in;
    [apply sort_by_perm|apply Permutation_sym, sort_by_perm].
Qed.

Lemma sort_by_length l : List.length (sort_by before l) = List.length l.
Proof. apply Permutation_length, sort_by_perm. Qed.

Hypothesis before_total : forall a b, before a b = true \/ before b a = true.

Let ordered (a b : D) : Prop := before a b = true.

Lemma insert_by_sorted d l :
  Sorted ordered l -> Sorted ordered (insert_by before d l).
Proof.
  induction l as [|h t IH]; simpl; intros Hs; [repeat constructor|].
  destruct (before d h) eqn:E.
  - constructor; [exact Hs|]. now constructor.
  - inversion Hs as [|? ? Ht Hh]; subst.
    constructor; [now apply IH|].
    assert (Hhd : ordered h d)
      by (destruct (before_total d h); [congruence|assumption]).
    destruct t as [|h' t']; simpl; [now constructor|].
    destruct (before d h'); constructor; auto. now inversion Hh.
Qed.

Lemma sort_by_sorted l : Sorted ordered (sort_by before l).
Proof.
  induction l as [|h t IH]; simpl; [constructor|].
  now apply insert_by_sorted.
Qed.
End SortByFacts.

Lemma Sorted_firstn {D} (R : D -> D -> Prop) (n : nat) (l : list D) :
  Sorted R l -> Sorted R (firstn n l).
Proof.
  revert n. induction l as [|x l IH]; intros [|n] H; simpl;
    try constructor.
  - apply IH. now inversion H.
  - inversion H as [|? ? _ Hhd]; subst.
    destruct l as [|y l']; destruct n; simpl; constructor.
    now inversion Hhd.
Qed.

Lemma in_firstn {D} (n : nat) (l : list D) (x : D) :
  In x (firstn n l) -> In x l.
Proof.
  revert n. induction l as [|y l IH]; intros [|n]; simpl; try tauto.
  intros [H|H]; [now left|right; eauto].
Qed.

(** A cursor that is filtered, sorted and cut: what every such route
    returns. *)
Lemma sorted_cursor {D} (before : D -> D -> bool) (q : D -> bool) (n : nat)
      (coll : list D) :
  (forall a b, before a b = true \/ before b a = true) ->
  (List.length (to_list n (sort_by before (find q coll))) <= n)%nat /\
  Sorted (fun a b => before a b = true)
         (to_list n (sort_by before (find q coll))) /\
  (forall x, In x (to_list n (sort_by before (find q coll))) ->
             In x coll /\ q x = true) /\
  ((List.length (find q coll) <= n)%nat ->
   Permutation (to_list n (sort_by before (find q coll))) (find q coll)).
Proof.
  intros Htot. unfold to_list, find. split; [apply firstn_le_length|].
  split; [apply Sorted_firstn, sort_by_sorted; exact Htot|]. split.
  - intros x Hx. apply in_firstn, sort_by_In in Hx. now apply filter_In.
  - intros Hlen. rewrite firstn_all2 by (now rewrite sort_by_length).
    apply sort_by_perm.
Qed.

Lemma string_leb_total_desc {D} (key : D -> string) (a b : D) :
  String.leb (key b) (key a) = true \/ String.leb (key a) (key b) = true.
Proof. apply String.leb_total. Qed.

(** X8. [get_daily_sales] returns at most 1000 sales, each a stored sale that
    satisfies the query, ordered from the latest date to the earliest; when
    no more than 1000 sales satisfy the query it returns all of them. *)
Theorem get_daily_sales_result :
  forall (A : Type) (AM : Amount A)
         (cid on_date start_date end_date : option string) (db : DB A),
    (List.length (get_daily_sales cid on_date start_date end_date db)
     <= 1000)%nat /\
    Sorted (fun a b => String.leb (date b) (date a) = true)
           (get_daily_sales cid on_date start_date end_date db) /\
    (forall s,
        In s (get_daily_sales cid on_date start_date end_date db) ->
        In s (daily_sales db) /\
        daily_sales_query cid on_date start_date end_date s = true) /\
    ((List.length (find (daily_sales_query cid on_date start_date end_date)
                        (daily_sales db)) <= 1000)%nat ->
     Permutation (get_daily_sales cid on_date start_date end_date db)
                 (find (daily_sales_query cid on_date start_date end_date)
                       (daily_sales db))).
Proof.
  intros. unfold get_daily_sales.
  apply (sorted_cursor (fun a b : DailySale A => String.leb (date b) (date a))).
  intros a b. apply String.leb_total.
Qed.

(** X9. How [get_daily_sales] reads its parameters.  When [start_date] and
    [end_date] are both given (and not empty) the query is the closed range
    between them and the [date] parameter is ignored; a [start_date] without
    [end_date], or the converse, is ignored; an empty string counts as a
    parameter not given.  With a range, every sale returned is dated inside
    it. *)
Theorem get_daily_sales_parameters :
  forall (A : Type) (AM : Amount A)
         (cid on_date : option string) (lo hi : string) (db : DB A),
    (lo <> "" -> hi <> "" ->
     get_daily_sales cid on_date (Some lo) (Some hi) db
     = get_daily_sales cid None (Some lo) (Some hi) db /\
     forall s,
       In s (get_daily_sales cid on_date (Some lo) (Some hi) db) ->
       String.leb lo (date s) = true /\ String.leb (date s) hi = true) /\
    get_daily_sales cid on_date (Some lo) None db
    = get_daily_sales cid on_date None None db /\
    get_daily_sales cid on_date None (Some hi) db
    = get_daily_sales cid on_date None None db /\
    get_daily_sales cid on_date (Some "") (Some hi) db
    = get_daily_sales cid on_date None None db /\
    get_daily_sales cid on_date (Some lo) (Some "") db
    = get_daily_sales cid on_date None None db /\
    get_daily_sales (Some "") on_date (Some lo) (Some hi) db
    = get_daily_sales None on_date (Some lo) (Some hi) db /\
    get_daily_sales cid (Some "") None None db
    = get_daily_sales cid None None None db.
Proof.
  intros A AM cid on_date lo hi db.
  assert (Hrange : lo <> "" -> hi <> "" ->
            forall d, daily_sales_date_query d (Some lo) (Some hi)
                      = Some (DateBetween lo hi)).
  { intros Hlo Hhi d. unfold daily_sales_date_query, truthy.
    apply String.eqb_neq in Hlo, Hhi. now rewrite Hlo, Hhi. }
  split; [|repeat split].
  - intros Hlo Hhi. split.
    + unfold get_daily_sales, daily_sales_query.
      now rewrite !(Hrange Hlo Hhi).
    + intros s Hs. unfold get_daily_sales, to_list in Hs.
      apply in_firstn, sort_by_In, filter_In in Hs. destruct Hs as [_ Hs].
      unfold daily_sales_query in Hs. rewrite (Hrange Hlo Hhi) in Hs.
      apply andb_prop in Hs. destruct Hs as [_ Hs]. simpl in Hs.
      now apply andb_prop in Hs.
  - unfold get_daily_sales, daily_sales_query, daily_sales_date_query.
    simpl. now rewrite andb_false_r.
Qed.

Lemma get_guest_sales_on {A} (today : string) (db : DB A) :
  today <> "" ->
  get_guest_sales (Some today) db
  = to_list 1000
      (sort_by (fun a b => String.leb (gs_created_at b) (gs_created_at a))
               (guest_on db today)).
Proof.
  intros H. unfold get_guest_sales, guest_on, truthy.
  apply String.eqb_neq in H. now rewrite H.
Qed.

(** X10. A guest sale shows up in the listing of its day.  After
    [create_guest_sale] on a day [today] that had fewer than 1000 guest
    sales, [get_guest_sales] for [today] contains the new sale; whatever the
    state, that listing holds only guest sales of [today], at most 1000, the
    latest created first. *)
Theorem guest_sale_listed :
  forall (A : Type) (AM : Amount A) (data : GuestSaleCreate A)
         (new_id today now : string) (db : DB A),
    today <> "" ->
    (List.length (guest_on db today) < 1000)%nat ->
    exists sale db',
      create_guest_sale data new_id today now db = (db', Ok sale) /\
      In sale (get_guest_sales (Some today) db') /\
      (forall s, In s (get_guest_sales (Some today) db') ->
                 In s (guest_sales db') /\ gs_date s = today) /\
      (List.length (get_guest_sales (Some today) db') <= 1000)%nat /\
      Sorted (fun a b => String.leb (gs_created_at b) (gs_created_at a) = true)
             (get_guest_sales (Some today) db').
Proof.
  intros A AM data new_id today now db Hday Hlen.
  unfold create_guest_sale. eexists _, _. split; [reflexivity|].
  rewrite get_guest_sales_on by exact Hday.
  match goal with
  | |- context [guest_on ?d today] => set (db' := d)
  end.
  destruct (sorted_cursor
              (fun a b : GuestSale A =>
                 String.leb (gs_created_at b) (gs_created_at a))
              (fun s => String.eqb (gs_date s) today) 1000 (guest_sales db')
              (fun a b => String.leb_total _ _))
    as (Hle & Hsorted & Hin & Hperm).
  fold (guest_on db' today) in Hle, Hsorted, Hin, Hperm.
  assert (Hnew : guest_on db' today
                 = guest_on db today
                   ++ [{| gs_id := new_id; guest_name := gsc_guest_name data;
                          guest_phone := gsc_guest_phone data;
                          gs_date := today; gs_items := gsc_items data;
                          gs_total_amount := py_sum (map total (gsc_items data));
                          payment_method := gsc_payment_method data;
                          gs_created_at := now |}]).
  { unfold guest_on, find, db'. simpl. unfold insert_one.
    rewrite filter_app. simpl. now rewrite String.eqb_refl. }
  split; [|split; [|split]].
  - eapply Permutation_in; [apply Permutation_sym, Hperm|].
    + rewrite Hnew, length_app. simpl. lia.
    + rewrite Hnew. apply in_app_iff. right. now left.
  - intros s Hs. destruct (Hin s Hs) as [H1 H2].
    split; [exact H1|now apply String.eqb_eq].
  - exact Hle.
  - exact Hsorted.
Qed.

(** In binary64: a walk-in sale on [example_db]. *)
Lemma guest_sale_listed_witness :
  exists sale db',
    create_guest_sale
      {| gsc_guest_name := Some "Walk-in Customer"; gsc_guest_phone := Some "";
         gsc_items := [example_item "p1" "Milk" "liter"];
         gsc_payment_method := "cash" |}
      "g1" "2024-01-15" "t3" example_db
    = (db', Ok sale) /\
    In sale (get_guest_sales (Some "2024-01-15") db').
Proof.
  destruct (guest_sale_listed float float_Amount
              {| gsc_guest_name := Some "Walk-in Customer";
                 gsc_guest_phone := Some "";
                 gsc_items := [example_item "p1" "Milk" "liter"];
                 gsc_payment_method := "cash" |}
              "g1" "2024-01-15" "t3" example_db)
    as (sale & db' & H1 & H2 & _).
  - discriminate.
  - simpl. lia.
  - now exists sale, db'.
Defined.

Lemma later_bill_total {A} (a b : MonthlyBill A) :
  later_bill a b = true \/ later_bill b a = true.
Proof.
  unfold later_bill.
  destruct (Z.ltb_spec (year b) (year a)); [now left|].
  destruct (Z.ltb_spec (year a) (year b)); [now right|].
  assert (E : year a = year b) by lia. rewrite E, Z.eqb_refl. simpl.
  destruct (Z.leb_spec (month b) (month a)); [now left|].
  right. apply Z.leb_le. lia.
Qed.

(** X11. [get_customer_bills] returns at most 100 bills, each a stored bill
    of the customer asked for, ordered from the latest period to the earliest
    (by year, then by month); when the customer has no more than 100 bills it
    returns all of them. *)
Theorem get_customer_bills_result :
  forall (A : Type) (AM : Amount A) (cid : string) (db : DB A),
    (List.length (get_customer_bills cid db) <= 100)%nat /\
    Sorted (fun a b => year b < year a
                       \/ (year b = year a /\ month b <= month a))
           (get_customer_bills cid db) /\
    (forall b, In b (get_customer_bills cid db) ->
               In b (monthly_bills db) /\ bill_customer_id b = cid) /\
    ((List.length (find (fun b => String.eqb (bill_customer_id b) cid)
                        (monthly_bills db)) <= 100)%nat ->
     Permutation (get_customer_bills cid db)
                 (find (fun b => String.eqb (bill_customer_id b) cid)
                       (monthly_bills db))).
Proof.
  intros A AM cid db. unfold get_customer_bills.
  destruct (sorted_cursor later_bill
              (fun b : MonthlyBill A => String.eqb (bill_customer_id b) cid)
              100 (monthly_bills db) later_bill_total)
    as (Hle & Hsorted & Hin & Hperm).
  split; [exact Hle|]. split; [|split; [|exact Hperm]].
  - eapply Sorted_ind with (P := fun l => Sorted _ l);
      [constructor| |exact Hsorted].
    intros a l _ IH Hhd. constructor; [exact IH|].
    destruct Hhd as [|b l' Hab]; constructor.
    unfold later_bill in Hab. apply orb_prop in Hab.
    destruct Hab as [H|H]; [left; now apply Z.ltb_lt|right].
    apply andb_prop in H. destruct H as [H1 H2].
    split; [now apply Z.eqb_eq|now apply Z.leb_le].
  - intros b Hb. destruct (Hin b Hb) as [H1 H2].
    split; [exact H1|now apply String.eqb_eq].
Qed.

(** ** Bill details *)


(** What a run of the generator gives, for the compositions below. *)
Lemma generate_monthly_bills_run {A} {AM : Amount A} (m y : Z)
      (uuid4 now : nat -> string) (db : DB A) :
  unique_customer_ids db ->
  exists db' msg,
    generate_monthly_bills m y uuid4 now db
    = (db', Ok (msg, expected_bills db m y uuid4 now 0
                                    (visited_customers db))) /\
    (products db' = products db /\ customers db' = customers db /\
     daily_sales db' = daily_sales db /\ guest_sales db' = guest_sales db) /\
    (forall r,
        In r (expected_bills db m y uuid4 now 0 (visited_customers db)) ->
        find_one (by_bill_key (bill_customer_id r) m y) (monthly_bills db')
        = Some r) /\
    map bill_id (monthly_bills db')
    = map bill_id (monthly_bills db)
      ++ map bill_id
           (List.filter
              (fun r => negb (has_bill db m y (bill_customer_id r)))
              (expected_bills db m y uuid4 now 0 (visited_customers db))).
Proof.
  intros Hnd.
  assert (Hv : NoDup (map cust_id (visited_customers db))).
  { unfold visited_customers, to_list, find.
    apply NoDup_map_firstn, NoDup_map_filter. exact Hnd. }
  destruct (bill_loop m y uuid4 now (visited_customers db) db [] Hv)
    as (db' & Hfold & Hframe & Hin & _ & Hids).
  simpl in Hfold, Hin, Hids.
  exists db'. eexists. split.
  { unfold generate_monthly_bills. fold (visited_customers db).
    rewrite Hfold. reflexivity. }
  auto.
Qed.

Lemma py_sum_perm {A} {AM : Amount A} {EX : ExactAmount A} (l l' : list A) :
  Permutation l l' -> py_sum l = py_sum l'.
Proof.
  induction 1 as [|x l l' _ IH|x z l|l l' l'' _ IH1 _ IH2].
  - reflexivity.
  - now rewrite !py_sum_cons, IH.
  - rewrite !py_sum_cons, !add_assoc. f_equal. apply add_comm.
  - congruence.
Qed.

(** X13. Right after generation the details agree with the bill.  With
    unique customer identifiers and no more than 1000 matching sales per
    customer, for every bill [r] the generator returns whose identifier
    resolves to it: [get_bill_details] returns [r] with sales that are all of
    [r]'s customer and as many as [sales_count r]; in exact arithmetic their
    totals and payments sum to [total_sales r] and [total_paid r]. *)
Theorem bill_details_after_generation :
  forall (A : Type) (AM : Amount A) (m y : Z) (uuid4 now : nat -> string)
         (db db' : DB A) (msg : string) (bills : list (MonthlyBill A))
         (r : MonthlyBill A),
    unique_customer_ids db ->
    (forall c, (List.length (month_sales db m y c) <= 1000)%nat) ->
    generate_monthly_bills m y uuid4 now db = (db', Ok (msg, bills)) ->
    In r bills ->
    find_one (by_bill_id (bill_id r)) (monthly_bills db') = Some r ->
    exists sales,
      get_bill_details (bill_id r) db' = Ok (r, sales) /\
      sales_count r = Z.of_nat (List.length sales) /\
      (forall s, In s sales -> customer_id s = bill_customer_id r) /\
      (ExactAmount A ->
       total_sales r = py_sum (map total_amount sales) /\
       total_paid r = py_sum (map paid_amount sales)).
Proof.
  intros A AM m y uuid4 now db db' msg bills r Hnd Hcap Hgen Hr Hfound.
  destruct (generate_monthly_bills_run m y uuid4 now db Hnd)
    as (db0 & msg0 & Hrun & (_ & _ & Hsales & _) & _).
  rewrite Hgen in Hrun. injection Hrun as <- _ ->.
  destruct (in_expected_bills m y uuid4 now db _ _ _ Hr)
    as (c & k & _ & _ & ->).
  assert (Hbilled : billed_sales db m y c = month_sales db m y c).
  { unfold billed_sales, customer_month_sales. apply to_list_all, Hcap. }
  unfold get_bill_details. rewrite Hfound.
  cbn [month year bill_customer_id expected_bill].
  rewrite Hsales. fold (month_sales db m y c).
  destruct (sorted_cursor
              (fun a b : DailySale A => String.leb (date a) (date b))
              (fun s => String.eqb (customer_id s) (cust_id c)
                        && date_in (month_window m y) (date s))
              1000 (daily_sales db) (fun a b => String.leb_total _ _))
    as (_ & _ & Hin & Hperm).
  fold (month_sales db m y c) in Hin, Hperm.
  specialize (Hperm (Hcap c)).
  eexists. split; [reflexivity|]. split; [|split].
  - cbn [sales_count expected_bill]. rewrite Hbilled.
    now rewrite (Permutation_length Hperm).
  - intros s Hs. destruct (Hin s Hs) as [_ H].
    apply andb_prop in H. destruct H as [H _]. now apply String.eqb_eq.
  - intros EX. cbn [total_sales total_paid expected_bill]. rewrite Hbilled.
    split; apply py_sum_perm, Permutation_map, Permutation_sym, Hperm.
Qed.

(** January 2024 on [january_db]: Asha's bill [b7] and its two sales. *)
Lemma bill_details_after_generation_witness :
  exists db' msg r sales,
    generate_monthly_bills 1 2024 (fun _ => "new") (fun _ => "t9") january_db
    = (db', Ok (msg, [r])) /\
    get_bill_details "b7" db' = Ok (r, sales) /\
    sales_count r = Z.of_nat (List.length sales).
Proof.
  assert (Hnd : unique_customer_ids january_db).
  { unfold unique_customer_ids. simpl. repeat constructor; simpl.
    - intros [H|[H|[]]]; discriminate H.
    - intros [H|[]]; discriminate H.
    - tauto. }
  assert (Hcap : forall c,
             (List.length (month_sales january_db 1 2024 c) <= 1000)%nat).
  { intros c. unfold month_sales, find.
    eapply Nat.le_trans; [apply filter_length_le|]. simpl. lia. }
  destruct (generate_monthly_bills 1 2024 (fun _ => "new") (fun _ => "t9")
              january_db) as [db' [[msg bills]|e]] eqn:Hgen;
    vm_compute in Hgen; [|discriminate].
  injection Hgen as <- <- <-.
  eexists _, _, _.
  match goal with
  | |- exists sales, (?d, Ok (?mm, [?b])) = _ /\ _ =>
      destruct (bill_details_after_generation Z Z_Amount 1 2024
                  (fun _ => "new") (fun _ => "t9") january_db d mm [b] b
                  Hnd Hcap) as (sales & Hd & Hc & _);
        [vm_compute; reflexivity|now left|reflexivity|]
  end.
  exists sales. split; [reflexivity|]. split; [exact Hd|exact Hc].
Defined.

(** ** Running the generator again *)
Section RegenerateFacts.
Context {A : Type} {AM : Amount A}.
Variables (m y : Z).

(** On a database that stores every bill of a first run under its key and
    has the same sales, a second run computes the bills of the first, with
    its own timestamps. *)
Lemma expected_bills_again (db db1 : DB A) (uuid4 uuid4' now now' : nat -> string)
      cs :
  daily_sales db1 = daily_sales db ->
  forall k,
    (forall r, In r (expected_bills db m y uuid4 now k cs) ->
               find_one (by_bill_key (bill_customer_id r) m y)
                        (monthly_bills db1) = Some r) ->
    expected_bills db1 m y uuid4' now' k cs
    = expected_bills db m y uuid4 now' k cs.
Proof.
  intros Hd. induction cs as [|c rest IH]; intros k Hstored;
    [reflexivity|].
  cbn [expected_bills] in *. rewrite (has_sales_ext m y db db1 c Hd).
  destruct (has_sales db m y c).
  - f_equal.
    + specialize (Hstored _ (or_introl eq_refl)).
      cbn [bill_customer_id expected_bill] in Hstored.
      unfold expected_bill.
      rewrite (billed_sales_ext m y db db1 c Hd), Hstored.
      cbn [bill_id]. reflexivity.
    + apply IH. intros r Hr. apply Hstored. now right.
  - apply IH. exact Hstored.
Qed.

Lemma expected_bills_fields (db : DB A) (uuid4 now now' : nat -> string)
      {T : Type} (f : MonthlyBill A -> T) cs :
  (forall k c, f (expected_bill db m y uuid4 now k c)
               = f (expected_bill db m y uuid4 now' k c)) ->
  forall k,
    map f (expected_bills db m y uuid4 now k cs)
    = map f (expected_bills db m y uuid4 now' k cs).
Proof.
  intros Hf. induction cs as [|c rest IH]; intros k; [reflexivity|].
  cbn [expected_bills]. destruct (has_sales db m y c); [|apply IH].
  cbn [map]. now rewrite Hf, IH.
Qed.
End RegenerateFacts.

(** X14. Generating the bills of a month twice, with no sale changed in
    between and unique customer identifiers: the second run returns a bill
    for the same customers, under the same identifiers and with the same
    totals, payments, balances due and counts as the first, all with
    [email_sent = false]; it adds no bill record (the stored identifiers are
    those after the first run). *)
Theorem generate_monthly_bills_again :
  forall (A : Type) (AM : Amount A) (m y : Z)
         (uuid4 now uuid4' now' : nat -> string) (db : DB A),
    unique_customer_ids db ->
    exists db1 msg1 bills1 db2 msg2 bills2,
      generate_monthly_bills m y uuid4 now db = (db1, Ok (msg1, bills1)) /\
      generate_monthly_bills m y uuid4' now' db1 = (db2, Ok (msg2, bills2)) /\
      map bill_id bills2 = map bill_id bills1 /\
      map bill_customer_id bills2 = map bill_customer_id bills1 /\
      map total_sales bills2 = map total_sales bills1 /\
      map total_paid bills2 = map total_paid bills1 /\
      map balance_due bills2 = map balance_due bills1 /\
      map sales_count bills2 = map sales_count bills1 /\
      Forall (fun r => email_sent r = false) bills2 /\
      map bill_id (monthly_bills db2) = map bill_id (monthly_bills db1) /\
      (forall r, In r bills2 ->
         find_one (by_bill_key (bill_customer_id r) m y) (monthly_bills db2)
         = Some r).
Proof.
  intros A AM m y uuid4 now uuid4' now' db Hnd.
  destruct (generate_monthly_bills_run m y uuid4 now db Hnd)
    as (db1 & msg1 & Hrun1 & (Hp & Hc & Hd & Hg) & Hstored1 & _).
  assert (Hnd1 : unique_customer_ids db1)
    by (unfold unique_customer_ids; now rewrite Hc).
  destruct (generate_monthly_bills_run m y uuid4' now' db1 Hnd1)
    as (db2 & msg2 & Hrun2 & _ & Hstored2 & Hids2).
  assert (Hvis : visited_customers db1 = visited_customers db)
    by (unfold visited_customers; now rewrite Hc).
  assert (Hagain : expected_bills db1 m y uuid4' now' 0 (visited_customers db1)
                   = expected_bills db m y uuid4 now' 0 (visited_customers db)).
  { rewrite Hvis.
    apply (expected_bills_again m y db db1 uuid4 uuid4' now now'); assumption. }
  rewrite Hagain in Hrun2, Hstored2, Hids2.
  exists db1, msg1,
    (expected_bills db m y uuid4 now 0 (visited_customers db)), db2, msg2,
    (expected_bills db m y uuid4 now' 0 (visited_customers db)).
  split; [exact Hrun1|]. split; [exact Hrun2|].
  repeat (split;
          [apply (expected_bills_fields m y db uuid4 now' now); reflexivity|]).
  split; [|split; [|exact Hstored2]].
  - apply Forall_forall. intros r Hr.
    destruct (in_expected_bills m y uuid4 now' db _ _ _ Hr)
      as (c & k & _ & _ & ->). reflexivity.
  - rewrite Hids2.
    rewrite filter_none; [now rewrite app_nil_r|].
    intros r Hr. apply negb_false_iff. unfold has_bill.
    assert (Hr1 : exists r1,
               find_one (by_bill_key (bill_customer_id r) m y)
                        (monthly_bills db1) = Some r1).
    { destruct (in_expected_bills m y uuid4 now' db _ _ _ Hr)
        as (c & k & Hcv & Hs & ->).
      cbn [bill_customer_id expected_bill].
      clear - Hstored1 Hcv Hs.
      assert (H : forall cs k0,
                 In c cs -> has_sales db m y c = true ->
                 exists r1,
                   In r1 (expected_bills db m y uuid4 now k0 cs) /\
                   bill_customer_id r1 = cust_id c).
      { induction cs as [|c0 rest IH]; intros k0 Hin Hs'; [destruct Hin|].
        cbn [expected_bills]. destruct Hin as [->|Hin].
        - rewrite Hs'. eexists. split; [now left|reflexivity].
        - destruct (IH (if has_sales db m y c0 then S k0 else k0) Hin Hs')
            as (r1 & H1 & H2).
          exists r1. split; [|exact H2].
          destruct (has_sales db m y c0); [now right|exact H1]. }
      destruct (H _ 0%nat Hcv Hs) as (r1 & H1 & H2).
      exists r1. rewrite <- H2. now apply Hstored1. }
    destruct Hr1 as (r1 & ->). reflexivity.
Qed.

(** January 2024 on [january_db], generated twice. *)
Lemma generate_monthly_bills_again_witness :
  exists db1 msg1 bills1 db2 msg2 bills2,
    generate_monthly_bills 1 2024 (fun _ => "n1") (fun _ => "t8") january_db
    = (db1, Ok (msg1, bills1)) /\
    generate_monthly_bills 1 2024 (fun _ => "n2") (fun _ => "t9") db1
    = (db2, Ok (msg2, bills2)) /\
    map bill_id bills2 = map bill_id bills1 /\
    map bill_id (monthly_bills db2) = map bill_id (monthly_bills db1).
Proof.
  assert (Hnd : unique_customer_ids january_db).
  { unfold unique_customer_ids. simpl. repeat constructor; simpl.
    - intros [H|[H|[]]]; discriminate H.
    - intros [H|[]]; discriminate H.
    - tauto. }
  destruct (generate_monthly_bills_again Z Z_Amount 1 2024
              (fun _ => "n1") (fun _ => "t8") (fun _ => "n2") (fun _ => "t9")
              january_db Hnd)
    as (db1 & msg1 & bills1 & db2 & msg2 & bills2 & H1 & H2 & H3 & _ & _ & _
        & _ & _ & _ & H4 & _).
  now exists db1, msg1, bills1, db2, msg2, bills2.
Defined.

Lemma NoDup_map_inj_in {X Y} (f : X -> Y) (l : list X) (a b : X) :
  NoDup (map f l) -> In a l -> In b l -> f a = f b -> a = b.
Proof.
  induction l as [|x l IH]; simpl; intros Hnd Ha Hb E; [tauto|].
  inversion Hnd as [|? ? Hx Hl]; subst.
  destruct Ha as [->|Ha], Hb as [->|Hb]; auto.
  - exfalso. apply Hx. rewrite E. now apply in_map.
  - exfalso. apply Hx. rewrite <- E. now apply in_map.
Qed.

(** X15. A deactivated customer can still buy but is not billed.  With unique
    customer identifiers, for a stored customer whose active flag is off:
    [get_customer] still returns it, [get_customers] with [active_only]
    leaves it out, [create_daily_sale] for it succeeds and raises its
    balance as for anyone, and [generate_monthly_bills] returns no bill for
    it, whatever sales it has in the month. *)
Theorem inactive_customer_sold_not_billed :
  forall (A : Type) (AM : Amount A) (cid : string) (c : Customer A)
         (db : DB A),
    unique_customer_ids db ->
    find_one (by_cust_id cid) (customers db) = Some c ->
    cust_is_active c = false ->
    get_customer cid db = Ok c /\
    ~ In c (get_customers true db) /\
    (forall (data : DailySaleCreate A) (new_id now : string),
        dsc_customer_id data = cid ->
        exists sale db' c',
          create_daily_sale data new_id now db = (db', Ok sale) /\
          find_one (by_cust_id cid) (customers db') = Some c' /\
          outstanding_balance c'
          = outstanding_balance c
              [+] (total_amount sale [-] paid_amount sale)) /\
    (forall (m y : Z) (uuid4 now : nat -> string) db' msg bills,
        generate_monthly_bills m y uuid4 now db = (db', Ok (msg, bills)) ->
        ~ In cid (map bill_customer_id bills)).
Proof.
  intros A AM cid c db Hnd Hc Hoff.
  destruct (find_one_some _ _ _ Hc) as [Hin Hid].
  apply String.eqb_eq in Hid.
  split; [unfold get_customer; now rewrite Hc|]. split; [|split].
  - unfold get_customers, to_list, find. intros H.
    apply in_firstn, filter_In in H. destruct H as [_ H]. congruence.
  - intros data new_id now <-. unfold create_daily_sale. rewrite Hc.
    eexists _, _, _. split; [reflexivity|]. simpl. split.
    + apply find_customer_after_inc. exact Hc.
    + reflexivity.
  - intros m y uuid4 now db' msg bills Hgen Hbilled.
    destruct (generate_monthly_bills_run m y uuid4 now db Hnd)
      as (db0 & msg0 & Hrun & _).
    rewrite Hgen in Hrun. injection Hrun as _ _ ->.
    rewrite map_bill_customer_id_expected in Hbilled.
    apply in_map_iff in Hbilled. destruct Hbilled as (c' & Hid' & Hc').
    apply filter_In in Hc'. destruct Hc' as [Hc' _].
    unfold visited_customers, to_list, find in Hc'.
    apply in_firstn, filter_In in Hc'. destruct Hc' as [Hin' Hon].
    assert (E : c' = c)
      by (apply (NoDup_map_inj_in cust_id (customers db)); auto; congruence).
    congruence.
Qed.

(** On [january_db]: Chitra ([c3]) is inactive and bought on 2024-01-07. *)
Lemma inactive_customer_sold_not_billed_witness :
  exists db' msg bills,
    generate_monthly_bills 1 2024 (fun _ => "n") (fun _ => "t") january_db
    = (db', Ok (msg, bills)) /\
    ~ In "c3" (map bill_customer_id bills).
Proof.
  assert (Hnd : unique_customer_ids january_db).
  { unfold unique_customer_ids. simpl. repeat constructor; simpl.
    - intros [H|[H|[]]]; discriminate H.
    - intros [H|[]]; discriminate H.
    - tauto. }
  destruct (generate_monthly_bills 1 2024 (fun _ => "n") (fun _ => "t")
              january_db) as [db' [[msg bills]|e]] eqn:Hgen;
    [|vm_compute in Hgen; discriminate].
  exists db', msg, bills. split; [reflexivity|].
  exact (proj2 (proj2 (proj2
           (inactive_customer_sold_not_billed Z Z_Amount "c3"
              (january_customer "c3" "Chitra" false) january_db
              Hnd eq_refl eq_refl)))
           1 2024 (fun _ => "n") (fun _ => "t") db' msg bills Hgen).
Defined.

(** X16. A generated bill is listed.  With unique customer identifiers, every
    bill [r] the generator returns for ([m], [y]) is a stored bill of that
    period; [get_monthly_bills m y] lists it when the period has no more than
    1000 bills, and [get_customer_bills] lists it for its customer when that
    customer has no more than 100 bills. *)
Theorem generated_bill_listed :
  forall (A : Type) (AM : Amount A) (m y : Z) (uuid4 now : nat -> string)
         (db db' : DB A) (msg : string) (bills : list (MonthlyBill A))
         (r : MonthlyBill A),
    unique_customer_ids db ->
    generate_monthly_bills m y uuid4 now db = (db', Ok (msg, bills)) ->
    In r bills ->
    In r (monthly_bills db') /\ month r = m /\ year r = y /\
    ((List.length (find (fun b => ((month b =? m) && (year b =? y))%Z)
                        (monthly_bills db')) <= 1000)%nat ->
     In r (get_monthly_bills m y db')) /\
    ((List.length (find (fun b => String.eqb (bill_customer_id b)
                                             (bill_customer_id r))
                        (monthly_bills db')) <= 100)%nat ->
     In r (get_customer_bills (bill_customer_id r) db')).
Proof.
  intros A AM m y uuid4 now db db' msg bills r Hnd Hgen Hr.
  destruct (generate_monthly_bills_run m y uuid4 now db Hnd)
    as (db0 & msg0 & Hrun & _ & Hstored & _).
  rewrite Hgen in Hrun. injection Hrun as <- _ ->.
  assert (Hin : In r (monthly_bills db'))
    by (exact (proj1 (find_one_some _ _ _ (Hstored r Hr)))).
  destruct (in_expected_bills m y uuid4 now db _ _ _ Hr)
    as (c & k & _ & _ & E).
  assert (Hm : month r = m) by (rewrite E; reflexivity).
  assert (Hy : year r = y) by (rewrite E; reflexivity).
  split; [exact Hin|]. split; [exact Hm|]. split; [exact Hy|]. split.
  - intros Hlen. unfold get_monthly_bills. rewrite to_list_all by exact Hlen.
    apply filter_In. split; [exact Hin|].
    now rewrite Hm, Hy, !Z.eqb_refl.
  - intros Hlen.
    destruct (sorted_cursor later_bill
                (fun b : MonthlyBill A =>
                   String.eqb (bill_customer_id b) (bill_customer_id r))
                100 (monthly_bills db') later_bill_total)
      as (_ & _ & _ & Hperm).
    unfold get_customer_bills.
    eapply Permutation_in; [apply Permutation_sym, Hperm, Hlen|].
    apply filter_In. split; [exact Hin|apply String.eqb_refl].
Qed.

(** January 2024 on [january_db]: the one bill returned is listed. *)
Lemma generated_bill_listed_witness :
  exists db' msg r,
    generate_monthly_bills 1 2024 (fun _ => "n") (fun _ => "t") january_db
    = (db', Ok (msg, [r])) /\
    In r (monthly_bills db') /\
    In r (get_customer_bills "c1" db').
Proof.
  assert (Hnd : unique_customer_ids january_db).
  { unfold unique_customer_ids. simpl. repeat constructor; simpl.
    - intros [H|[H|[]]]; discriminate H.
    - intros [H|[]]; discriminate H.
    - tauto. }
  destruct (generate_monthly_bills 1 2024 (fun _ => "n") (fun _ => "t")
              january_db) as [db' [[msg bills]|e]] eqn:Hgen;
    [|vm_compute in Hgen; discriminate].
  assert (Hshape : exists r, bills = [r] /\ bill_customer_id r = "c1"
                             /\ List.length (monthly_bills db') = 1%nat).
  { vm_compute in Hgen. injection Hgen as <- _ <-.
    eexists. repeat split. }
  destruct Hshape as (r & -> & Hcid & Hlen).
  exists db', msg, r. split; [reflexivity|].
  destruct (generated_bill_listed Z Z_Amount 1 2024
              (fun _ => "n") (fun _ => "t") january_db db' msg [r] r
              Hnd Hgen (or_introl eq_refl)) as (Hin & _ & _ & _ & Hlist).
  split; [exact Hin|]. rewrite <- Hcid. apply Hlist.
  unfold find. eapply Nat.le_trans; [apply filter_length_le|]. lia.
Defined.

(** ** The dashboard summary *)
Section DashboardFacts.
Context {A : Type} {AM : Amount A} {EX : ExactAmount A}.

Lemma py_sum_zeros {X} (l : list X) : py_sum (map (fun _ => zero) l) = zero :> A.
Proof.
  induction l as [|x l IH]; [reflexivity|].
  cbn [map]. now rewrite py_sum_cons, IH, add_zero_l.
Qed.

(** Adding [v] to the one term of a sum that carries the key [k]. *)
Lemma py_sum_one_hot (X : Customer A -> A) (k : string) (v : A)
      (cs : list (Customer A)) :
  NoDup (map cust_id cs) -> In k (map cust_id cs) ->
  py_sum (map (fun c => if String.eqb k (cust_id c) then X c [+] v else X c) cs)
  = py_sum (map X cs) [+] v.
Proof.
  induction cs as [|c rest IH]; simpl; intros Hnd Hin; [tauto|].
  inversion Hnd as [|? ? Hc Hrest]; subst.
  rewrite !py_sum_cons.
  destruct (String.eqb k (cust_id c)) eqn:E.
  - apply String.eqb_eq in E. subst k.
    rewrite (map_ext_in _ X).
    + rewrite <- !add_assoc. f_equal. apply add_comm.
    + intros c' Hc'. destruct (String.eqb (cust_id c) (cust_id c')) eqn:E';
        [|reflexivity].
      apply String.eqb_eq in E'. exfalso. apply Hc. rewrite E'.
      now apply in_map.
  - apply String.eqb_neq in E. destruct Hin as [Hin|Hin]; [congruence|].
    rewrite (IH Hrest Hin). now rewrite add_assoc.
Qed.

(** With unique identifiers and no sale of an unknown customer, what the
    customers owe adds up to what the sales leave unpaid. *)
Lemma owed_partition (cs : list (Customer A)) (sales : list (DailySale A)) :
  NoDup (map cust_id cs) ->
  (forall s, In s sales -> In (customer_id s) (map cust_id cs)) ->
  py_sum (map (fun c => owed_of (cust_id c) sales) cs)
  = py_sum (map sale_owed sales).
Proof.
  intros Hnd. induction sales as [|s sales IH] using rev_ind; intros Hall.
  - cbn [map]. apply (py_sum_zeros cs).
  - rewrite map_app. cbn [map]. rewrite py_sum_snoc.
    rewrite <- IH by (intros; apply Hall, in_app_iff; now left).
    rewrite <- (py_sum_one_hot (fun c => owed_of (cust_id c) sales)
                  (customer_id s) (sale_owed s) cs Hnd)
      by (apply Hall, in_app_iff; right; now left).
    f_equal. apply map_ext. intros c. rewrite owed_of_snoc.
    unfold sale_of. reflexivity.
Qed.
End DashboardFacts.

Lemma filter_true {X} (l : list X) : List.filter (fun _ => true) l = l.
Proof. induction l as [|x l IH]; simpl; congruence. Qed.

(** X17. The dashboard's total outstanding is the unpaid part of all daily
    sales.  In exact arithmetic, with unique customer identifiers, every
    balance equal to what the customer's sales say is owed, no sale of an
    unknown customer and no more than 1000 customers:
    [total_outstanding] is the sum over all daily sales of
    [total_amount - paid_amount]. *)
Theorem dashboard_total_outstanding :
  forall (A : Type) (AM : Amount A),
    ExactAmount A ->
    forall (today : string) (cm cy : Z) (db : DB A),
      unique_customer_ids db ->
      balanced db ->
      (forall s, In s (daily_sales db) ->
                 In (customer_id s) (map cust_id (customers db))) ->
      (List.length (customers db) <= 1000)%nat ->
      total_outstanding (get_dashboard_stats today cm cy db)
      = py_sum (map sale_owed (daily_sales db)).
Proof.
  intros A AM EX today cm cy db Hnd Hbal Hknown Hlen.
  unfold get_dashboard_stats. cbn [total_outstanding].
  unfold find. rewrite filter_true, to_list_all by exact Hlen.
  rewrite <- (owed_partition (customers db) (daily_sales db) Hnd Hknown).
  f_equal. apply map_ext_in. intros c Hc. exact (Hbal c Hc).
Qed.

(** On the ledger that [exact_ops] leaves: one sale of 30, unpaid. *)
Lemma dashboard_total_outstanding_witness :
  exists db,
    run_ops exact_ops (one_customer 0) = Some db /\
    total_outstanding (get_dashboard_stats "2024-01-20" 1 2024 db) = 30.
Proof.
  eexists. split; [vm_compute; reflexivity|].
  rewrite (dashboard_total_outstanding Z Z_Amount Z_ExactAmount).
  - reflexivity.
  - unfold unique_customer_ids. simpl. repeat constructor. simpl. tauto.
  - intros c [<-|[]]. reflexivity.
  - simpl. intros s [<-|[]]. simpl. now left.
  - simpl. lia.
Defined.

(** ** Products *)


(** X19. A product is found under its identifier from creation to deletion.
    With an identifier no product carries yet: [create_product] succeeds with
    an active product, [get_product] returns it, [delete_product] succeeds
    and gives back the products as they were, after which [get_product]
    gives the 404.  None of this changes a recorded sale. *)
Theorem product_lifecycle :
  forall (A : Type) (AM : Amount A) (data : ProductCreate A)
         (new_id now : string) (db : DB A),
    find_one (by_prod_id new_id) (products db) = None ->
    exists p db1 db2,
      create_product data new_id now db = (db1, Ok p) /\
      prod_id p = new_id /\ prod_is_active p = true /\
      get_product new_id db1 = Ok p /\
      delete_product new_id db1 = (db2, Ok "Product deleted successfully") /\
      get_product new_id db2
      = Raise (HTTPException 404 "Product not found") /\
      products db2 = products db /\
      daily_sales db1 = daily_sales db /\ daily_sales db2 = daily_sales db /\
      guest_sales db1 = guest_sales db /\ guest_sales db2 = guest_sales db.
Proof.
  intros A AM data new_id now db Hfresh.
  assert (Hc : exists p db1,
             create_product data new_id now db = (db1, Ok p) /\
             prod_id p = new_id /\ prod_is_active p = true /\
             products db1 = products db ++ [p] /\
             daily_sales db1 = daily_sales db /\
             guest_sales db1 = guest_sales db).
  { unfold create_product. eexists _, _. split; [reflexivity|].
    repeat split. }
  destruct Hc as (p & db1 & Hc & Hid & Hact & Hps & Hds & Hgs).
  assert (Hq : by_prod_id new_id p = true)
    by (unfold by_prod_id; rewrite Hid; apply String.eqb_refl).
  destruct (find_one_snoc_fresh (by_prod_id new_id) (products db) p
              Hfresh Hq) as [Hf Hd].
  exists p, db1,
    (set_products db1 (delete_one (by_prod_id new_id) (products db1))).
  split; [exact Hc|]. split; [exact Hid|]. split; [exact Hact|].
  split; [unfold get_product; now rewrite Hps, Hf|].
  split; [unfold delete_product; now rewrite Hps, Hf|].
  split.
  { unfold get_product. cbn [products set_products].
    now rewrite Hps, Hd, Hfresh. }
  cbn [products daily_sales guest_sales set_products].
  rewrite Hps, Hd. auto.
Qed.

(** In binary64, on [example_db]. *)
Lemma product_lifecycle_witness :
  exists p db1,
    create_product
      {| pc_name := "Milk"; pc_category := "dairy"; pc_unit := "liter";
         pc_price := 50%float; pc_description := Some "" |}
      "p1" "t4" example_db
    = (db1, Ok p) /\
    get_product "p1" db1 = Ok p.
Proof.
  destruct (product_lifecycle float float_Amount
              {| pc_name := "Milk"; pc_category := "dairy";
                 pc_unit := "liter"; pc_price := 50%float;
                 pc_description := Some "" |}
              "p1" "t4" example_db eq_refl)
    as (p & db1 & _ & H1 & _ & _ & H2 & _).
  now exists p, db1.
Defined.

(** X20. [get_product_categories] lists every category once: the list has no
    duplicate, and a category is in it exactly when some stored product,
    active or not, has it.  In particular the category of a product just
    created is listed, with those listed before. *)
Theorem get_product_categories_spec :
  forall (A : Type) (AM : Amount A) (db : DB A),
    NoDup (get_product_categories db) /\
    (forall k, In k (get_product_categories db)
               <-> exists p, In p (products db) /\ prod_category p = k) /\
    (forall (data : ProductCreate A) (new_id now : string) k,
        In k (get_product_categories (fst (create_product data new_id now db)))
        <-> In k (get_product_categories db) \/ k = pc_category data).
Proof.
  intros A AM db. unfold get_product_categories, distinct.
  split; [apply NoDup_nodup|]. split.
  - intros k. rewrite nodup_In, in_map_iff. split; intros (p & H1 & H2).
    + now exists p.
    + now exists p.
  - intros data new_id now k. unfold create_product. simpl.
    unfold insert_one. rewrite !nodup_In, map_app, in_app_iff. simpl.
    intuition.
Qed.

(** ** The dashboard after a sale *)

Lemma find_snoc_hit {D} (q : D -> bool) (l : list D) (d : D) (n : nat) :
  q d = true -> (List.length (find q l) < n)%nat ->
  to_list n (find q (l ++ [d])) = to_list n (find q l) ++ [d].
Proof.
  intros Hq Hlen. unfold find in *. rewrite filter_app. simpl. rewrite Hq.
  rewrite !to_list_all; [reflexivity|lia|].
  rewrite length_app. simpl. lia.
Qed.

Lemma find_snoc_miss {D} (q : D -> bool) (l : list D) (d : D) :
  q d = false -> find q (l ++ [d]) = find q l.
Proof.
  intros Hq. unfold find. rewrite filter_app. simpl. rewrite Hq.
  apply app_nil_r.
Qed.

Lemma update_one_length {D} (q : D -> bool) (u : D -> D) (l : list D) :
  List.length (update_one q u l) = List.length l.
Proof.
  induction l as [|x l IH]; simpl; [reflexivity|].
  destruct (q x); simpl; congruence.
Qed.

Lemma count_update_one {D} (q p : D -> bool) (u : D -> D) (l : list D) :
  (forall d, p (u d) = p d) ->
  count_documents p (update_one q u l) = count_documents p l.
Proof.
  intros Hp. unfold count_documents, find. f_equal.
  induction l as [|x l IH]; simpl; [reflexivity|].
  destruct (q x); simpl.
  - rewrite Hp. now destruct (p x).
  - destruct (p x); simpl; congruence.
Qed.

Section DashboardSaleFacts.
Context {A : Type} {AM : Amount A} {EX : ExactAmount A}.

(** [$inc] on one customer moves the sum of the balances by the increment. *)
Lemma py_sum_inc (q : Customer A -> bool) (delta : A) (cs : list (Customer A))
      (c : Customer A) :
  find_one q cs = Some c ->
  py_sum (map outstanding_balance
              (update_one q (inc_outstanding_balance delta) cs))
  = py_sum (map outstanding_balance cs) [+] delta.
Proof.
  intros Hc.
  destruct (update_one_split q (inc_outstanding_balance delta) cs c Hc)
    as (pre & post & Hpre & Hupd & _).
  rewrite Hupd, Hpre.
  rewrite !map_app. cbn [map]. rewrite !py_sum_middle.
  cbn [outstanding_balance inc_outstanding_balance].
  apply add_assoc.
Qed.

Lemma add_swap_r (x y z : A) : (x [+] z) [+] y = (x [+] y) [+] z.
Proof. rewrite <- !add_assoc. f_equal. apply add_comm. Qed.
End DashboardSaleFacts.

(** X21. The dashboard after a daily sale, in exact arithmetic and with no
    more than 1000 customers.  After a successful [create_daily_sale]:
    [total_outstanding] has grown by [total_amount - paid_amount] of the
    sale, and the two counts are as before.  When the sale is dated [today]
    and the day had fewer than 1000 daily sales, [today_revenue] has grown by
    the sale's total and [today_transactions] by one; when it is dated
    another day the two are as before.  When the date lies in the window of
    the current month and the month had fewer than 10000 daily sales,
    [month_revenue] has grown by the sale's total and [month_sales_count] by
    one. *)
Theorem dashboard_after_daily_sale :
  forall (A : Type) (AM : Amount A),
    ExactAmount A ->
    forall (data : DailySaleCreate A) (new_id now today : string) (cm cy : Z)
           (db : DB A) (c : Customer A),
      find_one (by_cust_id (dsc_customer_id data)) (customers db) = Some c ->
      (List.length (customers db) <= 1000)%nat ->
      exists sale db',
        create_daily_sale data new_id now db = (db', Ok sale) /\
        total_outstanding (get_dashboard_stats today cm cy db')
        = total_outstanding (get_dashboard_stats today cm cy db)
            [+] (total_amount sale [-] paid_amount sale) /\
        total_customers (get_dashboard_stats today cm cy db')
        = total_customers (get_dashboard_stats today cm cy db) /\
        total_products (get_dashboard_stats today cm cy db')
        = total_products (get_dashboard_stats today cm cy db) /\
        (dsc_date data = today ->
         (List.length (daily_on db today) < 1000)%nat ->
         today_revenue (get_dashboard_stats today cm cy db')
         = today_revenue (get_dashboard_stats today cm cy db)
             [+] total_amount sale /\
         today_transactions (get_dashboard_stats today cm cy db')
         = today_transactions (get_dashboard_stats today cm cy db) + 1) /\
        (dsc_date data <> today ->
         today_revenue (get_dashboard_stats today cm cy db')
         = today_revenue (get_dashboard_stats today cm cy db) /\
         today_transactions (get_dashboard_stats today cm cy db')
         = today_transactions (get_dashboard_stats today cm cy db)) /\
        (date_in (month_window cm cy) (dsc_date data) = true ->
         (List.length (find (fun s => date_in (month_window cm cy) (date s))
                            (daily_sales db)) < Z.to_nat 10000)%nat ->
         month_revenue (get_dashboard_stats today cm cy db')
         = month_revenue (get_dashboard_stats today cm cy db)
             [+] total_amount sale /\
         month_sales_count (get_dashboard_stats today cm cy db')
         = month_sales_count (get_dashboard_stats today cm cy db) + 1).
Proof.
  intros A AM EX data new_id now today cm cy db c Hc Hlen.
  assert (Hs : exists sale db',
             create_daily_sale data new_id now db = (db', Ok sale) /\
             date sale = dsc_date data /\
             paid_amount sale = dsc_paid_amount data /\
             daily_sales db' = daily_sales db ++ [sale] /\
             customers db'
             = update_one (by_cust_id (dsc_customer_id data))
                 (inc_outstanding_balance
                    (total_amount sale [-] paid_amount sale))
                 (customers db) /\
             products db' = products db /\
             guest_sales db' = guest_sales db).
  { unfold create_daily_sale. rewrite Hc. eexists _, _.
    split; [reflexivity|]. repeat split. }
  destruct Hs as (sale & db' & Hcr & Hdate & Hpaid & Hds & Hcs & Hps & Hgs).
  exists sale, db'. split; [exact Hcr|].
  unfold get_dashboard_stats.
  cbn [total_outstanding total_customers total_products today_revenue
       today_transactions month_revenue month_sales_count].
  rewrite Hds, Hcs, Hps, Hgs.
  split.
  { unfold find. rewrite !filter_true.
    rewrite !to_list_all by (rewrite ?update_one_length; exact Hlen).
    exact (py_sum_inc _ _ _ c Hc). }
  split; [apply count_update_one; reflexivity|].
  split; [reflexivity|].
  split; [|split].
  - intros Htoday Hcap.
    rewrite (find_snoc_hit (fun s => String.eqb (date s) today)
               (daily_sales db) sale 1000)
      by first [exact Hcap | rewrite Hdate, Htoday; apply String.eqb_refl].
    rewrite map_app, length_app. cbn [map List.length].
    rewrite py_sum_snoc. split; [apply add_swap_r|lia].
  - intros Hother.
    rewrite (find_snoc_miss (fun s => String.eqb (date s) today)
               (daily_sales db) sale)
      by (rewrite Hdate; now apply String.eqb_neq).
    split; reflexivity.
  - intros Hin Hcap.
    rewrite (find_snoc_hit (fun s => date_in (month_window cm cy) (date s))
               (daily_sales db) sale (Z.to_nat 10000))
      by first [exact Hcap | rewrite Hdate; exact Hin].
    rewrite map_app, length_app. cbn [map List.length].
    rewrite py_sum_snoc. split; [apply add_swap_r|lia].
Qed.

(** On [january_db]: its customer buys once more. *)
Lemma dashboard_after_daily_sale_witness :
  exists sale db',
    create_daily_sale
      {| dsc_customer_id := "c1";
         dsc_date := "2024-01-20"; dsc_items := [];
         dsc_paid_amount := 0 |}
      "s9" "t9" january_db
    = (db', Ok sale) /\
    total_outstanding (get_dashboard_stats "2024-01-20" 1 2024 db')
    = total_outstanding (get_dashboard_stats "2024-01-20" 1 2024 january_db)
        [+] (total_amount sale [-] paid_amount sale).
Proof.
  destruct (dashboard_after_daily_sale Z Z_Amount Z_ExactAmount
              {| dsc_customer_id := "c1";
                 dsc_date := "2024-01-20"; dsc_items := [];
                 dsc_paid_amount := 0 |}
              "s9" "t9" "2024-01-20" 1 2024 january_db
              (january_customer "c1" "Asha" true) eq_refl ltac:(simpl; lia))
    as (sale & db' & H1 & H2 & _).
  now exists sale, db'.
Defined.

(** X22. The dashboard after a guest sale, in exact arithmetic.
    [create_guest_sale] on the day [today] leaves [total_outstanding] and
    the two counts as they were; when the day had fewer than 1000 guest
    sales, [today_revenue] has grown by the sale's total and
    [today_transactions] by one; when [today] lies in the window of the
    current month and the month had fewer than 10000 guest sales,
    [month_revenue] has grown by the sale's total and [month_sales_count] by
    one. *)
Theorem dashboard_after_guest_sale :
  forall (A : Type) (AM : Amount A),
    ExactAmount A ->
    forall (data : GuestSaleCreate A) (new_id today now : string) (cm cy : Z)
           (db : DB A),
      exists sale db',
        create_guest_sale data new_id today now db = (db', Ok sale) /\
        total_outstanding (get_dashboard_stats today cm cy db')
        = total_outstanding (get_dashboard_stats today cm cy db) /\
        total_customers (get_dashboard_stats today cm cy db')
        = total_customers (get_dashboard_stats today cm cy db) /\
        total_products (get_dashboard_stats today cm cy db')
        = total_products (get_dashboard_stats today cm cy db) /\
        ((List.length (guest_on db today) < 1000)%nat ->
         today_revenue (get_dashboard_stats today cm cy db')
         = today_revenue (get_dashboard_stats today cm cy db)
             [+] gs_total_amount sale /\
         today_transactions (get_dashboard_stats today cm cy db')
         = today_transactions (get_dashboard_stats today cm cy db) + 1) /\
        (date_in (month_window cm cy) today = true ->
         (List.length (find (fun s => date_in (month_window cm cy) (gs_date s))
                            (guest_sales db)) < Z.to_nat 10000)%nat ->
         month_revenue (get_dashboard_stats today cm cy db')
         = month_revenue (get_dashboard_stats today cm cy db)
             [+] gs_total_amount sale /\
         month_sales_count (get_dashboard_stats today cm cy db')
         = month_sales_count (get_dashboard_stats today cm cy db) + 1).
Proof.
  intros A AM EX data new_id today now cm cy db.
  assert (Hs : exists sale db',
             create_guest_sale data new_id today now db = (db', Ok sale) /\
             gs_date sale = today /\
             guest_sales db' = guest_sales db ++ [sale] /\
             daily_sales db' = daily_sales db /\
             customers db' = customers db /\
             products db' = products db).
  { unfold create_guest_sale. eexists _, _.
    split; [reflexivity|]. repeat split. }
  destruct Hs as (sale & db' & Hcr & Hdate & Hgs & Hds & Hcs & Hps).
  exists sale, db'. split; [exact Hcr|].
  unfold get_dashboard_stats.
  cbn [total_outstanding total_customers total_products today_revenue
       today_transactions month_revenue month_sales_count].
  rewrite Hds, Hcs, Hps, Hgs.
  split; [reflexivity|]. split; [reflexivity|]. split; [reflexivity|].
  split.
  - intros Hcap.
    rewrite (find_snoc_hit (fun s => String.eqb (gs_date s) today)
               (guest_sales db) sale 1000)
      by first [exact Hcap | rewrite Hdate; apply String.eqb_refl].
    rewrite map_app, length_app. cbn [map List.length].
    rewrite py_sum_snoc. split; [apply add_assoc|lia].
  - intros Hin Hcap.
    rewrite (find_snoc_hit (fun s => date_in (month_window cm cy) (gs_date s))
               (guest_sales db) sale (Z.to_nat 10000))
      by first [exact Hcap | rewrite Hdate; exact Hin].
    rewrite map_app, length_app. cbn [map List.length].
    rewrite py_sum_snoc. split; [apply add_assoc|lia].
Qed.

(** On [january_db]: a guest buys nothing, on 20 January 2024. *)
Lemma dashboard_after_guest_sale_witness :
  exists sale db',
    create_guest_sale
      {| gsc_guest_name := Some "G"; gsc_guest_phone := None;
         gsc_items := []; gsc_payment_method := "cash" |}
      "g9" "2024-01-20" "t9" january_db
    = (db', Ok sale) /\
    total_outstanding (get_dashboard_stats "2024-01-20" 1 2024 db')
    = total_outstanding (get_dashboard_stats "2024-01-20" 1 2024 january_db).
Proof.
  destruct (dashboard_after_guest_sale Z Z_Amount Z_ExactAmount
              {| gsc_guest_name := Some "G"; gsc_guest_phone := None;
                 gsc_items := []; gsc_payment_method := "cash" |}
              "g9" "2024-01-20" "t9" 1 2024 january_db)
    as (sale & db' & H1 & H2 & _).
  now exists sale, db'.
Defined.
